(** * Event-driven index synchronisation of the to-do service

    A shallow embedding of the two index workers of the repository:
    the poll-based worker (Kafka, [src/unnamed/part_000]) and the
    subscribe-based worker (Redis pub/sub, [src/unnamed/part_001]).
    Each worker is a [Server] with a consuming goroutine started by
    [ListenAndServe] and a [Shutdown] that waits for it.

    External collaborators (the Kafka consumer, the search client, the
    logger) are interfaces; every call to them is recorded in a trace, so
    that "is called with", "is not committed" and "no further call" are
    statements about traces. *)

From Stdlib Require Import ZArith Ascii String List.
From stdpp Require Import base option list strings gmap.

Local Open Scope string_scope.
Local Open Scope Z_scope.
Local Set Warnings "-register-all".

(** ** Go primitives used by both workers *)

Module Go.

(** A Go [error] value, by its message. [nil] is [None]. *)
Definition error := string.

(** An unbuffered [chan struct{}] made by [make]: only whether it has
    been closed matters here. *)
Inductive chan := ChanOpen | ChanClosed.

(** [close(c)]: closing a closed channel panics ([None]). *)
Definition close (c : chan) : option chan :=
  match c with
  | ChanOpen => Some ChanClosed
  | ChanClosed => None
  end.

(** A receive from a channel nobody sends on is ready exactly when the
    channel is closed. *)
Definition recv_ready (c : chan) : bool :=
  match c with
  | ChanOpen => false
  | ChanClosed => true
  end.

(** A [select] with two receive cases and no [default]: it blocks
    ([None]) while neither is ready, takes the ready one, and when both
    are ready takes either; [pick] is the runtime's choice then. *)
Inductive case2 := First | Second.

Definition select2 (ready1 ready2 : bool) (pick : case2) : option case2 :=
  match ready1, ready2 with
  | false, false => None
  | true, false => Some First
  | false, true => Some Second
  | true, true => Some pick
  end.

(** The key folding of [encoding/json]: an object key names a struct
    field when [foldName] of both is the same, so without regard to case,
    by Unicode's simple case folding.  Strings are their UTF-8 bytes.  A
    small ASCII letter goes to its capital.  A rune outside ASCII goes to
    the least rune of its case orbit; that is an ASCII letter for two
    runes only: U+017F (long s, bytes C5 BF) goes to [S], and U+212A
    (Kelvin sign, bytes E2 84 AA) goes to [K].  Any other rune outside
    ASCII folds to a rune outside ASCII; its bytes are kept as they are
    here, which decides the comparison with a field name the same way,
    the field names of the structs decoded here being ASCII. *)
Definition upper (a : ascii) : ascii :=
  let n := nat_of_ascii a in
  if (Nat.leb 97 n && Nat.leb n 122)%bool then ascii_of_nat (n - 32) else a.

Definition isByte (n : nat) (a : ascii) : bool := Nat.eqb (nat_of_ascii a) n.

Fixpoint foldName (s : string) : string :=
  match s with
  | EmptyString => EmptyString
  | String a r =>
      match r with
      | String b r' =>
          if (isByte 197 a && isByte 191 b)%bool
          then String "S" (foldName r')
          else
            match r' with
            | String c r'' =>
                if (isByte 226 a && isByte 132 b && isByte 170 c)%bool
                then String "K" (foldName r'')
                else String (upper a) (foldName r)
            | EmptyString => String (upper a) (foldName r)
            end
      | EmptyString => String (upper a) EmptyString
      end
  end.

End Go.

(** ** The domain entity *)

(** Modelled from the spec: the declaration of [internal.Dates] is not
    among the sources; a start and a due timestamp, each an instant
    counted from Go's zero time (the sources store [time.Time] values in
    [Start] and [Due]). *)
Record Dates := { Start : Z; Due : Z }.

(** Modelled from the spec: the declaration of [internal.Task] (and of
    [internal.Priority]) is not among the sources; the fields are those
    of the spec's data model, under the names the sources use when they
    build a task.  It is a plain struct, decoded field by field, with
    no unmarshalling method of its own.  [Priority] is a signed integer
    (the tests convert -1 to it), here of 8 bits. *)
Record Task := {
  ID : string;
  Description : string;
  Priority : Z;
  TaskDates : Dates;
  IsDone : bool
}.

Definition zeroDates : Dates := {| Start := 0; Due := 0 |}.

Definition zeroTask : Task :=
  {| ID := EmptyString; Description := EmptyString; Priority := 0;
     TaskDates := zeroDates; IsDone := false |}.

(** ** JSON texts and the decoding of [encoding/json] *)

Module Json.

(** A JSON text after tokenising.  A number literal is either a base-10
    integer or something else (a fraction, an exponent). *)
Inductive json :=
| JNull
| JBool (b : bool)
| JInt (z : Z)
| JFrac
| JString (s : string)
| JArray (items : list json)
| JObject (members : list (string * json)).

(** What [msg.Value] / [msg.Payload] spells for [Decode], which reads
    one JSON value: bytes that do not start with one (a syntax error, or
    nothing at all), or the value they start with. *)
Inductive wire :=
| Malformed
| Text (j : json).

(** Storing a JSON value into a Go variable of a given type.  The
    variable's current content is an argument because [null] leaves it
    as it is, and a repeated key stores twice.  [None] is a decoding
    error. *)
Definition storeString (j : json) (cur : string) : option string :=
  match j with
  | JNull => Some cur
  | JString s => Some s
  | _ => None
  end.

Definition storeBool (j : json) (cur : bool) : option bool :=
  match j with
  | JNull => Some cur
  | JBool b => Some b
  | _ => None
  end.

Definition storeInt8 (j : json) (cur : Z) : option Z :=
  match j with
  | JNull => Some cur
  | JInt z => if ((-128 <=? z) && (z <=? 127))%bool then Some z else None
  | _ => None
  end.

(** A struct takes an object (or [null]); each member whose folded key
    is the folded name of a field is stored into that field, the others
    are skipped.  [field] gets the key folded; it folds the field names it
    compares it with. *)
Fixpoint storeMembers {A : Type} (field : string -> json -> A -> option A)
    (members : list (string * json)) (cur : A) : option A :=
  match members with
  | [] => Some cur
  | (k, v) :: rest =>
      match field (Go.foldName k) v cur with
      | Some cur' => storeMembers field rest cur'
      | None => None
      end
  end.

Definition storeStruct {A : Type} (field : string -> json -> A -> option A)
    (j : json) (cur : A) : option A :=
  match j with
  | JNull => Some cur
  | JObject members => storeMembers field members cur
  | _ => None
  end.

Section Decoders.

(** [time.Time]'s own unmarshaller reads an RFC 3339 string; the
    parser of the instant is left open. *)
Variable parseRFC3339 : string -> option Z.

Definition storeTime (j : json) (cur : Z) : option Z :=
  match j with
  | JNull => Some cur
  | JString s => parseRFC3339 s
  | _ => None
  end.

Definition datesField (k : string) (v : json) (d : Dates) : option Dates :=
  if String.eqb k (Go.foldName "Start") then
    match storeTime v (Start d) with
    | Some t => Some {| Start := t; Due := Due d |}
    | None => None
    end
  else if String.eqb k (Go.foldName "Due") then
    match storeTime v (Due d) with
    | Some t => Some {| Start := Start d; Due := t |}
    | None => None
    end
  else Some d.

Definition taskField (k : string) (v : json) (t : Task) : option Task :=
  if String.eqb k (Go.foldName "ID") then
    match storeString v (ID t) with
    | Some x => Some {| ID := x; Description := Description t;
                        Priority := Priority t; TaskDates := TaskDates t;
                        IsDone := IsDone t |}
    | None => None
    end
  else if String.eqb k (Go.foldName "Description") then
    match storeString v (Description t) with
    | Some x => Some {| ID := ID t; Description := x;
                        Priority := Priority t; TaskDates := TaskDates t;
                        IsDone := IsDone t |}
    | None => None
    end
  else if String.eqb k (Go.foldName "Priority") then
    match storeInt8 v (Priority t) with
    | Some x => Some {| ID := ID t; Description := Description t;
                        Priority := x; TaskDates := TaskDates t;
                        IsDone := IsDone t |}
    | None => None
    end
  else if String.eqb k (Go.foldName "Dates") then
    match storeStruct datesField v (TaskDates t) with
    | Some x => Some {| ID := ID t; Description := Description t;
                        Priority := Priority t; TaskDates := x;
                        IsDone := IsDone t |}
    | None => None
    end
  else if String.eqb k (Go.foldName "IsDone") then
    match storeBool v (IsDone t) with
    | Some x => Some {| ID := ID t; Description := Description t;
                        Priority := Priority t; TaskDates := TaskDates t;
                        IsDone := x |}
    | None => None
    end
  else Some t.

(** [Decode(&task)] with [var task internaldomain.Task]. *)
Definition decodeTask (w : wire) : option Task :=
  match w with
  | Malformed => None
  | Text j => storeStruct taskField j zeroTask
  end.

(** [Decode(&id)] with [var id string]. *)
Definition decodeID (w : wire) : option string :=
  match w with
  | Malformed => None
  | Text j => storeString j EmptyString
  end.

End Decoders.

End Json.

(** ** Effects: an external world and a trace of the calls made to it *)

Module Eff.

(** What a worker does that an observer can see. *)
Inductive Event :=
| LogInfo (text : string)
| LogError (text : string)
| CallPoll (timeoutMs : Z)
| CallCommit (offset : Z) (err : option Go.error)
| CallIndex (t : Task) (err : option Go.error)
| CallDelete (id : string) (err : option Go.error).

Record St (W : Type) := mkSt { world : W; trace : list Event }.
Arguments mkSt {W} _ _.
Arguments world {W} _.
Arguments trace {W} _.

(** A computation reads and changes the world and appends to the trace. *)
Definition M (W A : Type) : Type := St W -> A * St W.

Definition ret {W A} (a : A) : M W A := fun s => (a, s).

Definition bind {W A B} (c : M W A) (k : A -> M W B) : M W B :=
  fun s => let (a, s') := c s in k a s'.

Definition emit {W} (e : Event) : M W unit :=
  fun s => (tt, mkSt (world s) (trace s ++ [e])).

(** A call into a collaborator that owns (part of) the world. *)
Definition call {W A} (f : W -> A * W) : M W A :=
  fun s => let (a, w) := f (world s) in (a, mkSt w (trace s)).

Definition exec {W A} (c : M W A) (s : St W) : St W := snd (c s).

(** The calls to the Index Applier in a trace. *)
Definition is_applier_call (e : Event) : bool :=
  match e with
  | CallIndex _ _ | CallDelete _ _ => true
  | _ => false
  end.

Definition applier_calls (tr : list Event) : list Event :=
  List.filter is_applier_call tr.

(** The offsets a commit was asked for. *)
Fixpoint commits (tr : list Event) : list Z :=
  match tr with
  | [] => []
  | CallCommit o _ :: r => o :: commits r
  | _ :: r => commits r
  end.

(** The fetches from the broker in a trace. *)
Definition is_poll (e : Event) : bool :=
  match e with
  | CallPoll _ => true
  | _ => false
  end.

Definition polls (tr : list Event) : list Event := List.filter is_poll tr.

(** An applier call that returned an error, and one that returned nil. *)
Definition failed (e : Event) : bool :=
  match e with
  | CallIndex _ (Some _) | CallDelete _ (Some _) => true
  | _ => false
  end.

Definition applied (e : Event) : bool :=
  match e with
  | CallIndex _ None | CallDelete _ None => true
  | _ => false
  end.

(** The events added between two states of one execution. *)
Definition since {W} (before after : St W) : list Event :=
  drop (length (trace before)) (trace after).

End Eff.

Declare Scope eff_scope.
Delimit Scope eff_scope with eff.
Notation "'do' x <- c ; k" := (Eff.bind c (fun x => k))
  (at level 10, x name, c at level 100, k at level 200) : eff_scope.
Notation "'do' ' c ; k" := (Eff.bind c (fun _ => k))
  (at level 10, c at level 100, k at level 200) : eff_scope.

(** The search collaborator as the workers use it: [s.task.Index] and
    [s.task.Delete] of [*elasticsearch.Task], each returning an [error]. *)
Class SearchTask (W : Type) := {
  Index : Task -> W -> option Go.error * W;
  Delete : string -> W -> option Go.error * W
}.

Local Open Scope eff_scope.

(** The logger and the search client, shared by both workers. *)
Module Calls.
Import Eff.

Section Calls.
Context {W : Type} {search : SearchTask W}.

(** [s.logger.Info] and [s.logger.Error], by their message. *)
Definition logInfo (text : string) : M W unit := emit (LogInfo text).
Definition logError (text : string) : M W unit := emit (LogError text).

(** [s.task.Index(context.Background(), t)] *)
Definition taskIndex (t : Task) : M W (option Go.error) :=
  do err <- call (Index t);
  do ' emit (CallIndex t err);
  ret err.

(** [s.task.Delete(context.Background(), id)] *)
Definition taskDelete (id : string) : M W (option Go.error) :=
  do err <- call (Delete id);
  do ' emit (CallDelete id err);
  ret err.

(** [err == nil] *)
Definition isNil (err : option Go.error) : bool :=
  match err with
  | None => true
  | Some _ => false
  end.

End Calls.

End Calls.

(** ** The poll-based worker (Kafka) *)

Module Kafka.
Import Eff Calls.

(** A [*kafka.Message]: its offset names it, [Value] is its payload. *)
Record Message := { Offset : Z; Value : Json.wire }.

(** What [Consumer.Poll] hands back: nothing within the timeout, a
    message, or an event of another kind. *)
Inductive kevent :=
| PollNil
| PollMessage (msg : Message)
| PollOther.

(** [s.kafka.Consumer], as far as the worker uses it. *)
Class Consumer (W : Type) := {
  Poll : Z -> W -> kevent * W;
  CommitMessage : Message -> W -> option Go.error * W
}.

(** [var evt struct { Type string; Value internaldomain.Task }] *)
Record evt := { EvtType : string; EvtValue : Task }.

Definition zeroEvt : evt := {| EvtType := EmptyString; EvtValue := zeroTask |}.

(** The error [Shutdown] wraps when the context is done first. *)
Definition contextDone : Go.error := "context.Done".

(** Where a consuming goroutine stands.  Every call of [ListenAndServe]
    starts one. *)
Inductive LoopPC :=
| AtSelect       (* run = true, about to execute the select *)
| InDefault      (* the default branch was chosen; its body is to run *)
| SendingDone    (* loop left, blocked in  s.doneC <- struct{}{} *)
| Exited.        (* the send was received; the goroutine has ended *)

(** Where the caller of [Shutdown] stands. *)
Inductive ShutPC :=
| NotCalled
| Waiting                          (* closeC closed, inside the select *)
| Returned (err : option Go.error)
| Panicked.                        (* close of a closed channel *)

Inductive Action :=
| ActListenAndServe                (* srv.ListenAndServe() *)
| ActLoop (i : nat)                (* the i-th goroutine advances *)
| ActShutdown                      (* srv.Shutdown(ctx) is called *)
| ActDeadline                      (* ctx's deadline passes *)
| ActSelect (pick : Go.case2).     (* Shutdown's select fires *)

Section Worker.
Context {W : Type} {search : SearchTask W} {consumer : Consumer W}.
Variable parseRFC3339 : string -> option Z.

Definition evtField (k : string) (v : Json.json) (e : evt) : option evt :=
  if String.eqb k (Go.foldName "Type") then
    match Json.storeString v (EvtType e) with
    | Some x => Some {| EvtType := x; EvtValue := EvtValue e |}
    | None => None
    end
  else if String.eqb k (Go.foldName "Value") then
    match Json.storeStruct (Json.taskField parseRFC3339) v (EvtValue e) with
    | Some x => Some {| EvtType := EvtType e; EvtValue := x |}
    | None => None
    end
  else Some e.

(** [json.NewDecoder(bytes.NewReader(msg.Value)).Decode(&evt)] *)
Definition decodeEvt (w : Json.wire) : option evt :=
  match w with
  | Json.Malformed => None
  | Json.Text j => Json.storeStruct evtField j zeroEvt
  end.

Definition poll (timeoutMs : Z) : M W kevent :=
  do ev <- call (Poll timeoutMs);
  do ' emit (CallPoll timeoutMs);
  ret ev.

(** The closure [commit] of [ListenAndServe]. *)
Definition commit (msg : Message) : M W unit :=
  do err <- call (CommitMessage msg);
  do ' emit (CallCommit (Offset msg) err);
  match err with
  | Some _ => logError "commit failed"
  | None => ret tt
  end.

(** What [commit] leaves in the trace after the call itself. *)
Definition commitLog (r : option Go.error) : list Event :=
  match r with
  | Some _ => [LogError "commit failed"]
  | None => []
  end.

(** The [switch evt.Type]; the result is the final value of [ok]. *)
Definition dispatch (e : evt) : M W bool :=
  if (String.eqb (EvtType e) "tasks.event.updated"
      || String.eqb (EvtType e) "tasks.event.created")%bool then
    do err <- taskIndex (EvtValue e);
    ret (isNil err)
  else if String.eqb (EvtType e) "tasks.event.deleted" then
    do err <- taskDelete (ID (EvtValue e));
    ret (isNil err)
  else ret false.

(** The [default] branch of the select: one poll and what follows. *)
Definition consume : M W unit :=
  do ev <- poll 150;
  match ev with
  | PollMessage msg =>
      match decodeEvt (Value msg) with
      | None =>
          do ' logInfo "Ignoring message, invalid";
          commit msg
      | Some e =>
          do ok <- dispatch e;
          if ok then
            do ' logInfo "Consumed";
            commit msg
          else ret tt
      end
  | _ => ret tt
  end.

(** The traces one iteration can leave: nothing but the poll (no
    message, or a type the switch has no case for), a discarded message,
    a failed apply, an apply followed by the commit. *)
Inductive iteration : list Event -> Prop :=
| it_idle : iteration [CallPoll 150]
| it_poison (o : Z) (r : option Go.error) :
    iteration ([CallPoll 150; LogInfo "Ignoring message, invalid";
                CallCommit o r] ++ commitLog r)
| it_failed (a : Event) :
    failed a = true -> iteration [CallPoll 150; a]
| it_applied (a : Event) (o : Z) (r : option Go.error) :
    applied a = true ->
    iteration ([CallPoll 150; a; LogInfo "Consumed"; CallCommit o r]
               ++ commitLog r).

(** The server, the goroutines its [ListenAndServe] has started so far
    (in the order of the calls) and the caller of [Shutdown].  [doneC]
    is unbuffered and never closed: a send on it is ready exactly when a
    goroutine is blocked in it, which [goroutines] records. *)
Record System := mkSystem {
  goroutines : list LoopPC;
  shutdown : ShutPC;
  closeC : Go.chan;
  ctxDone : Go.chan;
  eff : St W
}.

Definition init (w : W) : System :=
  mkSystem [] NotCalled Go.ChanOpen Go.ChanOpen (mkSt w []).

Definition sending (g : LoopPC) : bool :=
  match g with
  | SendingDone => true
  | _ => false
  end.

(** Is some goroutine blocked in its send on [doneC]? *)
Definition sendingDone (s : System) : bool := existsb sending (goroutines s).

(** [ListenAndServe]: every call starts one more goroutine ([go func])
    and returns nil. *)
Definition ListenAndServe (s : System) : System :=
  mkSystem (goroutines s ++ [AtSelect]) (shutdown s) (closeC s) (ctxDone s)
    (eff s).

(** One step of the i-th goroutine: the select, or the body it chose. *)
Definition loopStep (i : nat) (s : System) : System :=
  match goroutines s !! i with
  | Some AtSelect =>
      if Go.recv_ready (closeC s) then
        mkSystem (<[i := SendingDone]> (goroutines s)) (shutdown s)
          (closeC s) (ctxDone s)
          (exec (logInfo "No more messages to consume. Exiting.") (eff s))
      else
        mkSystem (<[i := InDefault]> (goroutines s)) (shutdown s)
          (closeC s) (ctxDone s) (eff s)
  | Some InDefault =>
      mkSystem (<[i := AtSelect]> (goroutines s)) (shutdown s) (closeC s)
        (ctxDone s) (exec consume (eff s))
  | _ => s
  end.

(** A receive from [doneC] releases one of the goroutines blocked in
    their send.  The blocked goroutines differ in nothing (each has only
    its return left), so which one the runtime takes shows nowhere: the
    first of the list is taken here. *)
Fixpoint release (gs : list LoopPC) : list LoopPC :=
  match gs with
  | [] => []
  | SendingDone :: rest => Exited :: rest
  | g :: rest => g :: release rest
  end.

(** [Shutdown] up to its select: the log line and [close(s.closeC)]. *)
Definition Shutdown (s : System) : System :=
  let e := exec (logInfo "Shutting down server") (eff s) in
  match Go.close (closeC s) with
  | Some c => mkSystem (goroutines s) Waiting c (ctxDone s) e
  | None => mkSystem (goroutines s) Panicked (closeC s) (ctxDone s) e
  end.

(** The select of [Shutdown]: [<-ctx.Done()] first, [<-s.doneC]
    second. *)
Definition Shutdown_select (s : System) (pick : Go.case2) : System :=
  match shutdown s with
  | Waiting =>
      match Go.select2 (Go.recv_ready (ctxDone s)) (sendingDone s) pick with
      | None => s
      | Some Go.First =>
          mkSystem (goroutines s) (Returned (Some contextDone))
            (closeC s) (ctxDone s) (eff s)
      | Some Go.Second =>
          mkSystem (release (goroutines s)) (Returned None) (closeC s)
            (ctxDone s) (eff s)
      end
  | _ => s
  end.

Definition panicked (s : System) : bool :=
  match shutdown s with
  | Panicked => true
  | _ => false
  end.

(** A panic ends the process: nothing moves afterwards. *)
Definition step (a : Action) (s : System) : System :=
  if panicked s then s else
  match a with
  | ActListenAndServe => ListenAndServe s
  | ActLoop i => loopStep i s
  | ActShutdown => Shutdown s
  | ActDeadline =>
      mkSystem (goroutines s) (shutdown s) (closeC s) Go.ChanClosed (eff s)
  | ActSelect pick => Shutdown_select s pick
  end.

Fixpoint run (sched : list Action) (s : System) : System :=
  match sched with
  | [] => s
  | a :: rest => run rest (step a s)
  end.


(** What holds of every state reached from [init]: [closeC] is closed
    exactly when [Shutdown] has been called, and where [ListenAndServe]
    was called at most once, [Shutdown] has returned nil only if the
    send of the one goroutine was received. *)
Definition coherent (s : System) : Prop :=
  ((length (goroutines s) <= 1)%nat ->
   shutdown s = Returned None -> goroutines s = [Exited])
  /\ (closeC s = Go.ChanClosed <-> shutdown s <> NotCalled).

End Worker.

End Kafka.

(** ** The subscribe-based worker (Redis pub/sub) *)

Module Redis.
Import Eff Calls.

(** A [*redis.Message]: the channel it was published on and its
    payload. *)
Record Message := { Channel : string; Payload : Json.wire }.

Definition contextDone : Go.error := "context.Done".
Definition pubsubReceive : Go.error := "pubsub.Receive".

Inductive LoopPC :=
| NotStarted     (* no subscription yet: s.pubsub is nil *)
| Ranging        (* in  for msg := range ch *)
| SendingDone    (* blocked in  s.done <- struct{}{} *)
| Exited.

Inductive ShutPC :=
| NotCalled
| Waiting
| Returned (err : option Go.error)
| Panicked.      (* s.pubsub.Close() on a nil s.pubsub *)

Inductive Action :=
| ActListenAndServe (receive : option Go.error)  (* what pubsub.Receive gave *)
| ActDeliver (msg : Message)     (* the subscription hands a message to ch *)
| ActLoop
| ActShutdown
| ActDeadline
| ActSelect (pick : Go.case2).

Section Worker.
Context {W : Type} {search : SearchTask W}.
Variable parseRFC3339 : string -> option Z.

(** The body of [for msg := range ch]. *)
Definition handle (msg : Message) : M W unit :=
  do ' logInfo ("Received message: %s" ++ Channel msg);
  if (String.eqb (Channel msg) "tasks.event.updated"
      || String.eqb (Channel msg) "tasks.event.created")%bool then
    match Json.decodeTask parseRFC3339 (Payload msg) with
    | None => logInfo "Ignoring message, invalid"
    | Some task =>
        do err <- taskIndex task;
        match err with
        | Some _ => logInfo "Couldn't index task"
        | None => ret tt
        end
    end
  else if String.eqb (Channel msg) "tasks.event.deleted" then
    match Json.decodeID (Payload msg) with
    | None => logInfo "Ignoring message, invalid"
    | Some id =>
        do err <- taskDelete id;
        match err with
        | Some _ => logInfo "Couldn't delete task"
        | None => ret tt
        end
    end
  else ret tt.

(** The first log line of the body. *)
Definition receivedLog (msg : Message) : Event :=
  LogInfo ("Received message: %s" ++ Channel msg).

(** The traces the handling of one message can leave. *)
Inductive handled : list Event -> Prop :=
| h_ignored (text : string) : handled [LogInfo text]
| h_invalid (text : string) :
    handled [LogInfo text; LogInfo "Ignoring message, invalid"]
| h_applied (text : string) (a : Event) :
    applied a = true -> handled [LogInfo text; a]
| h_index_failed (text : string) (t : Task) (err : Go.error) :
    handled [LogInfo text; CallIndex t (Some err);
             LogInfo "Couldn't index task"]
| h_delete_failed (text : string) (id : string) (err : Go.error) :
    handled [LogInfo text; CallDelete id (Some err);
             LogInfo "Couldn't delete task"].

(** [ch] holds the messages handed over and not yet received;
    [chClosed] is set by [s.pubsub.Close()]. *)
Record System := mkSystem {
  goroutine : LoopPC;
  shutdown : ShutPC;
  ch : list Message;
  chClosed : bool;
  ctxDone : Go.chan;
  eff : St W
}.

Definition init (w : W) : System :=
  mkSystem NotStarted NotCalled [] false Go.ChanOpen (mkSt w []).

Definition sendingDone (s : System) : bool :=
  match goroutine s with
  | SendingDone => true
  | _ => false
  end.

(** [ListenAndServe]: on a failed [Receive] it returns the error and
    starts nothing.  The system holds the one subscription [run] makes:
    a call on a server that already has its subscription, which in the
    code subscribes again and replaces [s.pubsub], is outside this
    model and changes nothing here. *)
Definition ListenAndServe (receive : option Go.error) (s : System)
    : System * option Go.error :=
  match goroutine s, receive with
  | NotStarted, None =>
      (mkSystem Ranging (shutdown s) (ch s) (chClosed s) (ctxDone s) (eff s),
       None)
  | NotStarted, Some _ => (s, Some pubsubReceive)
  | _, _ => (s, None)
  end.

Definition deliver (msg : Message) (s : System) : System :=
  match goroutine s, chClosed s with
  | NotStarted, _ | _, true => s
  | _, false =>
      mkSystem (goroutine s) (shutdown s) (ch s ++ [msg]) (chClosed s)
        (ctxDone s) (eff s)
  end.

Definition loopStep (s : System) : System :=
  match goroutine s with
  | Ranging =>
      match ch s with
      | msg :: rest =>
          mkSystem Ranging (shutdown s) rest (chClosed s) (ctxDone s)
            (exec (handle msg) (eff s))
      | [] =>
          if chClosed s then
            mkSystem SendingDone (shutdown s) [] (chClosed s) (ctxDone s)
              (exec (logInfo "No more messages to consume. Exiting.") (eff s))
          else s
      end
  | _ => s
  end.

(** [Shutdown] up to its select: the log line and [s.pubsub.Close()]. *)
Definition Shutdown (s : System) : System :=
  let e := exec (logInfo "Shutting down server") (eff s) in
  match goroutine s with
  | NotStarted =>
      mkSystem (goroutine s) Panicked (ch s) (chClosed s) (ctxDone s) e
  | _ => mkSystem (goroutine s) Waiting (ch s) true (ctxDone s) e
  end.

(** The select of [Shutdown]: [<-ctx.Done()] first, [<-s.done]
    second. *)
Definition Shutdown_select (s : System) (pick : Go.case2) : System :=
  match shutdown s with
  | Waiting =>
      match Go.select2 (Go.recv_ready (ctxDone s)) (sendingDone s) pick with
      | None => s
      | Some Go.First =>
          mkSystem (goroutine s) (Returned (Some contextDone))
            (ch s) (chClosed s) (ctxDone s) (eff s)
      | Some Go.Second =>
          mkSystem Exited (Returned None) (ch s) (chClosed s) (ctxDone s)
            (eff s)
      end
  | _ => s
  end.

Definition panicked (s : System) : bool :=
  match shutdown s with
  | Panicked => true
  | _ => false
  end.

Definition step (a : Action) (s : System) : System :=
  if panicked s then s else
  match a with
  | ActListenAndServe receive => fst (ListenAndServe receive s)
  | ActDeliver msg => deliver msg s
  | ActLoop => loopStep s
  | ActShutdown => Shutdown s
  | ActDeadline =>
      mkSystem (goroutine s) (shutdown s) (ch s) (chClosed s)
        Go.ChanClosed (eff s)
  | ActSelect pick => Shutdown_select s pick
  end.

Fixpoint run (sched : list Action) (s : System) : System :=
  match sched with
  | [] => s
  | a :: rest => run rest (step a s)
  end.

(** A schedule in which the subscription hands over nothing. *)
Definition is_deliver (a : Action) : bool :=
  match a with
  | ActDeliver _ => true
  | _ => false
  end.

Definition quiet (sched : list Action) : Prop :=
  forall a, In a sched -> is_deliver a = false.

End Worker.

End Redis.

(** ** The Index Applier *)

(** The search index behind [Task.Index] and [Task.Delete]. *)
Module Search.

(** Modelled from the spec: package [elasticsearch] is not among the
    sources.  The index holds one entry per task ID; the collaborator
    may be unable to answer, and its errors are propagated. *)
Record Store := mkStore {
  docs : gmap string Task;     (* the entry of each task ID *)
  available : bool             (* does the collaborator answer? *)
}.

Definition unavailable : Go.error := "search unavailable".

(** Modelled from the spec: [Task.Index] of package [elasticsearch] is
    not among the sources.  The entry of a task ID "is created/overwritten
    on created/updated apply": overwrite, not increment. *)
Definition Upsert (t : Task) (ix : Store) : option Go.error * Store :=
  if available ix
  then (None, mkStore (<[ID t := t]> (docs ix)) (available ix))
  else (Some unavailable, ix).

(** Modelled from the spec: [Task.Delete] of package [elasticsearch] is
    not among the sources.  The entry is "removed on deleted apply";
    removing an absent ID is not an error. *)
Definition Remove (id : string) (ix : Store) : option Go.error * Store :=
  if available ix
  then (None, mkStore (delete id (docs ix)) (available ix))
  else (Some unavailable, ix).

(** What a reader of the index can see: the entry of each ID. *)
Definition entry (id : string) (ix : Store) : option Task := docs ix !! id.

#[global] Instance searchTask : SearchTask Store :=
  {| Index := Upsert; Delete := Remove |}.

End Search.

(** ** A broker and an index to run the poll-based worker against *)

Module Sim.

Record World := mkWorld {
  index : Search.Store;
  queue : list Kafka.kevent;    (* what the next polls will return *)
  committed : list Z;           (* offsets the broker has stored *)
  brokerUp : bool
}.

Definition brokerDown : Go.error := "broker unavailable".

Definition Poll (timeoutMs : Z) (w : World) : Kafka.kevent * World :=
  match queue w with
  | [] => (Kafka.PollNil, w)
  | ev :: rest => (ev, mkWorld (index w) rest (committed w) (brokerUp w))
  end.

Definition CommitMessage (msg : Kafka.Message) (w : World)
    : option Go.error * World :=
  if brokerUp w
  then (None, mkWorld (index w) (queue w)
                (committed w ++ [Kafka.Offset msg]) (brokerUp w))
  else (Some brokerDown, w).

Definition onIndex {A} (f : Search.Store -> A * Search.Store) (w : World)
    : A * World :=
  let (a, ix) := f (index w) in
  (a, mkWorld ix (queue w) (committed w) (brokerUp w)).

#[global] Instance searchTask : SearchTask World :=
  {| Index := fun t => onIndex (Search.Upsert t);
     Delete := fun id => onIndex (Search.Remove id) |}.

#[global] Instance consumer : Kafka.Consumer World :=
  {| Kafka.Poll := Poll; Kafka.CommitMessage := CommitMessage |}.

(** No timestamp is accepted: enough for payloads without dates. *)
Definition noTime (s : string) : option Z := None.

End Sim.

(** ** Concrete messages and worlds *)

Module Examples.
Import Json.

(** [{"Type":"tasks.event.deleted","Value":"abc"}] *)
Definition deletedBare : json :=
  JObject [("Type", JString "tasks.event.deleted"); ("Value", JString "abc")].

(** [{"Type":"tasks.event.deleted","Value":{"ID":"abc"}}] *)
Definition deletedTask : json :=
  JObject [("Type", JString "tasks.event.deleted");
           ("Value", JObject [("ID", JString "abc")])].

(** [{"Type":"tasks.event.created",
      "Value":{"ID":"abc","Description":"buy milk"}}] *)
Definition createdTask : json :=
  JObject [("Type", JString "tasks.event.created");
           ("Value", JObject [("ID", JString "abc");
                              ("Description", JString "buy milk")])].

(** [{"Type":"tasks.event.archived","Value":{"ID":"abc"}}] *)
Definition archivedTask : json :=
  JObject [("Type", JString "tasks.event.archived");
           ("Value", JObject [("ID", JString "abc")])].

Definition buyMilk : Task :=
  {| ID := "abc"; Description := "buy milk"; Priority := 0;
     TaskDates := zeroDates; IsDone := false |}.

(** The task decoded from [{"ID":"abc"}]. *)
Definition onlyID : Task :=
  {| ID := "abc"; Description := EmptyString; Priority := 0;
     TaskDates := zeroDates; IsDone := false |}.

Definition envelope (offset : Z) (j : json) : Kafka.Message :=
  {| Kafka.Offset := offset; Kafka.Value := Text j |}.

Definition message (offset : Z) (j : json) : Kafka.kevent :=
  Kafka.PollMessage (envelope offset j).

(** A broker that will deliver the given events, and an empty index. *)
Definition world (searchUp : bool) (events : list Kafka.kevent) : Sim.World :=
  Sim.mkWorld (Search.mkStore ∅ searchUp) events [] true.

(** The worker started and inside the default branch, about to poll. *)
Definition polling (w : Sim.World) : Kafka.System :=
  Kafka.run Sim.noTime [Kafka.ActListenAndServe; Kafka.ActLoop 0]
    (Kafka.init w).

(** The subscribe-based worker started, one message in its channel. *)
Definition received (searchUp : bool) (msg : Redis.Message)
    : Redis.System (W := Search.Store) :=
  Redis.run Sim.noTime [Redis.ActListenAndServe None; Redis.ActDeliver msg]
    (Redis.init (Search.mkStore ∅ searchUp)).

Definition deletedAbc : Redis.Message :=
  {| Redis.Channel := "tasks.event.deleted";
     Redis.Payload := Text (JString "abc") |}.

(** [{"ID":"abc","Description":"buy milk"}] on [tasks.event.created] *)
Definition createdAbc : Redis.Message :=
  {| Redis.Channel := "tasks.event.created";
     Redis.Payload := Text (JObject [("ID", JString "abc");
                                     ("Description", JString "buy milk")]) |}.

(** The UTF-8 bytes of U+017F (long s) and of U+212A (Kelvin sign). *)
Definition longS : string :=
  String (ascii_of_nat 197) (String (ascii_of_nat 191) EmptyString).

Definition kelvin : string :=
  String (ascii_of_nat 226)
    (String (ascii_of_nat 132) (String (ascii_of_nat 170) EmptyString)).

(** [createdTask] with the key [Description] spelt with a long s. *)
Definition createdLongS : json :=
  JObject [("Type", JString "tasks.event.created");
           ("Value", JObject [("ID", JString "abc");
                              ("De" ++ longS ++ "cription",
                               JString "buy milk")])].

End Examples.

(** ** Errors of package [internal] *)

Module Internal.

(** The error codes the sources use. *)
Inductive ErrorCode :=
| ErrorCodeUnknown
| ErrorCodeNotFound
| ErrorCodeInvalidArgument.

(** An error made by [internal.WrapErrorf] or [internal.NewErrorf],
    neither of which is among the sources: it is kept as the arguments
    it was made from.  [E] is the type of the wrapped error. *)
Inductive Error (E : Type) :=
| WrapErrorf (orig : E) (code : ErrorCode) (msg : string)
| NewErrorf (code : ErrorCode) (msg : string).
Arguments WrapErrorf {E} _ _ _.
Arguments NewErrorf {E} _ _.

Definition Code {E} (e : Error E) : ErrorCode :=
  match e with
  | WrapErrorf _ code _ => code
  | NewErrorf code _ => code
  end.

End Internal.

(** ** Configuration from the environment ([internal/envvar]) *)

Module Envvar.

(** The environment of the process.  [os.Getenv] gives the empty string
    for a variable that is not set. *)
Definition Getenv (env : gmap string string) (key : string) : string :=
  default EmptyString (env !! key).

Section Configuration.

(** [c.provider], the [Provider] the configuration was made with by
    [New]: its [Get] gives a value or an error. *)
Variable provider : string -> Go.error + string.

(** [Configuration.Get] *)
Definition Get (env : gmap string string) (key : string)
    : string * option (Internal.Error Go.error) :=
  let res := Getenv env key in
  let valSecret := Getenv env (key ++ "_SECURE") in
  if negb (String.eqb valSecret EmptyString) then
    match provider valSecret with
    | inl err =>
        (EmptyString,
         Some (Internal.WrapErrorf err Internal.ErrorCodeInvalidArgument
                 "provider.Get"))
    | inr valSecretRes => (valSecretRes, None)
    end
  else (res, None).

End Configuration.

End Envvar.

(** ** The generated HTTP client (package [openapi3]) *)

Module GoStrings.

(** [strings.HasSuffix]: the last [len(suffix)] bytes are the suffix. *)
Definition HasSuffix (s suffix : string) : bool :=
  (Nat.leb (String.length suffix) (String.length s)
   && String.eqb
        (String.substring (String.length s - String.length suffix)
           (String.length suffix) s)
        suffix)%bool.

(** [strings.Contains]: the substring starts at some position. *)
Fixpoint Contains (s substr : string) : bool :=
  (String.prefix substr s
   || match s with
      | EmptyString => false
      | String _ rest => Contains rest substr
      end)%bool.

End GoStrings.

Module Openapi3.

(** What [json.Unmarshal] is given: bytes that are not one JSON value,
    or bytes that are exactly the value [j]. *)
Inductive bytes :=
| Garbage
| Whole (j : Json.json).

(** An [*http.Response] as the parsers use it: the status code, what
    [rsp.Header.Get("Content-Type")] gives, and what [ioutil.ReadAll]
    gives for the body. *)
Record HTTPResponse := mkHTTPResponse {
  StatusCode : Z;
  ContentType : string;
  ReadAll : Go.error + bytes
}.

(** [struct { Error *string `json:"error,omitempty"` }] *)
Record ErrorBody := { Error : option string }.

Definition storePtrString (j : Json.json) (cur : option string)
    : option (option string) :=
  match j with
  | Json.JNull => Some None
  | Json.JString s => Some (Some s)
  | _ => None
  end.

Definition errorBodyField (k : string) (v : Json.json) (d : ErrorBody)
    : option ErrorBody :=
  if String.eqb k (Go.foldName "error") then
    match storePtrString v (Error d) with
    | Some x => Some {| Error := x |}
    | None => None
    end
  else Some d.

Definition jsonError : Go.error := "json: cannot unmarshal".

(** [json.Unmarshal(bodyBytes, &dest)] with [dest] the error struct. *)
Definition unmarshalErrorBody (b : bytes) : Go.error + ErrorBody :=
  match b with
  | Garbage => inl jsonError
  | Whole j =>
      match Json.storeStruct errorBodyField j {| Error := None |} with
      | Some dest => inr dest
      | None => inl jsonError
      end
  end.

(** The guard of each [case] of the parsers' [switch]. *)
Definition jsonWithStatus (rsp : HTTPResponse) (code : Z) : bool :=
  (GoStrings.Contains (ContentType rsp) "json"
   && (StatusCode rsp =? code))%bool.

Record UpdateTaskResponse := mkUpdateTaskResponse {
  UpdateBody : bytes;
  UpdateHTTPResponse : HTTPResponse;
  UpdateJSON400 : option ErrorBody;
  UpdateJSON500 : option ErrorBody
}.

(** [ParseUpdateTaskResponse] *)
Definition ParseUpdateTaskResponse (rsp : HTTPResponse)
    : Go.error + UpdateTaskResponse :=
  match ReadAll rsp with
  | inl err => inl err
  | inr bodyBytes =>
      if jsonWithStatus rsp 400 then
        match unmarshalErrorBody bodyBytes with
        | inl err => inl err
        | inr dest =>
            inr (mkUpdateTaskResponse bodyBytes rsp (Some dest) None)
        end
      else if jsonWithStatus rsp 500 then
        match unmarshalErrorBody bodyBytes with
        | inl err => inl err
        | inr dest =>
            inr (mkUpdateTaskResponse bodyBytes rsp None (Some dest))
        end
      else inr (mkUpdateTaskResponse bodyBytes rsp None None)
  end.

Record DeleteTaskResponse := mkDeleteTaskResponse {
  DeleteBody : bytes;
  DeleteHTTPResponse : HTTPResponse;
  DeleteJSON500 : option ErrorBody
}.

(** [ParseDeleteTaskResponse] *)
Definition ParseDeleteTaskResponse (rsp : HTTPResponse)
    : Go.error + DeleteTaskResponse :=
  match ReadAll rsp with
  | inl err => inl err
  | inr bodyBytes =>
      if jsonWithStatus rsp 500 then
        match unmarshalErrorBody bodyBytes with
        | inl err => inl err
        | inr dest => inr (mkDeleteTaskResponse bodyBytes rsp (Some dest))
        end
      else inr (mkDeleteTaskResponse bodyBytes rsp None)
  end.

Section Client.

(** [*http.Request], [*url.URL] and a task ID, and the library calls the
    request builders are made of. *)
Variables Request URL UUID : Type.
Variable StyleParamWithLocation : UUID -> Go.error + string.
Variable urlParse : string -> Go.error + URL.
Variable urlResolve : URL -> string -> Go.error + URL.
Variable urlString : URL -> string.
Variable NewRequest : string -> string -> Go.error + Request.

(** An editor changes the request in place and may fail. *)
Definition RequestEditorFn : Type := Request -> Request * option Go.error.

(** [Do] of an [HttpRequestDoer]. *)
Definition HttpRequestDoer : Type := Request -> Go.error + HTTPResponse.

(** [&http.Client{}] *)
Variable defaultHTTPClient : HttpRequestDoer.

Record Client := mkClient {
  Server : string;
  HTTPClient : option HttpRequestDoer;  (* the field [Client]; nil is [None] *)
  RequestEditors : list RequestEditorFn
}.

(** An option changes the client in place and may fail; [NewClient]
    drops the client when it does. *)
Definition ClientOption : Type := Client -> Go.error + Client.

(** [for _, o := range opts { if err := o(&client); err != nil ... }] *)
Fixpoint applyOptions (opts : list ClientOption) (client : Client)
    : Go.error + Client :=
  match opts with
  | [] => inr client
  | o :: rest =>
      match o client with
      | inl err => inl err
      | inr client' => applyOptions rest client'
      end
  end.

Definition NewClient (server : string) (opts : list ClientOption)
    : Go.error + Client :=
  match applyOptions opts (mkClient server None []) with
  | inl err => inl err
  | inr client =>
      let server' :=
        if negb (GoStrings.HasSuffix (Server client) "/")
        then Server client ++ "/" else Server client in
      let doer :=
        match HTTPClient client with
        | None => Some defaultHTTPClient
        | Some d => Some d
        end in
      inr (mkClient server' doer (RequestEditors client))
  end.

Definition WithHTTPClient (doer : HttpRequestDoer) : ClientOption :=
  fun c => inr (mkClient (Server c) (Some doer) (RequestEditors c)).

Definition WithRequestEditorFn (fn : RequestEditorFn) : ClientOption :=
  fun c => inr (mkClient (Server c) (HTTPClient c) (RequestEditors c ++ [fn])).

Definition WithBaseURL (baseURL : string) : ClientOption :=
  fun c =>
    match urlParse baseURL with
    | inl err => inl err
    | inr newBaseURL =>
        inr (mkClient (urlString newBaseURL) (HTTPClient c) (RequestEditors c))
    end.

(** [for _, r := range editors { if err := r(ctx, req); err != nil
    { return err } }] *)
Fixpoint editLoop (editors : list RequestEditorFn) (req : Request)
    : Request * option Go.error :=
  match editors with
  | [] => (req, None)
  | r :: rest =>
      match r req with
      | (req', Some err) => (req', Some err)
      | (req', None) => editLoop rest req'
      end
  end.

(** [applyEditors]: the client's editors, then the call's. *)
Definition applyEditors (c : Client) (req : Request)
    (additionalEditors : list RequestEditorFn) : Request * option Go.error :=
  match editLoop (RequestEditors c) req with
  | (req', Some err) => (req', Some err)
  | (req', None) => editLoop additionalEditors req'
  end.

(** [NewDeleteTaskRequest] *)
Definition NewDeleteTaskRequest (server : string) (taskId : UUID)
    : Go.error + Request :=
  match StyleParamWithLocation taskId with
  | inl err => inl err
  | inr pathParam0 =>
      match urlParse server with
      | inl err => inl err
      | inr serverURL =>
          let operationPath := "/tasks/" ++ pathParam0 in
          let operationPath :=
            match operationPath with
            | String "/" _ => "." ++ operationPath
            | _ => operationPath
            end in
          match urlResolve serverURL operationPath with
          | inl err => inl err
          | inr queryURL => NewRequest "DELETE" (urlString queryURL)
          end
      end
  end.

(** [c.Client.Do(req)].  Besides the result, the requests handed to
    the doer are kept.  A nil [c.Client] is a nil dereference: the call
    panics ([None]). *)
Definition doRequest (c : Client) (req : Request)
    : option ((Go.error + HTTPResponse) * list Request) :=
  match HTTPClient c with
  | Some doer => Some (doer req, [req])
  | None => None
  end.

(** [Client.DeleteTask] *)
Definition DeleteTask (c : Client) (taskId : UUID)
    (reqEditors : list RequestEditorFn)
    : option ((Go.error + HTTPResponse) * list Request) :=
  match NewDeleteTaskRequest (Server c) taskId with
  | inl err => Some (inl err, [])
  | inr req =>
      match applyEditors c req reqEditors with
      | (_, Some err) => Some (inl err, [])
      | (req', None) => doRequest c req'
      end
  end.

(** [ClientWithResponses.DeleteTaskWithResponse] *)
Definition DeleteTaskWithResponse (c : Client) (taskId : UUID)
    (reqEditors : list RequestEditorFn)
    : option ((Go.error + DeleteTaskResponse) * list Request) :=
  match DeleteTask c taskId reqEditors with
  | None => None
  | Some (inl err, sent) => Some (inl err, sent)
  | Some (inr rsp, sent) => Some (ParseDeleteTaskResponse rsp, sent)
  end.

End Client.

End Openapi3.

(** ** The task repository (package [postgresql]) *)

Module Postgresql.

(** What a query can fail with: an error for which
    [errors.Is(err, pgx.ErrNoRows)] holds, or any other. *)
Inductive QueryError :=
| ErrNoRows
| QueryFailed (text : string).

(** The errors the repository wraps. *)
Inductive Cause :=
| FromUUID (err : Go.error)          (* of uuid.Parse *)
| FromQuery (err : QueryError)       (* of a query *)
| FromPriority (err : Go.error).     (* of convertPriority *)

Definition Error : Type := Internal.Error Cause.

(** [internal.CreateParams], by the fields [Create] reads. *)
Record CreateParams := {
  ParamsDescription : string;
  ParamsPriority : Z;
  ParamsDates : Dates
}.

Section Repository.

(** [uuid.UUID], [db.Priority] and [pgtype.Timestamp] with the functions
    on them that are not among the sources: [uuid.Parse] and
    [UUID.String], [newPriority] and [convertPriority], [newTimestamp]
    and the [Time] field of a timestamp. *)
Variables UUID DBPriority DBTimestamp : Type.
Variable uuidParse : string -> Go.error + UUID.
Variable uuidString : UUID -> string.
Variable newPriority : Z -> DBPriority.
Variable convertPriority : DBPriority -> Go.error + Z.
Variable newTimestamp : Z -> DBTimestamp.
Variable timestampTime : DBTimestamp -> Z.

(** [db.InsertTaskParams], [db.UpdateTaskParams] and the row of
    [SelectTask], by the fields the repository uses. *)
Record InsertTaskParams := {
  InsertDescription : string;
  InsertPriority : DBPriority;
  InsertStartDate : DBTimestamp;
  InsertDueDate : DBTimestamp
}.

Record UpdateTaskParams := {
  UpdateID : UUID;
  UpdateDescription : string;
  UpdatePriority : DBPriority;
  UpdateStartDate : DBTimestamp;
  UpdateDueDate : DBTimestamp;
  UpdateDone : bool
}.

Record SelectTaskRow := {
  RowID : UUID;
  RowDescription : string;
  RowPriority : DBPriority;
  RowStartDate : DBTimestamp;
  RowDueDate : DBTimestamp;
  RowDone : bool
}.

(** [t.q], the generated queries, over a database [W]. *)
Variable W : Type.
Variable InsertTask : InsertTaskParams -> W -> (QueryError + UUID) * W.
Variable DeleteTask : UUID -> W -> option QueryError * W.
Variable SelectTask : UUID -> W -> (QueryError + SelectTaskRow) * W.
Variable UpdateTask : UpdateTaskParams -> W -> option QueryError * W.

(** The queries a call has issued. *)
Inductive Query :=
| QInsert (p : InsertTaskParams)
| QDelete (id : UUID)
| QSelect (id : UUID)
| QUpdate (p : UpdateTaskParams).

(** The [if errors.Is(err, pgx.ErrNoRows) ... ] of [Delete], [Find] and
    [Update]. *)
Definition wrapQueryError (err : QueryError) (msg : string) : Error :=
  match err with
  | ErrNoRows =>
      Internal.WrapErrorf (FromQuery err) Internal.ErrorCodeNotFound
        "task not found"
  | _ => Internal.WrapErrorf (FromQuery err) Internal.ErrorCodeUnknown msg
  end.

(** [Task.Create] *)
Definition Create (params : CreateParams) (w : W)
    : (Task * option Error) * W * list Query :=
  let p := {| InsertDescription := ParamsDescription params;
              InsertPriority := newPriority (ParamsPriority params);
              InsertStartDate := newTimestamp (Start (ParamsDates params));
              InsertDueDate := newTimestamp (Due (ParamsDates params)) |} in
  match InsertTask p w with
  | (inl err, w1) =>
      ((zeroTask,
        Some (Internal.WrapErrorf (FromQuery err) Internal.ErrorCodeUnknown
                "insert task")),
       w1, [QInsert p])
  | (inr newID, w1) =>
      (({| ID := uuidString newID;
           Description := ParamsDescription params;
           Priority := ParamsPriority params;
           TaskDates := ParamsDates params;
           IsDone := false |},
        None),
       w1, [QInsert p])
  end.

(** [Task.Delete] *)
Definition Delete (id : string) (w : W) : option Error * W * list Query :=
  match uuidParse id with
  | inl err =>
      (Some (Internal.WrapErrorf (FromUUID err)
               Internal.ErrorCodeInvalidArgument "invalid uuid"),
       w, [])
  | inr val =>
      match DeleteTask val w with
      | (Some err, w1) => (Some (wrapQueryError err "delete task"), w1,
                           [QDelete val])
      | (None, w1) => (None, w1, [QDelete val])
      end
  end.

(** [Task.Find] *)
Definition Find (id : string) (w : W)
    : (Task * option Error) * W * list Query :=
  match uuidParse id with
  | inl err =>
      ((zeroTask,
        Some (Internal.WrapErrorf (FromUUID err)
                Internal.ErrorCodeInvalidArgument "invalid uuid")),
       w, [])
  | inr val =>
      match SelectTask val w with
      | (inl err, w1) =>
          ((zeroTask, Some (wrapQueryError err "select task")), w1,
           [QSelect val])
      | (inr res, w1) =>
          match convertPriority (RowPriority res) with
          | inl err =>
              ((zeroTask,
                Some (Internal.WrapErrorf (FromPriority err)
                        Internal.ErrorCodeInvalidArgument "convert priority")),
               w1, [QSelect val])
          | inr priority =>
              (({| ID := uuidString (RowID res);
                   Description := RowDescription res;
                   Priority := priority;
                   TaskDates :=
                     {| Start := timestampTime (RowStartDate res);
                        Due := timestampTime (RowDueDate res) |};
                   IsDone := RowDone res |},
                None),
               w1, [QSelect val])
          end
      end
  end.

(** [Task.Update] *)
Definition Update (id : string) (description : string) (priority : Z)
    (dates : Dates) (isDone : bool) (w : W)
    : option Error * W * list Query :=
  match uuidParse id with
  | inl err =>
      (Some (Internal.WrapErrorf (FromUUID err)
               Internal.ErrorCodeInvalidArgument "invalid uuid"),
       w, [])
  | inr val =>
      let p := {| UpdateID := val;
                  UpdateDescription := description;
                  UpdatePriority := newPriority priority;
                  UpdateStartDate := newTimestamp (Start dates);
                  UpdateDueDate := newTimestamp (Due dates);
                  UpdateDone := isDone |} in
      match UpdateTask p w with
      | (Some err, w1) => (Some (wrapQueryError err "update task"), w1,
                           [QUpdate p])
      | (None, w1) => (None, w1, [QUpdate p])
      end
  end.

End Repository.

(** The code of the error a call returned, if any. *)
Definition codeOf (err : option Error) : option Internal.ErrorCode :=
  option_map Internal.Code err.

(** A database in memory to run the repository against: rows by key, the
    next key to hand out, and whether it answers at all.  Keys are
    natural numbers written in unary, as a run of the digit 1. *)
Module Mem.

Record Row := {
  MemDescription : string;
  MemPriority : Z;
  MemStart : Z;
  MemDue : Z;
  MemDone : bool
}.

Record DB := mkDB { rows : gmap nat Row; next : nat; up : bool }.

Definition down : QueryError := QueryFailed "connection refused".

(** Priorities 0 to 3 are stored; any other is refused by the column's
    type. *)
Definition validPriority (p : Z) : bool := ((0 <=? p) && (p <=? 3))%bool.

Definition InsertTask (p : InsertTaskParams Z Z) (w : DB)
    : (QueryError + nat) * DB :=
  if negb (up w) then (inl down, w)
  else if negb (validPriority (InsertPriority Z Z p))
  then (inl (QueryFailed "invalid input value for enum"), w)
  else
    (inr (next w),
     mkDB (<[next w := {| MemDescription := InsertDescription Z Z p;
                          MemPriority := InsertPriority Z Z p;
                          MemStart := InsertStartDate Z Z p;
                          MemDue := InsertDueDate Z Z p;
                          MemDone := false |}]> (rows w))
       (S (next w)) (up w)).

Definition DeleteTask (id : nat) (w : DB) : option QueryError * DB :=
  if negb (up w) then (Some down, w)
  else match rows w !! id with
       | None => (Some ErrNoRows, w)
       | Some _ => (None, mkDB (delete id (rows w)) (next w) (up w))
       end.

Definition SelectTask (id : nat) (w : DB)
    : (QueryError + SelectTaskRow nat Z Z) * DB :=
  if negb (up w) then (inl down, w)
  else match rows w !! id with
       | None => (inl ErrNoRows, w)
       | Some r =>
           (inr {| RowID := id;
                   RowDescription := MemDescription r;
                   RowPriority := MemPriority r;
                   RowStartDate := MemStart r;
                   RowDueDate := MemDue r;
                   RowDone := MemDone r |}, w)
       end.

Definition UpdateTask (p : UpdateTaskParams nat Z Z) (w : DB)
    : option QueryError * DB :=
  if negb (up w) then (Some down, w)
  else if negb (validPriority (UpdatePriority nat Z Z p))
  then (Some (QueryFailed "invalid input value for enum"), w)
  else match rows w !! UpdateID nat Z Z p with
       | None => (Some ErrNoRows, w)
       | Some _ =>
           (None,
            mkDB (<[UpdateID nat Z Z p :=
                      {| MemDescription := UpdateDescription nat Z Z p;
                         MemPriority := UpdatePriority nat Z Z p;
                         MemStart := UpdateStartDate nat Z Z p;
                         MemDue := UpdateDueDate nat Z Z p;
                         MemDone := UpdateDone nat Z Z p |}]> (rows w))
              (next w) (up w))
       end.

Fixpoint keyString (id : nat) : string :=
  match id with
  | O => EmptyString
  | S n => String "1" (keyString n)
  end.

Fixpoint keyParse (s : string) : Go.error + nat :=
  match s with
  | EmptyString => inr O
  | String "1" rest =>
      match keyParse rest with
      | inr n => inr (S n)
      | inl err => inl err
      end
  | String _ _ => inl "invalid UUID"
  end.

Definition convertPriority (p : Z) : Go.error + Z :=
  if validPriority p then inr p else inl "unknown value".

Definition empty : DB := mkDB ∅ 1 true.

(** The repository over this database. *)
Definition Create : CreateParams -> DB -> _ :=
  Postgresql.Create nat Z Z keyString id id DB InsertTask.
Definition Delete : string -> DB -> _ :=
  Postgresql.Delete nat Z Z keyParse DB DeleteTask.
Definition Find : string -> DB -> _ :=
  Postgresql.Find nat Z Z keyParse keyString convertPriority id DB SelectTask.
Definition Update : string -> string -> Z -> Dates -> bool -> DB -> _ :=
  Postgresql.Update nat Z Z keyParse id id DB UpdateTask.

End Mem.

End Postgresql.

(** ** The process of the poll-based worker: [run] and [main] *)

Module KafkaProcess.
Import Eff Calls.

(** What [run] sets up before it starts anything, in the order it does,
    each with the text its failure is wrapped with. *)
Inductive Setup :=
| ZapNewProduction
| EnvvarLoad
| NewVaultProvider
| NewElasticSearch
| NewKafkaConsumer
| NewOTExporter.

Definition label (s : Setup) : string :=
  match s with
  | ZapNewProduction => "zap.NewProduction"
  | EnvvarLoad => "envvar.Load"
  | NewVaultProvider => "internal.NewVaultProvider"
  | NewElasticSearch => "internal.NewElasticSearch"
  | NewKafkaConsumer => "internal.NewKafkaConsumer"
  | NewOTExporter => "internal.newOTExporter "
  end.

Definition order : list Setup :=
  [ZapNewProduction; EnvvarLoad; NewVaultProvider; NewElasticSearch;
   NewKafkaConsumer; NewOTExporter].

(** The deferred calls of the goroutine that waits for the signal. *)
Inductive Deferred :=
| LoggerSync
| Unsubscribe
| Stop
| Cancel
| CloseErrC.

(** The goroutine that waits for the signal. *)
Inductive SigPC :=
| SigWaiting       (* blocked in <-ctx.Done() *)
| SigInShutdown    (* inside srv.Shutdown(ctxTimeout) *)
| SigDeferring     (* Shutdown returned; the deferred calls are to run *)
| SigDone.

(** The goroutine that calls [srv.ListenAndServe]. *)
Inductive ServePC :=
| ServeReady
| ServeDone.

(** [main], after [run] returned the channel. *)
Inductive MainPC :=
| MainWaiting                  (* blocked in <-errC *)
| MainReturned                 (* errC gave nil: main returns *)
| MainFatal (err : Go.error).  (* log.Fatalf("Error while running: ...") *)

Inductive Action :=
| Signal                       (* SIGINT, SIGTERM or SIGQUIT arrives *)
| Signaller                    (* the signal goroutine advances *)
| Serve                        (* the serving goroutine advances *)
| Loop                         (* the consuming goroutine advances *)
| Deadline                     (* the 10 seconds of ctxTimeout pass *)
| Select (pick : Go.case2)     (* the select inside Shutdown fires *)
| Main.                        (* main advances *)

Section Process.
Context {W : Type} {search : SearchTask W} {consumer : Kafka.Consumer W}.
Variable parseRFC3339 : string -> option Z.

(** [errC] is [make(chan error, 1)]: what it holds, and whether it has
    been closed. *)
Record Process := mkProcess {
  srv : @Kafka.System W;
  signalled : bool;
  signaller : SigPC;
  server : ServePC;
  errC : list Go.error;
  errClosed : bool;
  main : MainPC;
  deferred : list Deferred
}.

(** The setup part of [run]: [failure] tells, for each step, the error
    it fails with, if any.  The result is the steps attempted and the
    error returned, or none when everything was set up. *)
Fixpoint setup (failure : Setup -> option Go.error) (steps : list Setup)
    : list Setup * option (Internal.Error Go.error) :=
  match steps with
  | [] => ([], None)
  | s :: rest =>
      match failure s with
      | Some err =>
          ([s], Some (Internal.WrapErrorf err Internal.ErrorCodeUnknown
                        (label s)))
      | None =>
          let (done, res) := setup failure rest in (s :: done, res)
      end
  end.

(** The state [run] returns in: the server made, the channel made, both
    goroutines started. *)
Definition started (w : W) : Process :=
  mkProcess (Kafka.init w) false SigWaiting ServeReady [] false MainWaiting [].

(** [run] *)
Definition run (failure : Setup -> option Go.error) (w : W)
    : list Setup * (Internal.Error Go.error + Process) :=
  match setup failure order with
  | (done, Some err) => (done, inl err)
  | (done, None) => (done, inr (started w))
  end.

Definition logged (text : string) (s : @Kafka.System W) : @Kafka.System W :=
  Kafka.mkSystem (Kafka.goroutines s) (Kafka.shutdown s) (Kafka.closeC s)
    (Kafka.ctxDone s) (exec (logInfo text) (Kafka.eff s)).

(** The goroutine of [run] that waits for the signal and shuts down. *)
Definition signallerStep (p : Process) : Process :=
  match signaller p with
  | SigWaiting =>
      if signalled p then
        mkProcess
          (Kafka.step parseRFC3339 Kafka.ActShutdown
             (logged "Shutdown signal received" (srv p)))
          (signalled p) SigInShutdown (server p) (errC p) (errClosed p)
          (main p) (deferred p)
      else p
  | SigInShutdown =>
      match Kafka.shutdown (srv p) with
      | Kafka.Returned (Some err) =>
          if Nat.ltb (length (errC p)) 1 then
            mkProcess (logged "Shutdown completed" (srv p)) (signalled p)
              SigDeferring (server p) (errC p ++ [err]) (errClosed p)
              (main p) (deferred p)
          else p
      | Kafka.Returned None =>
          mkProcess (logged "Shutdown completed" (srv p)) (signalled p)
            SigDeferring (server p) (errC p) (errClosed p) (main p)
            (deferred p)
      | _ => p
      end
  | SigDeferring =>
      mkProcess
        (Kafka.mkSystem (Kafka.goroutines (srv p)) (Kafka.shutdown (srv p))
           (Kafka.closeC (srv p)) Go.ChanClosed (Kafka.eff (srv p)))
        (signalled p) SigDone (server p) (errC p) true (main p)
        [LoggerSync; Unsubscribe; Stop; Cancel; CloseErrC]
  | SigDone => p
  end.

(** The goroutine of [run] that serves: [ListenAndServe] of this worker
    returns nil, so nothing is sent on [errC]. *)
Definition serveStep (p : Process) : Process :=
  match server p with
  | ServeReady =>
      mkProcess
        (Kafka.step parseRFC3339 Kafka.ActListenAndServe
           (logged "Listening and serving" (srv p)))
        (signalled p) (signaller p) ServeDone (errC p) (errClosed p)
        (main p) (deferred p)
  | ServeDone => p
  end.

(** [if err := <-errC; err != nil { log.Fatalf(...) }] *)
Definition mainStep (p : Process) : Process :=
  match main p, errC p with
  | MainWaiting, err :: rest =>
      mkProcess (srv p) (signalled p) (signaller p) (server p) rest
        (errClosed p) (MainFatal err) (deferred p)
  | MainWaiting, [] =>
      if errClosed p then
        mkProcess (srv p) (signalled p) (signaller p) (server p) []
          (errClosed p) MainReturned (deferred p)
      else p
  | _, _ => p
  end.

Definition withSrv (p : Process) (s : @Kafka.System W) : Process :=
  mkProcess s (signalled p) (signaller p) (server p) (errC p) (errClosed p)
    (main p) (deferred p).

Definition ended (p : Process) : bool :=
  match main p with
  | MainWaiting => false
  | _ => true
  end.

(** Once [main] has ended, or after a panic, the process is gone. *)
Definition step (a : Action) (p : Process) : Process :=
  if (ended p || Kafka.panicked (srv p))%bool then p else
  match a with
  | Signal =>
      mkProcess (srv p) true (signaller p) (server p) (errC p) (errClosed p)
        (main p) (deferred p)
  | Signaller => signallerStep p
  | Serve => serveStep p
  | Loop => withSrv p (Kafka.step parseRFC3339 (Kafka.ActLoop 0) (srv p))
  | Deadline =>
      match signaller p with
      | SigWaiting => p
      | _ => withSrv p (Kafka.step parseRFC3339 Kafka.ActDeadline (srv p))
      end
  | Select pick =>
      match signaller p with
      | SigInShutdown =>
          withSrv p (Kafka.step parseRFC3339 (Kafka.ActSelect pick) (srv p))
      | _ => p
      end
  | Main => mainStep p
  end.

Fixpoint exec (sched : list Action) (p : Process) : Process :=
  match sched with
  | [] => p
  | a :: rest => exec rest (step a p)
  end.

(** How [main] ends. *)
Inductive Ending :=
| CouldntRun (err : Internal.Error Go.error)
                               (* log.Fatalf("Couldn't run: %s", err) *)
| ErrorWhileRunning (err : Go.error)
                               (* log.Fatalf("Error while running: %s", err) *)
| Return.                      (* main returns *)

(** [main]: [run] and, when it gave the channel, the receive from it;
    [sched] is what happens in the process meanwhile.  [None]: [main] is
    still waiting. *)
Definition mainEnding (failure : Setup -> option Go.error) (w : W)
    (sched : list Action) : option Ending :=
  match snd (run failure w) with
  | inl err => Some (CouldntRun err)
  | inr p =>
      match main (exec sched p) with
      | MainWaiting => None
      | MainReturned => Some Return
      | MainFatal err => Some (ErrorWhileRunning err)
      end
  end.

(** What holds of every state of the process: [ListenAndServe] is called
    once, by the serving goroutine, so there is at most one consuming
    goroutine. *)
Definition sound (p : Process) : Prop :=
  (Kafka.closeC (srv p) = Go.ChanClosed
   <-> Kafka.shutdown (srv p) <> Kafka.NotCalled)
  /\ (Kafka.shutdown (srv p) = Kafka.Returned None ->
      Kafka.goroutines (srv p) = [Kafka.Exited])
  /\ match server p with
     | ServeReady => Kafka.goroutines (srv p) = []
     | ServeDone => exists g, Kafka.goroutines (srv p) = [g]
     end
  /\ Kafka.shutdown (srv p) <> Kafka.Panicked
  /\ (forall err, Kafka.shutdown (srv p) = Kafka.Returned (Some err) ->
      err = Kafka.contextDone)
  /\ match signaller p with
     | SigWaiting =>
         Kafka.shutdown (srv p) = Kafka.NotCalled
         /\ errC p = [] /\ errClosed p = false /\ main p = MainWaiting
         /\ deferred p = []
     | SigInShutdown =>
         signalled p = true
         /\ Kafka.shutdown (srv p) <> Kafka.NotCalled
         /\ errC p = [] /\ errClosed p = false /\ main p = MainWaiting
         /\ deferred p = []
     | SigDeferring =>
         signalled p = true /\ errClosed p = false /\ deferred p = []
         /\ main p <> MainReturned
         /\ exists r,
              Kafka.shutdown (srv p) = Kafka.Returned r
              /\ match r with
                 | None => errC p = [] /\ main p = MainWaiting
                 | Some err =>
                     (errC p = [err] /\ main p = MainWaiting)
                     \/ (errC p = [] /\ main p = MainFatal err)
                 end
     | SigDone =>
         signalled p = true /\ errClosed p = true
         /\ deferred p = [LoggerSync; Unsubscribe; Stop; Cancel; CloseErrC]
         /\ exists r,
              Kafka.shutdown (srv p) = Kafka.Returned r
              /\ match r with
                 | None => errC p = [] /\ forall err, main p <> MainFatal err
                 | Some err =>
                     (errC p = [err] /\ main p = MainWaiting)
                     \/ (errC p = [] /\ main p = MainFatal err)
                 end
     end.

End Process.

End KafkaProcess.

(** ** The process of the subscribe-based worker: [run] and [main] *)

Module RedisProcess.
Import Eff Calls.

(** What [run] sets up before it starts anything, in the order it does,
    each with the text its failure is wrapped with. *)
Inductive Setup :=
| ZapNewProduction
| EnvvarLoad
| NewVaultProvider
| NewElasticSearch
| NewRedis
| NewOTExporter.

Definition label (s : Setup) : string :=
  match s with
  | ZapNewProduction => "zap.NewProduction"
  | EnvvarLoad => "envvar.Load"
  | NewVaultProvider => "internal.NewVaultProvider"
  | NewElasticSearch => "internal.NewElasticSearch"
  | NewRedis => "newRedis"
  | NewOTExporter => "newOTExporter"
  end.

Definition order : list Setup :=
  [ZapNewProduction; EnvvarLoad; NewVaultProvider; NewElasticSearch;
   NewRedis; NewOTExporter].

(** The deferred calls of the goroutine that waits for the signal. *)
Inductive Deferred :=
| LoggerSync
| RdbClose
| Stop
| Cancel
| CloseErrC.

(** The goroutine that waits for the signal.  Its deferred function is
    registered before it calls [Shutdown], so it runs when [Shutdown]
    returns and also when [Shutdown] panics; after a panic the runtime
    then ends the process. *)
Inductive SigPC :=
| SigWaiting       (* blocked in <-ctx.Done() *)
| SigInShutdown    (* inside srv.Shutdown(ctxTimeout) *)
| SigDeferring     (* Shutdown returned or panicked; the deferred calls
                      are to run *)
| SigDone          (* the deferred calls have run *)
| SigCrashed.      (* the panic has ended the process *)

(** The goroutine that calls [srv.ListenAndServe]. *)
Inductive ServePC :=
| ServeReady
| ServeSending (err : Go.error)   (* in  errC <- err *)
| ServeDone
| ServePanicked.                  (* errC <- err  on the closed errC *)

(** [main], after [run] returned the channel. *)
Inductive MainPC :=
| MainWaiting                  (* blocked in <-errC *)
| MainReturned                 (* errC gave nil: main returns *)
| MainFatal (err : Go.error).  (* log.Fatalf("Error while running: ...") *)

Inductive Action :=
| Signal                       (* SIGINT, SIGTERM or SIGQUIT arrives *)
| Signaller                    (* the signal goroutine advances *)
| Serve (receive : option Go.error)
                               (* the serving goroutine advances;
                                  [receive] is what pubsub.Receive gives *)
| Deliver (msg : Redis.Message) (* the subscription hands a message over *)
| Loop                         (* the ranging goroutine advances *)
| Deadline                     (* the 10 seconds of ctxTimeout pass *)
| Select (pick : Go.case2)     (* the select inside Shutdown fires *)
| Main.                        (* main advances *)

(** How [main] ends. *)
Inductive Ending :=
| CouldntRun (err : Internal.Error Go.error)
                               (* log.Fatalf("Couldn't run: %s", err) *)
| ErrorWhileRunning (err : Go.error)
                               (* log.Fatalf("Error while running: %s", err) *)
| Return.                      (* main returns *)

Section Process.
Context {W : Type} {search : SearchTask W}.
Variable parseRFC3339 : string -> option Z.

(** [errC] is [make(chan error, 1)]: what it holds, and whether it has
    been closed. *)
Record Process := mkProcess {
  srv : @Redis.System W;
  signalled : bool;
  signaller : SigPC;
  server : ServePC;
  errC : list Go.error;
  errClosed : bool;
  main : MainPC;
  deferred : list Deferred
}.

(** The setup part of [run]: [failure] tells, for each step, the error
    it fails with, if any.  The result is the steps attempted and the
    error returned, or none when everything was set up. *)
Fixpoint setup (failure : Setup -> option Go.error) (steps : list Setup)
    : list Setup * option (Internal.Error Go.error) :=
  match steps with
  | [] => ([], None)
  | s :: rest =>
      match failure s with
      | Some err =>
          ([s], Some (Internal.WrapErrorf err Internal.ErrorCodeUnknown
                        (label s)))
      | None =>
          let (done, res) := setup failure rest in (s :: done, res)
      end
  end.

(** The state [run] returns in: the server made, the channel made, both
    goroutines started. *)
Definition started (w : W) : Process :=
  mkProcess (Redis.init w) false SigWaiting ServeReady [] false MainWaiting [].

(** [run] *)
Definition run (failure : Setup -> option Go.error) (w : W)
    : list Setup * (Internal.Error Go.error + Process) :=
  match setup failure order with
  | (done, Some err) => (done, inl err)
  | (done, None) => (done, inr (started w))
  end.

Definition logged (text : string) (s : @Redis.System W) : @Redis.System W :=
  Redis.mkSystem (Redis.goroutine s) (Redis.shutdown s) (Redis.ch s)
    (Redis.chClosed s) (Redis.ctxDone s) (exec (logInfo text) (Redis.eff s)).

(** [cancel()] of the deferred function: [ctxTimeout] is done. *)
Definition cancelled (s : @Redis.System W) : @Redis.System W :=
  Redis.mkSystem (Redis.goroutine s) (Redis.shutdown s) (Redis.ch s)
    (Redis.chClosed s) Go.ChanClosed (Redis.eff s).

(** The goroutine of [run] that waits for the signal and shuts down.  A
    [Shutdown] that panics (on the nil [s.pubsub]) skips the send and the
    last log line, and the deferred function runs next. *)
Definition signallerStep (p : Process) : Process :=
  match signaller p with
  | SigWaiting =>
      if signalled p then
        let s := Redis.Shutdown (logged "Shutdown signal received" (srv p)) in
        mkProcess s (signalled p)
          (if Redis.panicked s then SigDeferring else SigInShutdown)
          (server p) (errC p) (errClosed p) (main p) (deferred p)
      else p
  | SigInShutdown =>
      match Redis.shutdown (srv p) with
      | Redis.Returned (Some err) =>
          if Nat.ltb (length (errC p)) 1 then
            mkProcess (logged "Shutdown completed" (srv p)) (signalled p)
              SigDeferring (server p) (errC p ++ [err]) (errClosed p)
              (main p) (deferred p)
          else p
      | Redis.Returned None =>
          mkProcess (logged "Shutdown completed" (srv p)) (signalled p)
            SigDeferring (server p) (errC p) (errClosed p) (main p)
            (deferred p)
      | _ => p
      end
  | SigDeferring =>
      mkProcess (cancelled (srv p)) (signalled p) SigDone (server p) (errC p)
        true (main p) [LoggerSync; RdbClose; Stop; Cancel; CloseErrC]
  | SigDone =>
      if Redis.panicked (srv p) then
        mkProcess (srv p) (signalled p) SigCrashed (server p) (errC p)
          (errClosed p) (main p) (deferred p)
      else p
  | SigCrashed => p
  end.

(** The goroutine of [run] that serves: an error of [ListenAndServe] is
    sent on [errC]; a send on the closed [errC] panics, and this
    goroutine has nothing deferred. *)
Definition serveStep (receive : option Go.error) (p : Process) : Process :=
  match server p with
  | ServeReady =>
      let (s, err) :=
        Redis.ListenAndServe receive (logged "Listening and serving" (srv p))
      in
      mkProcess s (signalled p) (signaller p)
        match err with
        | Some e => ServeSending e
        | None => ServeDone
        end
        (errC p) (errClosed p) (main p) (deferred p)
  | ServeSending err =>
      if errClosed p then
        mkProcess (srv p) (signalled p) (signaller p) ServePanicked
          (errC p) (errClosed p) (main p) (deferred p)
      else if Nat.ltb (length (errC p)) 1 then
        mkProcess (srv p) (signalled p) (signaller p) ServeDone
          (errC p ++ [err]) (errClosed p) (main p) (deferred p)
      else p
  | ServeDone => p
  | ServePanicked => p
  end.

(** [if err := <-errC; err != nil { log.Fatalf(...) }] *)
Definition mainStep (p : Process) : Process :=
  match main p, errC p with
  | MainWaiting, err :: rest =>
      mkProcess (srv p) (signalled p) (signaller p) (server p) rest
        (errClosed p) (MainFatal err) (deferred p)
  | MainWaiting, [] =>
      if errClosed p then
        mkProcess (srv p) (signalled p) (signaller p) (server p) []
          (errClosed p) MainReturned (deferred p)
      else p
  | _, _ => p
  end.

Definition withSrv (p : Process) (s : @Redis.System W) : Process :=
  mkProcess s (signalled p) (signaller p) (server p) (errC p) (errClosed p)
    (main p) (deferred p).

(** The process is gone once [main] has ended, or once a panic has. *)
Definition ended (p : Process) : bool :=
  match main p, signaller p, server p with
  | MainWaiting, SigCrashed, _ => true
  | MainWaiting, _, ServePanicked => true
  | MainWaiting, _, _ => false
  | _, _, _ => true
  end.

(** Until then every goroutine can move; a panic of the signal goroutine
    stops none of the others while its deferred function runs. *)
Definition step (a : Action) (p : Process) : Process :=
  if ended p then p else
  match a with
  | Signal =>
      mkProcess (srv p) true (signaller p) (server p) (errC p) (errClosed p)
        (main p) (deferred p)
  | Signaller => signallerStep p
  | Serve receive => serveStep receive p
  | Deliver msg => withSrv p (Redis.deliver msg (srv p))
  | Loop => withSrv p (Redis.loopStep parseRFC3339 (srv p))
  | Deadline =>
      match signaller p with
      | SigWaiting => p
      | _ => withSrv p (cancelled (srv p))
      end
  | Select pick =>
      match signaller p with
      | SigInShutdown => withSrv p (Redis.Shutdown_select (srv p) pick)
      | _ => p
      end
  | Main => mainStep p
  end.

Fixpoint exec (sched : list Action) (p : Process) : Process :=
  match sched with
  | [] => p
  | a :: rest => exec rest (step a p)
  end.

(** [main]: [run] and, when it gave the channel, the receive from it;
    [sched] is what happens in the process meanwhile.  [None]: [main]
    has not ended. *)
Definition mainEnding (failure : Setup -> option Go.error) (w : W)
    (sched : list Action) : option Ending :=
  match snd (run failure w) with
  | inl err => Some (CouldntRun err)
  | inr p =>
      match main (exec sched p) with
      | MainWaiting => None
      | MainReturned => Some Return
      | MainFatal err => Some (ErrorWhileRunning err)
      end
  end.

(** No error is in [errC] or has been taken from it. *)
Definition clean (p : Process) : Prop :=
  errC p = []
  /\ (main p = MainWaiting
      \/ (main p = MainReturned /\ errClosed p = true)).

(** The error [err] was sent on [errC]: it is there, or [main] took it. *)
Definition sent (err : Go.error) (p : Process) : Prop :=
  (errC p = [err] /\ main p = MainWaiting)
  \/ (errC p = [] /\ main p = MainFatal err).

(** The serving goroutine and [errC], as long as [Shutdown] has not got
    past its [Close]. *)
Definition serving (p : Process) : Prop :=
  match server p with
  | ServeReady =>
      Redis.goroutine (srv p) = Redis.NotStarted /\ clean p
  | ServeSending err =>
      err = Redis.pubsubReceive
      /\ Redis.goroutine (srv p) = Redis.NotStarted /\ clean p
  | ServeDone =>
      (Redis.goroutine (srv p) = Redis.NotStarted
       /\ sent Redis.pubsubReceive p)
      \/ (Redis.goroutine (srv p) <> Redis.NotStarted /\ clean p)
  | ServePanicked =>
      Redis.goroutine (srv p) = Redis.NotStarted
      /\ errClosed p = true /\ clean p
  end.

(** What holds of every state of the process. *)
Definition safe (p : Process) : Prop :=
  match Redis.shutdown (srv p) with
  | Redis.NotCalled =>
      signaller p = SigWaiting /\ errClosed p = false /\ deferred p = []
      /\ serving p
  | Redis.Waiting =>
      Redis.goroutine (srv p) <> Redis.NotStarted
      /\ server p = ServeDone /\ signaller p = SigInShutdown
      /\ signalled p = true /\ errClosed p = false /\ deferred p = []
      /\ errC p = [] /\ main p = MainWaiting
  | Redis.Returned r =>
      Redis.goroutine (srv p) <> Redis.NotStarted
      /\ server p = ServeDone /\ signalled p = true
      /\ match r with
         | None => Redis.goroutine (srv p) = Redis.Exited
         | Some err => err = Redis.contextDone
         end
      /\ match signaller p with
         | SigInShutdown =>
             errClosed p = false /\ deferred p = []
             /\ errC p = [] /\ main p = MainWaiting
         | SigDeferring =>
             errClosed p = false /\ deferred p = []
             /\ match r with
                | None => errC p = [] /\ main p = MainWaiting
                | Some err => sent err p
                end
         | SigDone =>
             errClosed p = true
             /\ deferred p = [LoggerSync; RdbClose; Stop; Cancel; CloseErrC]
             /\ match r with
                | None => clean p
                | Some err => sent err p
                end
         | _ => False
         end
  | Redis.Panicked =>
      signalled p = true
      /\ match signaller p with
         | SigDeferring => errClosed p = false /\ deferred p = []
         | SigDone | SigCrashed =>
             errClosed p = true
             /\ deferred p = [LoggerSync; RdbClose; Stop; Cancel; CloseErrC]
         | _ => False
         end
      /\ serving p
  end.

End Process.

End RedisProcess.

(** * Facts *)

(** ** The calls shared by both workers *)

Module CallFacts.
Import Eff Calls.

(** Every type is in exactly one of the three cases of the switch. *)
Lemma type_cases (ty : string) :
  (ty = "tasks.event.updated" \/ ty = "tasks.event.created")
  \/ ty = "tasks.event.deleted"
  \/ (ty <> "tasks.event.updated" /\ ty <> "tasks.event.created"
      /\ ty <> "tasks.event.deleted").
Proof.
  destruct (String.eqb_spec ty "tasks.event.updated"); [tauto|].
  destruct (String.eqb_spec ty "tasks.event.created"); [tauto|].
  destruct (String.eqb_spec ty "tasks.event.deleted"); tauto.
Qed.

Lemma commits_app (l1 l2 : list Event) :
  commits (l1 ++ l2) = (commits l1 ++ commits l2)%list.
Proof.
  induction l1 as [|e l1 IH]; simpl; [reflexivity|].
  destruct e; simpl; rewrite IH; reflexivity.
Qed.

Section Calls.
Context {W : Type} {search : SearchTask W}.

Lemma since_app (s : St W) (w : W) (l : list Event) :
  since s (mkSt w (trace s ++ l)) = l.
Proof. unfold since. simpl. apply drop_app_length. Qed.

Lemma run_taskIndex (t : Task) (w : W) (tr : list Event) :
  taskIndex t (mkSt w tr) =
  (fst (Index t w),
   mkSt (snd (Index t w)) (tr ++ [CallIndex t (fst (Index t w))])).
Proof.
  unfold taskIndex, bind, call, emit, ret. simpl.
  destruct (Index t w); reflexivity.
Qed.

Lemma run_taskDelete (id : string) (w : W) (tr : list Event) :
  taskDelete id (mkSt w tr) =
  (fst (Delete id w),
   mkSt (snd (Delete id w)) (tr ++ [CallDelete id (fst (Delete id w))])).
Proof.
  unfold taskDelete, bind, call, emit, ret. simpl.
  destruct (Delete id w); reflexivity.
Qed.

End Calls.
End CallFacts.

(** ** Decoding, on examples *)

Module JsonFacts.
Import Json.

Example decode_created :
  Kafka.decodeEvt Sim.noTime (Text Examples.createdTask)
  = Some {| Kafka.EvtType := "tasks.event.created";
            Kafka.EvtValue := Examples.buyMilk |}.
Proof. reflexivity. Qed.

(** Keys match fields without regard to case; unknown keys are skipped;
    [null] leaves a field as it is. *)
Example decode_folded_keys :
  Kafka.decodeEvt Sim.noTime
    (Text (JObject [("type", JString "tasks.event.deleted");
                    ("value", JObject [("id", JString "abc");
                                       ("isDone", JNull);
                                       ("extra", JInt 1)])]))
  = Some {| Kafka.EvtType := "tasks.event.deleted";
            Kafka.EvtValue := Examples.onlyID |}.
Proof. reflexivity. Qed.

(** Keys fold as Unicode has it: a long s in a key is an [s], a Kelvin
    sign a [k]; any other byte outside ASCII matches no field. *)
Example decode_long_s :
  Kafka.decodeEvt Sim.noTime (Text Examples.createdLongS)
  = Some {| Kafka.EvtType := "tasks.event.created";
            Kafka.EvtValue := Examples.buyMilk |}
  /\ Go.foldName ("is" ++ Examples.kelvin ++ "nown") = "ISKNOWN"
  /\ decodeTask Sim.noTime
       (Text (JObject [(String (ascii_of_nat 195)
                          (String (ascii_of_nat 142) "D"), JString "abc")]))
     = Some zeroTask.
Proof. repeat split; reflexivity. Qed.

(** A value of the wrong JSON kind for its field is a decoding error,
    whatever the timestamp parser. *)
Lemma decode_bare_value (parseRFC3339 : string -> option Z) :
  Kafka.decodeEvt parseRFC3339 (Text Examples.deletedBare) = None.
Proof. reflexivity. Qed.

Example decode_priority_range :
  decodeTask Sim.noTime (Text (JObject [("Priority", JInt 128)])) = None
  /\ decodeTask Sim.noTime (Text (JObject [("Priority", JInt 3)]))
     = Some {| ID := EmptyString; Description := EmptyString; Priority := 3;
               TaskDates := zeroDates; IsDone := false |}.
Proof. split; reflexivity. Qed.

Example decode_id_payload :
  decodeID (Text (JString "abc")) = Some "abc"
  /\ decodeID (Text Examples.deletedBare) = None
  /\ decodeID Malformed = None.
Proof. repeat split; reflexivity. Qed.

End JsonFacts.

(** ** One iteration of the poll-based worker *)

Module KafkaFacts.
Import Eff Calls Kafka CallFacts.

Section Iteration.
Context {W : Type} {search : SearchTask W} {consumer : Consumer W}.
Variable parseRFC3339 : string -> option Z.

(** The primitives, run on an explicit state. *)
Lemma run_poll (ms : Z) (w : W) (tr : list Event) :
  poll ms (mkSt w tr) =
  (fst (Poll ms w), mkSt (snd (Poll ms w)) (tr ++ [CallPoll ms])).
Proof.
  unfold poll, bind, call, emit, ret. simpl.
  destruct (Poll ms w); reflexivity.
Qed.

Lemma run_commit (msg : Message) (w : W) (tr : list Event) :
  commit msg (mkSt w tr) =
  (tt, mkSt (snd (CommitMessage msg w))
         (tr ++ CallCommit (Offset msg) (fst (CommitMessage msg w))
                :: commitLog (fst (CommitMessage msg w)))).
Proof.
  unfold commit, bind, call, emit, ret, logError. simpl.
  destruct (CommitMessage msg w) as [[e|] w2]; simpl;
    unfold emit; simpl; rewrite <- ?app_assoc; reflexivity.
Qed.

(** The three ways through the switch. *)
Lemma dispatch_upsert (e : evt) (w : W) (tr : list Event) :
  EvtType e = "tasks.event.updated" \/ EvtType e = "tasks.event.created" ->
  dispatch e (mkSt w tr) =
  (isNil (fst (Index (EvtValue e) w)),
   mkSt (snd (Index (EvtValue e) w))
     (tr ++ [CallIndex (EvtValue e) (fst (Index (EvtValue e) w))])).
Proof.
  intros HT. unfold dispatch.
  assert ((String.eqb (EvtType e) "tasks.event.updated"
           || String.eqb (EvtType e) "tasks.event.created")%bool = true)
    as ->.
  { destruct HT as [-> | ->]; reflexivity. }
  unfold bind. rewrite run_taskIndex. reflexivity.
Qed.

Lemma dispatch_remove (e : evt) (w : W) (tr : list Event) :
  EvtType e = "tasks.event.deleted" ->
  dispatch e (mkSt w tr) =
  (isNil (fst (Delete (ID (EvtValue e)) w)),
   mkSt (snd (Delete (ID (EvtValue e)) w))
     (tr ++ [CallDelete (ID (EvtValue e))
               (fst (Delete (ID (EvtValue e)) w))])).
Proof.
  intros HT. unfold dispatch. rewrite HT. simpl.
  unfold bind. rewrite run_taskDelete. reflexivity.
Qed.

Lemma dispatch_other (e : evt) (s : St W) :
  EvtType e <> "tasks.event.updated" ->
  EvtType e <> "tasks.event.created" ->
  EvtType e <> "tasks.event.deleted" ->
  dispatch e s = (false, s).
Proof.
  intros H1 H2 H3. unfold dispatch.
  apply String.eqb_neq in H1, H2, H3. rewrite H1, H2, H3. reflexivity.
Qed.

(** The iteration, by what the poll returned. *)
Lemma consume_no_message (s : St W) :
  (forall msg, fst (Poll 150 (world s)) <> PollMessage msg) ->
  exec (consume parseRFC3339) s =
  mkSt (snd (Poll 150 (world s))) (trace s ++ [CallPoll 150]).
Proof.
  intros HP. unfold exec, consume, bind. destruct s as [w tr].
  rewrite run_poll. simpl in *.
  destruct (fst (Poll 150 w)) as [|msg|]; try reflexivity.
  exfalso. apply (HP msg). reflexivity.
Qed.

Lemma consume_poison (s : St W) (msg : Message) :
  fst (Poll 150 (world s)) = PollMessage msg ->
  decodeEvt parseRFC3339 (Value msg) = None ->
  exec (consume parseRFC3339) s =
  let w1 := snd (Poll 150 (world s)) in
  mkSt (snd (CommitMessage msg w1))
    (trace s ++ [CallPoll 150; LogInfo "Ignoring message, invalid";
                 CallCommit (Offset msg) (fst (CommitMessage msg w1))]
             ++ commitLog (fst (CommitMessage msg w1))).
Proof.
  intros HP HD. unfold exec, consume, bind. destruct s as [w tr].
  rewrite run_poll. simpl in *. rewrite HP, HD.
  unfold logInfo, emit. simpl. rewrite run_commit. simpl.
  rewrite <- !app_assoc. reflexivity.
Qed.

Lemma consume_decoded (s : St W) (msg : Message) (e : evt) :
  fst (Poll 150 (world s)) = PollMessage msg ->
  decodeEvt parseRFC3339 (Value msg) = Some e ->
  exec (consume parseRFC3339) s =
  let d := dispatch e (mkSt (snd (Poll 150 (world s)))
                         (trace s ++ [CallPoll 150])) in
  if fst d then
    mkSt (snd (CommitMessage msg (world (snd d))))
      (trace (snd d)
         ++ [LogInfo "Consumed";
             CallCommit (Offset msg)
               (fst (CommitMessage msg (world (snd d))))]
         ++ commitLog (fst (CommitMessage msg (world (snd d)))))
  else snd d.
Proof.
  intros HP HD. unfold exec, consume, bind. destruct s as [w tr].
  rewrite run_poll. simpl in *. rewrite HP, HD.
  destruct (dispatch e _) as [[|] [w2 tr2]]; simpl; [|reflexivity].
  unfold logInfo, emit. simpl. rewrite run_commit. simpl.
  rewrite <- !app_assoc. reflexivity.
Qed.

(** What the applier is called with, by the type of a decoded envelope. *)
Lemma consume_dispatches (s : St W) (msg : Message) (e : evt) :
  fst (Poll 150 (world s)) = PollMessage msg ->
  decodeEvt parseRFC3339 (Value msg) = Some e ->
  let w1 := snd (Poll 150 (world s)) in
  let new := since s (exec (consume parseRFC3339) s) in
  (EvtType e = "tasks.event.updated" \/ EvtType e = "tasks.event.created" ->
   applier_calls new = [CallIndex (EvtValue e) (fst (Index (EvtValue e) w1))])
  /\ (EvtType e = "tasks.event.deleted" ->
      applier_calls new =
      [CallDelete (ID (EvtValue e)) (fst (Delete (ID (EvtValue e)) w1))])
  /\ (EvtType e <> "tasks.event.updated" ->
      EvtType e <> "tasks.event.created" ->
      EvtType e <> "tasks.event.deleted" ->
      new = [CallPoll 150]).
Proof.
  intros HP HD w1 new. subst new.
  rewrite (consume_decoded s msg e HP HD). fold w1.
  split; [|split].
  - intros HT. rewrite (dispatch_upsert e _ _ HT). simpl.
    destruct (fst (Index (EvtValue e) w1)); simpl;
      rewrite <- ?app_assoc; rewrite since_app; simpl;
      [reflexivity|].
    destruct (fst (CommitMessage msg _)); reflexivity.
  - intros HT. rewrite (dispatch_remove e _ _ HT). simpl.
    destruct (fst (Delete (ID (EvtValue e)) w1)); simpl;
      rewrite <- ?app_assoc; rewrite since_app; simpl;
      [reflexivity|].
    destruct (fst (CommitMessage msg _)); reflexivity.
  - intros H1 H2 H3. rewrite (dispatch_other e _ H1 H2 H3). simpl.
    apply since_app.
Qed.

(** Every iteration leaves one of the four traces. *)
Lemma consume_iteration (s : St W) :
  iteration (since s (exec (consume parseRFC3339) s)).
Proof.
  destruct (fst (Poll 150 (world s))) as [|msg|] eqn:HP.
  - rewrite consume_no_message by (rewrite HP; discriminate).
    rewrite since_app. constructor.
  - destruct (decodeEvt parseRFC3339 (Value msg)) as [e|] eqn:HD.
    + rewrite (consume_decoded s msg e HP HD).
      destruct (type_cases (EvtType e)) as [HT | [HT | (H1 & H2 & H3)]].
      * rewrite (dispatch_upsert e _ _ HT). simpl.
        destruct (fst (Index (EvtValue e) _)) eqn:HI; simpl;
          rewrite <- ?app_assoc; rewrite since_app.
        -- apply it_failed. reflexivity.
        -- apply (it_applied (CallIndex (EvtValue e) None)). reflexivity.
      * rewrite (dispatch_remove e _ _ HT). simpl.
        destruct (fst (Delete (ID (EvtValue e)) _)) eqn:HI; simpl;
          rewrite <- ?app_assoc; rewrite since_app.
        -- apply it_failed. reflexivity.
        -- apply (it_applied (CallDelete (ID (EvtValue e)) None)). reflexivity.
      * rewrite (dispatch_other e _ H1 H2 H3). simpl.
        rewrite since_app. constructor.
    + rewrite (consume_poison s msg HP HD). simpl.
      rewrite since_app. apply it_poison.
  - rewrite consume_no_message by (rewrite HP; discriminate).
    rewrite since_app. constructor.
Qed.

Lemma iteration_polls_once (new : list Event) :
  iteration new -> polls new = [CallPoll 150].
Proof.
  intros H. destruct H as [|o r|a Ha|a o r Ha].
  - reflexivity.
  - destruct r; reflexivity.
  - destruct a; try discriminate; reflexivity.
  - destruct a; try discriminate; destruct r; reflexivity.
Qed.

Lemma iteration_failed_uncommitted (new : list Event) :
  iteration new ->
  (exists a, In a new /\ failed a = true) ->
  commits new = [].
Proof.
  intros H (a & Hin & Hf). destruct H as [|o r|b Hb|b o r Hb].
  - simpl in Hin. destruct Hin as [<-|[]]. discriminate.
  - exfalso. destruct r; simpl in Hin;
      repeat (destruct Hin as [<-|Hin]; [discriminate|]); exact Hin.
  - destruct b; try discriminate; reflexivity.
  - exfalso. destruct b; try discriminate Hb;
      destruct err; try discriminate Hb;
      destruct r; simpl in Hin;
      repeat (destruct Hin as [<-|Hin]; [discriminate|]); exact Hin.
Qed.

End Iteration.

(** ** The goroutines and [Shutdown] together *)



Lemma length_release (gs : list LoopPC) : length (release gs) = length gs.
Proof.
  induction gs as [|g gs IH]; simpl; [reflexivity|].
  destruct g; simpl; rewrite ?IH; reflexivity.
Qed.


Section Interleaving.
Context {W : Type} {search : SearchTask W} {consumer : Consumer W}.
Variable parseRFC3339 : string -> option Z.

(** Some goroutine offers its completion. *)
Lemma sendingDone_In (sys : @System W) :
  sendingDone sys = true <-> In SendingDone (goroutines sys).
Proof.
  unfold sendingDone. rewrite existsb_exists. split.
  - intros (g & Hin & Hs). destruct g; try discriminate. exact Hin.
  - intros H. exists SendingDone. split; [exact H | reflexivity].
Qed.

Lemma sendingDone_not_In (sys : @System W) :
  sendingDone sys = false <-> ~ In SendingDone (goroutines sys).
Proof.
  rewrite <- sendingDone_In. destruct (sendingDone sys); split;
    congruence.
Qed.

Lemma step_default (sys : @System W) (i : nat) :
  shutdown sys <> Panicked ->
  goroutines sys !! i = Some InDefault ->
  step parseRFC3339 (ActLoop i) sys =
  mkSystem (<[i := AtSelect]> (goroutines sys)) (shutdown sys) (closeC sys)
    (ctxDone sys) (exec (consume parseRFC3339) (eff sys)).
Proof.
  intros HS HG. unfold step, panicked, loopStep. rewrite HG.
  destruct (shutdown sys); try reflexivity. congruence.
Qed.

(** After its step a goroutine that was in the loop body is back at the
    select. *)
Lemma insert_lookup (gs : list LoopPC) (i : nat) (g g' : LoopPC) :
  gs !! i = Some g -> <[i := g']> gs !! i = Some g'.
Proof.
  intros H. apply list_lookup_insert_eq. eapply lookup_lt_Some, H.
Qed.

(** With [closeC] open, two steps from the select are one iteration. *)
Lemma next_iteration (sys : @System W) (i : nat) :
  shutdown sys <> Panicked ->
  goroutines sys !! i = Some AtSelect ->
  closeC sys = Go.ChanOpen ->
  run parseRFC3339 [ActLoop i; ActLoop i] sys =
  mkSystem (goroutines sys) (shutdown sys) (closeC sys) (ctxDone sys)
    (exec (consume parseRFC3339) (eff sys)).
Proof.
  intros HS HG HC. simpl.
  assert (step parseRFC3339 (ActLoop i) sys
          = mkSystem (<[i := InDefault]> (goroutines sys)) (shutdown sys)
              (closeC sys) (ctxDone sys) (eff sys)) as ->.
  { unfold step, panicked, loopStep. rewrite HG, HC.
    destruct (shutdown sys); try reflexivity. congruence. }
  rewrite step_default; cbn [shutdown goroutines closeC ctxDone eff].
  - rewrite list_insert_insert_eq, (list_insert_id _ _ _ HG). reflexivity.
  - exact HS.
  - eapply insert_lookup, HG.
Qed.



Lemma init_coherent (w : W) : coherent (init w).
Proof.
  unfold coherent, init. simpl. split; [discriminate|].
  split; [discriminate | congruence].
Qed.

(** [closeC] is closed exactly when [Shutdown] has been called. *)
Lemma step_closed (a : Action) (sys : @System W) :
  (closeC sys = Go.ChanClosed <-> shutdown sys <> NotCalled) ->
  closeC (step parseRFC3339 a sys) = Go.ChanClosed
  <-> shutdown (step parseRFC3339 a sys) <> NotCalled.
Proof.
  unfold step, panicked, ListenAndServe, loopStep, Shutdown, Shutdown_select.
  intros HC.
  destruct (shutdown sys) eqn:ES, (closeC sys) eqn:EC;
    destruct a as [|i| | |[|]]; simpl; rewrite ?ES, ?EC; simpl;
    try (destruct (goroutines sys !! i) as [[| | |]|]; simpl;
         rewrite ?ES, ?EC);
    try (destruct (ctxDone sys), (sendingDone sys); simpl;
         rewrite ?ES, ?EC);
    intuition congruence.
Qed.

(** Where [ListenAndServe] was called at most once, [Shutdown] has
    returned nil only if the one goroutine has ended. *)
Lemma step_single (a : Action) (sys : @System W) :
  ((length (goroutines sys) <= 1)%nat ->
   shutdown sys = Returned None -> goroutines sys = [Exited]) ->
  (length (goroutines (step parseRFC3339 a sys)) <= 1)%nat ->
  shutdown (step parseRFC3339 a sys) = Returned None ->
  goroutines (step parseRFC3339 a sys) = [Exited].
Proof.
  intros H. unfold step. destruct (panicked sys); [exact H|].
  destruct a as [|i| | |pick]; simpl.
  - rewrite length_app. simpl. intros HL HR.
    destruct (goroutines sys) as [|g gs] eqn:EG; simpl in HL; [|lia].
    assert (@nil LoopPC = [Exited]) by (apply H; simpl; [lia | exact HR]).
    discriminate.
  - unfold loopStep.
    destruct (goroutines sys !! i) as [g|] eqn:E; [|exact H].
    destruct g; try exact H.
    + destruct (Go.recv_ready (closeC sys)); simpl;
        rewrite length_insert; intros HL HR;
        rewrite (H HL HR) in E; destruct i; discriminate.
    + simpl. rewrite length_insert. intros HL HR.
      rewrite (H HL HR) in E. destruct i; discriminate.
  - unfold Shutdown. destruct (Go.close (closeC sys)); simpl; discriminate.
  - exact H.
  - unfold Shutdown_select.
    destruct (shutdown sys) eqn:ES;
      try (intros HL HR; apply H; [exact HL | congruence]).
    destruct (Go.select2 _ _ pick) as [[|]|] eqn:EP; simpl.
    + discriminate.
    + rewrite length_release. intros HL _.
      assert (sendingDone sys = true) as HD.
      { destruct (Go.recv_ready (ctxDone sys)), (sendingDone sys);
          simpl in EP; congruence. }
      apply sendingDone_In in HD.
      destruct (goroutines sys) as [|g [|g' gs]]; simpl in *;
        [tauto | | lia].
      destruct HD as [->|[]]. reflexivity.
    + intros _ HR. congruence.
Qed.

Lemma step_coherent (a : Action) (sys : @System W) :
  coherent sys -> coherent (step parseRFC3339 a sys).
Proof.
  intros (HR & HC). split.
  - apply step_single, HR.
  - apply step_closed, HC.
Qed.

Lemma run_coherent (sched : list Action) (sys : @System W) :
  coherent sys -> coherent (run parseRFC3339 sched sys).
Proof.
  revert sys. induction sched as [|a rest IH]; intros sys H; simpl.
  - exact H.
  - apply IH, step_coherent, H.
Qed.

End Interleaving.
End KafkaFacts.

(** ** The subscribe-based worker *)

Module RedisFacts.
Import Eff Calls Redis CallFacts.

Section Handling.
Context {W : Type} {search : SearchTask W}.
Variable parseRFC3339 : string -> option Z.

Lemma handle_index (s : St W) (msg : Message) (t : Task) :
  Channel msg = "tasks.event.updated" \/ Channel msg = "tasks.event.created" ->
  Json.decodeTask parseRFC3339 (Payload msg) = Some t ->
  exec (handle parseRFC3339 msg) s =
  mkSt (snd (Index t (world s)))
    (trace s ++ [receivedLog msg; CallIndex t (fst (Index t (world s)))]
             ++ match fst (Index t (world s)) with
                | Some _ => [LogInfo "Couldn't index task"]
                | None => []
                end).
Proof.
  intros HC HD. destruct s as [w tr].
  unfold exec, handle, bind, logInfo, emit, receivedLog. simpl.
  assert ((String.eqb (Channel msg) "tasks.event.updated"
           || String.eqb (Channel msg) "tasks.event.created")%bool = true)
    as ->.
  { destruct HC as [-> | ->]; reflexivity. }
  rewrite HD, run_taskIndex. simpl.
  destruct (fst (Index t w)); simpl; unfold emit, ret; simpl;
    rewrite <- ?app_assoc; reflexivity.
Qed.

Lemma handle_delete (s : St W) (msg : Message) (id : string) :
  Channel msg = "tasks.event.deleted" ->
  Json.decodeID (Payload msg) = Some id ->
  exec (handle parseRFC3339 msg) s =
  mkSt (snd (Delete id (world s)))
    (trace s ++ [receivedLog msg; CallDelete id (fst (Delete id (world s)))]
             ++ match fst (Delete id (world s)) with
                | Some _ => [LogInfo "Couldn't delete task"]
                | None => []
                end).
Proof.
  intros HC HD. destruct s as [w tr].
  unfold exec, handle, bind, logInfo, emit, receivedLog. simpl.
  rewrite HC. simpl. rewrite HD, run_taskDelete. simpl.
  destruct (fst (Delete id w)); simpl; unfold emit, ret; simpl;
    rewrite <- ?app_assoc; reflexivity.
Qed.

Lemma handle_invalid (s : St W) (msg : Message) :
  ((Channel msg = "tasks.event.updated" \/ Channel msg = "tasks.event.created")
   /\ Json.decodeTask parseRFC3339 (Payload msg) = None)
  \/ (Channel msg = "tasks.event.deleted"
      /\ Json.decodeID (Payload msg) = None) ->
  exec (handle parseRFC3339 msg) s =
  mkSt (world s)
    (trace s ++ [receivedLog msg; LogInfo "Ignoring message, invalid"]).
Proof.
  intros H. destruct s as [w tr].
  unfold exec, handle, bind, logInfo, emit, receivedLog. simpl.
  destruct H as [([HC | HC] & HD) | (HC & HD)]; rewrite HC; simpl;
    rewrite HD; simpl; rewrite <- ?app_assoc; reflexivity.
Qed.

Lemma handle_other (s : St W) (msg : Message) :
  Channel msg <> "tasks.event.updated" ->
  Channel msg <> "tasks.event.created" ->
  Channel msg <> "tasks.event.deleted" ->
  exec (handle parseRFC3339 msg) s
  = mkSt (world s) (trace s ++ [receivedLog msg]).
Proof.
  intros H1 H2 H3. destruct s as [w tr].
  unfold exec, handle, bind, logInfo, emit, receivedLog. simpl.
  apply String.eqb_neq in H1, H2, H3. rewrite H1, H2, H3. reflexivity.
Qed.

(** What the applier is called with, by the channel of a message. *)
Lemma handle_dispatches (s : St W) (msg : Message) :
  let new := since s (exec (handle parseRFC3339 msg) s) in
  (Channel msg = "tasks.event.updated" \/ Channel msg = "tasks.event.created" ->
   forall t, Json.decodeTask parseRFC3339 (Payload msg) = Some t ->
   applier_calls new = [CallIndex t (fst (Index t (world s)))])
  /\ (Channel msg = "tasks.event.deleted" ->
      forall id, Json.decodeID (Payload msg) = Some id ->
      applier_calls new = [CallDelete id (fst (Delete id (world s)))])
  /\ (Channel msg <> "tasks.event.updated" ->
      Channel msg <> "tasks.event.created" ->
      Channel msg <> "tasks.event.deleted" ->
      applier_calls new = []).
Proof.
  intros new. subst new. split; [|split].
  - intros HC t HD. rewrite (handle_index s msg t HC HD), since_app.
    destruct (fst (Index t (world s))); reflexivity.
  - intros HC id HD. rewrite (handle_delete s msg id HC HD), since_app.
    destruct (fst (Delete id (world s))); reflexivity.
  - intros H1 H2 H3. rewrite (handle_other s msg H1 H2 H3), since_app.
    reflexivity.
Qed.

(** Every message leaves one of the five traces. *)
Lemma handle_handled (s : St W) (msg : Message) :
  handled (since s (exec (handle parseRFC3339 msg) s)).
Proof.
  destruct (type_cases (Channel msg))
    as [HC | [HC | (H1 & H2 & H3)]].
  - destruct (Json.decodeTask parseRFC3339 (Payload msg)) as [t|] eqn:HD.
    + rewrite (handle_index s msg t HC HD), since_app.
      destruct (fst (Index t (world s))); simpl.
      * apply h_index_failed.
      * apply h_applied. reflexivity.
    + rewrite handle_invalid by tauto. rewrite since_app. apply h_invalid.
  - destruct (Json.decodeID (Payload msg)) as [id|] eqn:HD.
    + rewrite (handle_delete s msg id HC HD), since_app.
      destruct (fst (Delete id (world s))); simpl.
      * apply h_delete_failed.
      * apply h_applied. reflexivity.
    + rewrite handle_invalid by tauto. rewrite since_app. apply h_invalid.
  - rewrite (handle_other s msg H1 H2 H3), since_app. apply h_ignored.
Qed.

Lemma handled_failed (new : list Event) :
  handled new ->
  (exists a, In a new /\ failed a = true) ->
  exists text a what,
    new = [LogInfo text; a; LogInfo what] /\ failed a = true.
Proof.
  intros H (a & Hin & Hf).
  destruct H as [text|text|text b Hb|text t err|text id err].
  - exfalso. simpl in Hin. destruct Hin as [<-|[]]. discriminate.
  - exfalso. simpl in Hin. destruct Hin as [<-|[<-|[]]]; discriminate.
  - exfalso. simpl in Hin. destruct Hin as [<-|[<-|[]]]; [discriminate|].
    destruct b; try discriminate; destruct err; discriminate.
  - eexists _, _, _. split; reflexivity.
  - eexists _, _, _. split; reflexivity.
Qed.

Lemma handled_commits (new : list Event) : handled new -> commits new = [].
Proof.
  intros H. destruct H as [text|text|text b Hb|text t err|text id err];
    try reflexivity.
  destruct b; try discriminate; reflexivity.
Qed.

End Handling.
(** ** The subscription, the goroutine and [Shutdown] together *)

Section Interleaving.
Context {W : Type} {search : SearchTask W}.
Variable parseRFC3339 : string -> option Z.

Lemma handle_trace (s : St W) (msg : Message) :
  trace (exec (handle parseRFC3339 msg) s)
  = (trace s ++ since s (exec (handle parseRFC3339 msg) s))%list.
Proof.
  destruct (type_cases (Channel msg)) as [HC | [HC | (H1 & H2 & H3)]].
  - destruct (Json.decodeTask parseRFC3339 (Payload msg)) as [t|] eqn:HD.
    + rewrite (handle_index parseRFC3339 s msg t HC HD), since_app.
      reflexivity.
    + rewrite handle_invalid by tauto. rewrite since_app. reflexivity.
  - destruct (Json.decodeID (Payload msg)) as [id|] eqn:HD.
    + rewrite (handle_delete parseRFC3339 s msg id HC HD), since_app.
      reflexivity.
    + rewrite handle_invalid by tauto. rewrite since_app. reflexivity.
  - rewrite (handle_other parseRFC3339 s msg H1 H2 H3), since_app.
    reflexivity.
Qed.

Lemma step_ranging (sys : @System W) (msg : Message) (rest : list Message) :
  shutdown sys <> Panicked ->
  goroutine sys = Ranging ->
  ch sys = msg :: rest ->
  step parseRFC3339 ActLoop sys =
  mkSystem Ranging (shutdown sys) rest (chClosed sys) (ctxDone sys)
    (exec (handle parseRFC3339 msg) (eff sys)).
Proof.
  intros HS HG HC. unfold step, panicked, loopStep. rewrite HG, HC.
  destruct (shutdown sys); try reflexivity. congruence.
Qed.

(** No step of the system asks the broker to acknowledge anything. *)
Lemma step_commits (a : Action) (sys : @System W) :
  commits (trace (eff (step parseRFC3339 a sys))) = commits (trace (eff sys)).
Proof.
  unfold step. destruct (panicked sys); [reflexivity|].
  destruct a as [receive|msg| | | |pick]; simpl.
  - unfold ListenAndServe.
    destruct (goroutine sys), receive; reflexivity.
  - unfold deliver. destruct (goroutine sys), (chClosed sys); reflexivity.
  - unfold loopStep. destruct (goroutine sys); try reflexivity.
    destruct (ch sys) as [|msg rest]; simpl.
    + destruct (chClosed sys); simpl; [|reflexivity].
      rewrite commits_app. simpl. apply app_nil_r.
    + rewrite handle_trace, commits_app.
      rewrite (handled_commits _ (handle_handled parseRFC3339 _ msg)).
      apply app_nil_r.
  - unfold Shutdown.
    destruct (goroutine sys); simpl; rewrite commits_app; apply app_nil_r.
  - reflexivity.
  - unfold Shutdown_select. destruct (shutdown sys); try reflexivity.
    destruct (Go.select2 _ _ pick) as [[|]|]; reflexivity.
Qed.

Lemma run_commits (sched : list Action) (sys : @System W) :
  commits (trace (eff (run parseRFC3339 sched sys)))
  = commits (trace (eff sys)).
Proof.
  revert sys. induction sched as [|a rest IH]; intros sys; simpl.
  - reflexivity.
  - rewrite IH. apply step_commits.
Qed.

(** Only the subscription puts messages into [ch]: the worker takes
    them out and never puts one back. *)
Lemma step_suffix (a : Action) (sys : @System W) :
  is_deliver a = false ->
  ch (step parseRFC3339 a sys) `suffix_of` ch sys.
Proof.
  intros Ha. unfold step. destruct (panicked sys); [reflexivity|].
  destruct a as [receive|msg| | | |pick]; simpl; try discriminate.
  - unfold ListenAndServe.
    destruct (goroutine sys), receive; reflexivity.
  - unfold loopStep. destruct (goroutine sys); try reflexivity.
    destruct (ch sys) as [|msg rest] eqn:E; simpl.
    + destruct (chClosed sys); simpl; rewrite ?E; reflexivity.
    + apply suffix_cons_r. reflexivity.
  - unfold Shutdown. destruct (goroutine sys); reflexivity.
  - reflexivity.
  - unfold Shutdown_select. destruct (shutdown sys); try reflexivity.
    destruct (Go.select2 _ _ pick) as [[|]|]; reflexivity.
Qed.

Lemma run_suffix (sched : list Action) (sys : @System W) :
  quiet sched ->
  ch (run parseRFC3339 sched sys) `suffix_of` ch sys.
Proof.
  revert sys. induction sched as [|a rest IH]; intros sys HQ; simpl.
  - reflexivity.
  - transitivity (ch (step parseRFC3339 a sys)).
    + apply IH. intros b Hb. apply HQ. right. exact Hb.
    + apply step_suffix. apply HQ. left. reflexivity.
Qed.

End Interleaving.
End RedisFacts.

(** * The claims *)

Import Eff.

(** C1. A consumed message that decodes is dispatched on its type: a
    created or updated event calls [Task.Index] with the decoded task, a
    deleted event calls [Task.Delete] with the decoded ID, and any other
    type makes no applier call.  In the poll-based worker the type is the
    envelope's [Type]; in the subscribe-based worker it is the channel. *)
Theorem dispatch_by_type :
  (forall (W : Type) (search : SearchTask W) (consumer : Kafka.Consumer W)
          (parseRFC3339 : string -> option Z)
          (s : St W) (msg : Kafka.Message) (e : Kafka.evt),
     fst (Kafka.Poll 150 (world s)) = Kafka.PollMessage msg ->
     Kafka.decodeEvt parseRFC3339 (Kafka.Value msg) = Some e ->
     let w1 := snd (Kafka.Poll 150 (world s)) in
     let new := since s (exec (Kafka.consume parseRFC3339) s) in
     (Kafka.EvtType e = "tasks.event.updated"
      \/ Kafka.EvtType e = "tasks.event.created" ->
      applier_calls new =
      [CallIndex (Kafka.EvtValue e) (fst (Index (Kafka.EvtValue e) w1))])
     /\ (Kafka.EvtType e = "tasks.event.deleted" ->
         applier_calls new =
         [CallDelete (ID (Kafka.EvtValue e))
            (fst (Delete (ID (Kafka.EvtValue e)) w1))])
     /\ (Kafka.EvtType e <> "tasks.event.updated" ->
         Kafka.EvtType e <> "tasks.event.created" ->
         Kafka.EvtType e <> "tasks.event.deleted" ->
         applier_calls new = []))
  /\ (forall (W : Type) (search : SearchTask W)
             (parseRFC3339 : string -> option Z)
             (s : St W) (msg : Redis.Message),
        let new := since s (exec (Redis.handle parseRFC3339 msg) s) in
        (Redis.Channel msg = "tasks.event.updated"
         \/ Redis.Channel msg = "tasks.event.created" ->
         forall t, Json.decodeTask parseRFC3339 (Redis.Payload msg) = Some t ->
         applier_calls new = [CallIndex t (fst (Index t (world s)))])
        /\ (Redis.Channel msg = "tasks.event.deleted" ->
            forall id, Json.decodeID (Redis.Payload msg) = Some id ->
            applier_calls new = [CallDelete id (fst (Delete id (world s)))])
        /\ (Redis.Channel msg <> "tasks.event.updated" ->
            Redis.Channel msg <> "tasks.event.created" ->
            Redis.Channel msg <> "tasks.event.deleted" ->
            applier_calls new = [])).
Proof.
  split.
  - intros W search consumer parseRFC3339 s msg e HP HD w1 new.
    destruct (KafkaFacts.consume_dispatches parseRFC3339 s msg e HP HD)
      as (H1 & H2 & H3).
    split; [exact H1 | split; [exact H2 |]].
    intros N1 N2 N3. subst new. rewrite (H3 N1 N2 N3). reflexivity.
  - intros W search parseRFC3339 s msg. apply RedisFacts.handle_dispatches.
Qed.

Lemma dispatch_by_type_witness :
  let k j := mkSt (Examples.world true [Examples.message 7 j]) [] in
  let r := mkSt (Search.mkStore ∅ true) [] in
  applier_calls
    (since (k Examples.createdTask)
       (exec (Kafka.consume Sim.noTime) (k Examples.createdTask)))
  = [CallIndex Examples.buyMilk None]
  /\ applier_calls
       (since (k Examples.createdLongS)
          (exec (Kafka.consume Sim.noTime) (k Examples.createdLongS)))
     = [CallIndex Examples.buyMilk None]
  /\ applier_calls
       (since (k Examples.deletedTask)
          (exec (Kafka.consume Sim.noTime) (k Examples.deletedTask)))
     = [CallDelete "abc" None]
  /\ applier_calls
       (since (k Examples.archivedTask)
          (exec (Kafka.consume Sim.noTime) (k Examples.archivedTask)))
     = []
  /\ applier_calls
       (since r (exec (Redis.handle Sim.noTime Examples.createdAbc) r))
     = [CallIndex Examples.buyMilk None]
  /\ applier_calls
       (since r (exec (Redis.handle Sim.noTime Examples.deletedAbc) r))
     = [CallDelete "abc" None]
  /\ applier_calls
       (since r
          (exec (Redis.handle Sim.noTime
                   {| Redis.Channel := "tasks.event.archived";
                      Redis.Payload := Json.Text (Json.JString "abc") |}) r))
     = [].
Proof.
  intros k r.
  pose proof dispatch_by_type as [HK HR].
  specialize (HK Sim.World _ _ Sim.noTime).
  specialize (HR Search.Store _ Sim.noTime).
  split; [|split; [|split; [|split; [|split; [|split]]]]].
  - apply (proj1 (HK (k Examples.createdTask) _ _ eq_refl eq_refl)).
    right. reflexivity.
  - apply (proj1 (HK (k Examples.createdLongS) _ _ eq_refl eq_refl)).
    right. reflexivity.
  - apply (proj1 (proj2 (HK (k Examples.deletedTask) _ _ eq_refl eq_refl))).
    reflexivity.
  - apply (proj2 (proj2 (HK (k Examples.archivedTask) _ _ eq_refl eq_refl)));
      discriminate.
  - apply (proj1 (HR r Examples.createdAbc)
             (or_intror eq_refl) Examples.buyMilk eq_refl).
  - apply (proj1 (proj2 (HR r Examples.deletedAbc)) eq_refl "abc" eq_refl).
  - apply (proj2 (proj2 (HR r _))); discriminate.
Defined.

(** C2. When the apply call of an iteration (upsert or remove) returns an
    error, that iteration commits nothing, so the message stays
    uncommitted, and the goroutine is back at its select: with [closeC]
    open its next iteration polls again.  This holds of every consuming
    goroutine of the server ([i] is any of them). *)
Theorem apply_failure_not_committed :
  forall (W : Type) (search : SearchTask W) (consumer : Kafka.Consumer W)
         (parseRFC3339 : string -> option Z) (sys : Kafka.System)
         (i : nat),
  Kafka.shutdown sys <> Kafka.Panicked ->
  Kafka.goroutines sys !! i = Some Kafka.InDefault ->
  let sys' := Kafka.step parseRFC3339 (Kafka.ActLoop i) sys in
  let new := since (Kafka.eff sys) (Kafka.eff sys') in
  (exists a, In a new /\ failed a = true) ->
  commits new = []
  /\ Kafka.goroutines sys' !! i = Some Kafka.AtSelect
  /\ (Kafka.closeC sys = Go.ChanOpen ->
      polls (since (Kafka.eff sys')
               (Kafka.eff (Kafka.run parseRFC3339
                             [Kafka.ActLoop i; Kafka.ActLoop i] sys')))
      = [CallPoll 150]).
Proof.
  intros W search consumer parseRFC3339 sys i HS HG sys' new HF.
  subst new sys'.
  rewrite (KafkaFacts.step_default parseRFC3339 sys i HS HG) in *.
  cbn [Kafka.eff Kafka.goroutines] in *.
  split; [|split].
  - apply KafkaFacts.iteration_failed_uncommitted; [|exact HF].
    apply KafkaFacts.consume_iteration.
  - eapply KafkaFacts.insert_lookup, HG.
  - intros HC.
    rewrite KafkaFacts.next_iteration;
      [|exact HS | eapply KafkaFacts.insert_lookup, HG | exact HC].
    cbn [Kafka.eff].
    apply KafkaFacts.iteration_polls_once, KafkaFacts.consume_iteration.
Qed.

Lemma apply_failure_not_committed_witness :
  let sys := Examples.polling
               (Examples.world false
                  [Examples.message 7 Examples.createdTask]) in
  let sys' := Kafka.step Sim.noTime (Kafka.ActLoop 0) sys in
  since (Kafka.eff sys) (Kafka.eff sys')
  = [CallPoll 150; CallIndex Examples.buyMilk (Some Search.unavailable)]
  /\ commits (since (Kafka.eff sys) (Kafka.eff sys')) = []
  /\ Sim.committed (world (Kafka.eff sys')) = []
  /\ Kafka.goroutines sys' !! 0%nat = Some Kafka.AtSelect.
Proof.
  intros sys sys'.
  assert (Kafka.shutdown sys <> Kafka.Panicked) as HS by discriminate.
  assert (exists a, In a (since (Kafka.eff sys) (Kafka.eff sys'))
                    /\ failed a = true) as HF.
  { exists (CallIndex Examples.buyMilk (Some Search.unavailable)).
    split; [right; left; reflexivity | reflexivity]. }
  destruct (apply_failure_not_committed Sim.World _ _ Sim.noTime sys 0%nat
              HS eq_refl HF) as (H1 & H2 & _).
  split; [reflexivity|]. split; [exact H1|]. split; [reflexivity | exact H2].
Defined.




(** C4, as the code has it.  In the poll-based worker the envelope's
    [Value] is decoded as a task: an envelope whose value is the bare
    string ["abc"] does not decode, so it is committed with no applier
    call, while a deleted event whose value is a task with ID ["abc"]
    calls [Task.Delete] with ["abc"] exactly once and, when that call
    succeeds, is committed after it.  In the subscribe-based worker the
    payload of a message on channel [tasks.event.deleted] is the bare
    string: [Task.Delete] is called with ["abc"] exactly once, and
    nothing is acknowledged. *)
Theorem deleted_event_removal :
  (forall (W : Type) (search : SearchTask W) (consumer : Kafka.Consumer W)
          (parseRFC3339 : string -> option Z) (sys : Kafka.System)
          (i : nat) (msg : Kafka.Message),
     Kafka.shutdown sys <> Kafka.Panicked ->
     Kafka.goroutines sys !! i = Some Kafka.InDefault ->
     fst (Kafka.Poll 150 (world (Kafka.eff sys))) = Kafka.PollMessage msg ->
     let w1 := snd (Kafka.Poll 150 (world (Kafka.eff sys))) in
     let new := since (Kafka.eff sys)
                  (Kafka.eff (Kafka.step parseRFC3339 (Kafka.ActLoop i)
                                sys)) in
     (Kafka.Value msg = Json.Text Examples.deletedBare ->
      applier_calls new = [] /\ commits new = [Kafka.Offset msg])
     /\ (Kafka.Value msg = Json.Text Examples.deletedTask ->
         applier_calls new = [CallDelete "abc" (fst (Delete "abc" w1))]
         /\ (fst (Delete "abc" w1) = None ->
             exists r,
               new = ([CallPoll 150; CallDelete "abc" None; LogInfo "Consumed";
                       CallCommit (Kafka.Offset msg) r]
                      ++ Kafka.commitLog r)%list)))
  /\ (forall (W : Type) (search : SearchTask W)
             (parseRFC3339 : string -> option Z) (s : St W),
        let new :=
          since s (exec (Redis.handle parseRFC3339 Examples.deletedAbc) s) in
        applier_calls new = [CallDelete "abc" (fst (Delete "abc" (world s)))]
        /\ commits new = []).
Proof.
  split.
  - intros W search consumer parseRFC3339 sys i msg HS HG HP w1 new.
    subst new.
    rewrite (KafkaFacts.step_default parseRFC3339 sys i HS HG).
    cbn [Kafka.eff]. split.
    + intros HV.
      assert (Kafka.decodeEvt parseRFC3339 (Kafka.Value msg) = None) as HD
        by (rewrite HV; reflexivity).
      rewrite (KafkaFacts.consume_poison parseRFC3339 _ msg HP HD).
      cbv zeta. rewrite CallFacts.since_app. simpl.
      destruct (fst (Kafka.CommitMessage msg _)); split; reflexivity.
    + intros HV.
      assert (Kafka.decodeEvt parseRFC3339 (Kafka.Value msg)
              = Some {| Kafka.EvtType := "tasks.event.deleted";
                        Kafka.EvtValue := Examples.onlyID |})
        as HD by (rewrite HV; reflexivity).
      split.
      * apply (proj1 (proj2 (KafkaFacts.consume_dispatches parseRFC3339
                               _ msg _ HP HD))).
        reflexivity.
      * intros HOK.
        rewrite (KafkaFacts.consume_decoded parseRFC3339 _ msg _ HP HD).
        rewrite KafkaFacts.dispatch_remove by reflexivity.
        cbn [ID Kafka.EvtValue Examples.onlyID fst snd world trace].
        fold w1. rewrite HOK.
        cbn [Calls.isNil]. eexists.
        rewrite <- !app_assoc. rewrite CallFacts.since_app. reflexivity.
  - intros W search parseRFC3339 s new. subst new.
    rewrite (RedisFacts.handle_delete parseRFC3339 s Examples.deletedAbc "abc")
      by reflexivity.
    rewrite CallFacts.since_app.
    destruct (fst (Delete "abc" (world s))); split; reflexivity.
Qed.

Lemma deleted_event_removal_witness :
  let bare := Examples.polling
                (Examples.world true
                   [Examples.message 7 Examples.deletedBare]) in
  let task := Examples.polling
                (Examples.world true
                   [Examples.message 7 Examples.deletedTask]) in
  (applier_calls
     (since (Kafka.eff bare)
        (Kafka.eff (Kafka.step Sim.noTime (Kafka.ActLoop 0) bare))) = []
   /\ commits
        (since (Kafka.eff bare)
           (Kafka.eff (Kafka.step Sim.noTime (Kafka.ActLoop 0) bare))) = [7])
  /\ applier_calls
       (since (Kafka.eff task)
          (Kafka.eff (Kafka.step Sim.noTime (Kafka.ActLoop 0) task)))
     = [CallDelete "abc" None]
  /\ (exists r,
        since (Kafka.eff task)
          (Kafka.eff (Kafka.step Sim.noTime (Kafka.ActLoop 0) task))
        = ([CallPoll 150; CallDelete "abc" None; LogInfo "Consumed";
            CallCommit 7 r] ++ Kafka.commitLog r)%list).
Proof.
  intros bare task.
  pose proof deleted_event_removal as [HK _].
  split.
  - assert (Kafka.shutdown bare <> Kafka.Panicked) as HS by discriminate.
    assert (fst (Kafka.Poll 150 (world (Kafka.eff bare)))
            = Examples.message 7 Examples.deletedBare) as HP by reflexivity.
    exact (proj1 (HK Sim.World _ _ Sim.noTime bare 0%nat _ HS eq_refl HP)
             eq_refl).
  - assert (Kafka.shutdown task <> Kafka.Panicked) as HS by discriminate.
    assert (fst (Kafka.Poll 150 (world (Kafka.eff task)))
            = Examples.message 7 Examples.deletedTask) as HP by reflexivity.
    destruct (proj2 (HK Sim.World _ _ Sim.noTime task 0%nat _ HS eq_refl HP)
                eq_refl) as (H1 & H2).
    split; [exact H1 | exact (H2 eq_refl)].
Defined.

(** C4 as stated fails on the poll-based worker: for
    [{"Type":"tasks.event.deleted","Value":"abc"}] the envelope does not
    decode, [Task.Delete] is never called, and the message is committed
    as invalid. *)
Lemma bare_identifier_not_removed :
  let sys := Kafka.run Sim.noTime
               [Kafka.ActListenAndServe; Kafka.ActLoop 0; Kafka.ActLoop 0]
               (Kafka.init (Examples.world true
                              [Examples.message 7 Examples.deletedBare])) in
  Kafka.decodeEvt Sim.noTime (Json.Text Examples.deletedBare) = None
  /\ trace (Kafka.eff sys)
     = [CallPoll 150; LogInfo "Ignoring message, invalid"; CallCommit 7 None]
  /\ ~ (exists r, In (CallDelete "abc" r) (trace (Kafka.eff sys))).
Proof.
  split; [reflexivity|]. split; [reflexivity|].
  intros (r & H). simpl in H.
  repeat (destruct H as [H|H]; [discriminate H|]). exact H.
Qed.

(** C5, as the code has it.  An envelope that decodes but whose type is
    none of the three makes the iteration do nothing beyond its poll: no
    applier call, nothing logged, and no commit either, so the message
    is left uncommitted; the goroutine is back at its select. *)
Theorem unknown_type_inert :
  forall (W : Type) (search : SearchTask W) (consumer : Kafka.Consumer W)
         (parseRFC3339 : string -> option Z) (sys : Kafka.System)
         (i : nat) (msg : Kafka.Message) (e : Kafka.evt),
  Kafka.shutdown sys <> Kafka.Panicked ->
  Kafka.goroutines sys !! i = Some Kafka.InDefault ->
  fst (Kafka.Poll 150 (world (Kafka.eff sys))) = Kafka.PollMessage msg ->
  Kafka.decodeEvt parseRFC3339 (Kafka.Value msg) = Some e ->
  Kafka.EvtType e <> "tasks.event.updated" ->
  Kafka.EvtType e <> "tasks.event.created" ->
  Kafka.EvtType e <> "tasks.event.deleted" ->
  let sys' := Kafka.step parseRFC3339 (Kafka.ActLoop i) sys in
  let new := since (Kafka.eff sys) (Kafka.eff sys') in
  new = [CallPoll 150]
  /\ applier_calls new = []
  /\ commits new = []
  /\ world (Kafka.eff sys') = snd (Kafka.Poll 150 (world (Kafka.eff sys)))
  /\ Kafka.goroutines sys' !! i = Some Kafka.AtSelect.
Proof.
  intros W search consumer parseRFC3339 sys i msg e HS HG HP HD N1 N2 N3
    sys' new.
  subst new sys'.
  rewrite (KafkaFacts.step_default parseRFC3339 sys i HS HG).
  cbn [Kafka.eff Kafka.goroutines].
  rewrite (KafkaFacts.consume_decoded parseRFC3339 _ msg e HP HD).
  rewrite (KafkaFacts.dispatch_other e _ N1 N2 N3).
  cbn [fst snd world]. rewrite CallFacts.since_app.
  repeat split; try reflexivity.
  eapply KafkaFacts.insert_lookup, HG.
Qed.

Lemma unknown_type_inert_witness :
  let sys := Examples.polling
               (Examples.world true
                  [Examples.message 9 Examples.archivedTask]) in
  since (Kafka.eff sys)
    (Kafka.eff (Kafka.step Sim.noTime (Kafka.ActLoop 0) sys))
  = [CallPoll 150].
Proof.
  intros sys.
  assert (Kafka.shutdown sys <> Kafka.Panicked) as HS by discriminate.
  assert (fst (Kafka.Poll 150 (world (Kafka.eff sys)))
          = Examples.message 9 Examples.archivedTask) as HP by reflexivity.
  assert (Kafka.decodeEvt Sim.noTime
            (Kafka.Value (Examples.envelope 9 Examples.archivedTask))
          = Some {| Kafka.EvtType := "tasks.event.archived";
                    Kafka.EvtValue := Examples.onlyID |})
    as HD by reflexivity.
  apply (unknown_type_inert Sim.World _ _ Sim.noTime sys 0%nat _ _
           HS eq_refl HP HD);
    discriminate.
Defined.

(** C5 as stated fails: an envelope of type [tasks.event.archived] is
    polled and dropped without any commit; the broker has stored no
    offset for it. *)
Lemma unknown_type_not_committed :
  let sys := Kafka.run Sim.noTime
               [Kafka.ActListenAndServe; Kafka.ActLoop 0; Kafka.ActLoop 0]
               (Kafka.init (Examples.world true
                              [Examples.message 9 Examples.archivedTask])) in
  trace (Kafka.eff sys) = [CallPoll 150]
  /\ commits (trace (Kafka.eff sys)) = []
  /\ Sim.committed (world (Kafka.eff sys)) = []
  /\ Sim.queue (world (Kafka.eff sys)) = [].
Proof. repeat split; reflexivity. Qed.




(** C7. While [Shutdown] waits in its select: if the context's deadline
    has passed and no goroutine is offering its completion,
    [Shutdown] returns the timeout error; if a goroutine offers its
    completion and the deadline has not passed, [Shutdown] returns nil.
    In both cases it returns, whatever the runtime would pick; it keeps
    waiting only while neither has happened.  The same holds for the
    [Shutdown] of either worker. *)
Theorem shutdown_deadline_or_done :
  (forall (W : Type) (search : SearchTask W) (consumer : Kafka.Consumer W)
          (parseRFC3339 : string -> option Z) (sys : Kafka.System)
          (pick : Go.case2),
     Kafka.shutdown sys = Kafka.Waiting ->
     (Kafka.ctxDone sys = Go.ChanClosed ->
      ~ In Kafka.SendingDone (Kafka.goroutines sys) ->
      Kafka.shutdown (Kafka.step parseRFC3339 (Kafka.ActSelect pick) sys)
      = Kafka.Returned (Some Kafka.contextDone))
     /\ (Kafka.ctxDone sys = Go.ChanOpen ->
         In Kafka.SendingDone (Kafka.goroutines sys) ->
         Kafka.shutdown (Kafka.step parseRFC3339 (Kafka.ActSelect pick) sys)
         = Kafka.Returned None)
     /\ (Kafka.ctxDone sys = Go.ChanOpen ->
         ~ In Kafka.SendingDone (Kafka.goroutines sys) ->
         Kafka.step parseRFC3339 (Kafka.ActSelect pick) sys = sys))
  /\ (forall (W : Type) (search : SearchTask W)
             (parseRFC3339 : string -> option Z) (sys : Redis.System)
             (pick : Go.case2),
        Redis.shutdown sys = Redis.Waiting ->
        (Redis.ctxDone sys = Go.ChanClosed ->
         Redis.goroutine sys <> Redis.SendingDone ->
         Redis.shutdown (Redis.step parseRFC3339 (Redis.ActSelect pick) sys)
         = Redis.Returned (Some Redis.contextDone))
        /\ (Redis.ctxDone sys = Go.ChanOpen ->
            Redis.goroutine sys = Redis.SendingDone ->
            Redis.shutdown (Redis.step parseRFC3339 (Redis.ActSelect pick) sys)
            = Redis.Returned None)
        /\ (Redis.ctxDone sys = Go.ChanOpen ->
            Redis.goroutine sys <> Redis.SendingDone ->
            Redis.step parseRFC3339 (Redis.ActSelect pick) sys = sys)).
Proof.
  split.
  - intros W search consumer parseRFC3339 sys pick HW.
    unfold Kafka.step, Kafka.panicked, Kafka.Shutdown_select.
    rewrite HW. split; [|split].
    + intros HC HG. apply KafkaFacts.sendingDone_not_In in HG.
      rewrite HC, HG. reflexivity.
    + intros HC HG. apply KafkaFacts.sendingDone_In in HG.
      rewrite HC, HG. reflexivity.
    + intros HC HG. apply KafkaFacts.sendingDone_not_In in HG.
      rewrite HC, HG. reflexivity.
  - intros W search parseRFC3339 sys pick HW.
    unfold Redis.step, Redis.panicked, Redis.Shutdown_select,
      Redis.sendingDone.
    rewrite HW. split; [|split].
    + intros HC HG. rewrite HC.
      destruct (Redis.goroutine sys); try reflexivity. congruence.
    + intros HC HG. rewrite HC, HG. reflexivity.
    + intros HC HG. rewrite HC.
      destruct (Redis.goroutine sys); try reflexivity. congruence.
Qed.

Lemma shutdown_deadline_or_done_witness :
  let w := Examples.world true [] in
  let busy := Kafka.run Sim.noTime
                [Kafka.ActListenAndServe; Kafka.ActLoop 0; Kafka.ActShutdown]
                (Kafka.init w) in
  let late := Kafka.step Sim.noTime Kafka.ActDeadline busy in
  let done := Kafka.run Sim.noTime
                [Kafka.ActListenAndServe; Kafka.ActShutdown; Kafka.ActLoop 0]
                (Kafka.init w) in
  let rbusy := Redis.run Sim.noTime
                 [Redis.ActListenAndServe None; Redis.ActShutdown]
                 (Redis.init w) in
  let rlate := Redis.step Sim.noTime Redis.ActDeadline rbusy in
  let rdone := Redis.step Sim.noTime Redis.ActLoop rbusy in
  (Kafka.shutdown (Kafka.step Sim.noTime (Kafka.ActSelect Go.Second) late)
   = Kafka.Returned (Some Kafka.contextDone)
   /\ Kafka.shutdown (Kafka.step Sim.noTime (Kafka.ActSelect Go.First) done)
      = Kafka.Returned None
   /\ Kafka.step Sim.noTime (Kafka.ActSelect Go.First) busy = busy)
  /\ (Redis.shutdown (Redis.step Sim.noTime (Redis.ActSelect Go.Second) rlate)
      = Redis.Returned (Some Redis.contextDone)
      /\ Redis.shutdown (Redis.step Sim.noTime (Redis.ActSelect Go.First) rdone)
         = Redis.Returned None
      /\ Redis.step Sim.noTime (Redis.ActSelect Go.First) rbusy = rbusy).
Proof.
  intros w busy late done rbusy rlate rdone.
  pose proof shutdown_deadline_or_done as [HK HR].
  split; (split; [|split]).
  - apply (proj1 (HK Sim.World _ _ Sim.noTime late Go.Second eq_refl));
      [reflexivity | intros [H|[]]; discriminate H].
  - apply (proj1 (proj2 (HK Sim.World _ _ Sim.noTime done Go.First eq_refl)));
      [reflexivity | left; reflexivity].
  - apply (proj2 (proj2 (HK Sim.World _ _ Sim.noTime busy Go.First eq_refl)));
      [reflexivity | intros [H|[]]; discriminate H].
  - apply (proj1 (HR Sim.World _ Sim.noTime rlate Go.Second eq_refl));
      [reflexivity | discriminate].
  - apply (proj1 (proj2 (HR Sim.World _ Sim.noTime rdone Go.First eq_refl)));
      reflexivity.
  - apply (proj2 (proj2 (HR Sim.World _ Sim.noTime rbusy Go.First eq_refl)));
      [reflexivity | discriminate].
Defined.

(** C8. Applying the upsert twice with the same task gives the same
    result and leaves the index as one application does: every entry a
    reader can look up is the same. *)
Theorem upsert_idempotent :
  forall (t : Task) (ix : Search.Store),
  Search.Upsert t (snd (Search.Upsert t ix)) = Search.Upsert t ix
  /\ forall id : string,
       Search.entry id (snd (Search.Upsert t (snd (Search.Upsert t ix))))
       = Search.entry id (snd (Search.Upsert t ix)).
Proof.
  intros t ix.
  assert (Search.Upsert t (snd (Search.Upsert t ix)) = Search.Upsert t ix)
    as H.
  { unfold Search.Upsert. destruct (Search.available ix) eqn:E; simpl.
    - rewrite insert_insert_eq. reflexivity.
    - rewrite E. reflexivity. }
  split; [exact H|]. intros id. rewrite H. reflexivity.
Qed.

(** C9. In the subscribe-based worker a failed apply is only logged: the
    message has left the channel, the goroutine goes on ranging, no step
    of the system ever asks the broker to acknowledge anything, and as
    long as the subscription hands over nothing new the channel only
    loses messages, so the failed one does not come back. *)
Theorem redis_failed_event_lost :
  forall (W : Type) (search : SearchTask W)
         (parseRFC3339 : string -> option Z) (sys : Redis.System)
         (msg : Redis.Message) (rest : list Redis.Message),
  Redis.shutdown sys <> Redis.Panicked ->
  Redis.goroutine sys = Redis.Ranging ->
  Redis.ch sys = msg :: rest ->
  let sys' := Redis.step parseRFC3339 Redis.ActLoop sys in
  let new := since (Redis.eff sys) (Redis.eff sys') in
  (exists a, In a new /\ failed a = true) ->
  (exists text a what,
     new = [LogInfo text; a; LogInfo what] /\ failed a = true)
  /\ Redis.ch sys' = rest
  /\ Redis.goroutine sys' = Redis.Ranging
  /\ forall sched : list Redis.Action,
       commits (trace (Redis.eff (Redis.run parseRFC3339 sched sys')))
       = commits (trace (Redis.eff sys))
       /\ (Redis.quiet sched ->
           Redis.ch (Redis.run parseRFC3339 sched sys') `suffix_of` rest).
Proof.
  intros W search parseRFC3339 sys msg rest HS HG HC sys' new HF.
  subst new sys'.
  rewrite (RedisFacts.step_ranging parseRFC3339 sys msg rest HS HG HC) in *.
  cbn [Redis.eff Redis.ch Redis.goroutine] in *.
  split; [|split; [|split]].
  - apply RedisFacts.handled_failed; [|exact HF].
    apply RedisFacts.handle_handled.
  - reflexivity.
  - reflexivity.
  - intros sched. split.
    + rewrite RedisFacts.run_commits. cbn [Redis.eff].
      rewrite RedisFacts.handle_trace, CallFacts.commits_app.
      rewrite (RedisFacts.handled_commits _
                 (RedisFacts.handle_handled parseRFC3339 _ msg)).
      apply app_nil_r.
    + intros HQ.
      exact (RedisFacts.run_suffix parseRFC3339 sched _ HQ).
Qed.

Lemma redis_failed_event_lost_witness :
  let sys := Examples.received false Examples.deletedAbc in
  let sys' := Redis.step Sim.noTime Redis.ActLoop sys in
  since (Redis.eff sys) (Redis.eff sys')
  = [LogInfo "Received message: %stasks.event.deleted";
     CallDelete "abc" (Some Search.unavailable);
     LogInfo "Couldn't delete task"]
  /\ Redis.ch sys' = []
  /\ commits (trace (Redis.eff (Redis.run Sim.noTime
                                  [Redis.ActLoop; Redis.ActShutdown;
                                   Redis.ActLoop; Redis.ActSelect Go.Second]
                                  sys'))) = [].
Proof.
  intros sys sys'.
  assert (Redis.shutdown sys <> Redis.Panicked) as HS by discriminate.
  assert (exists a, In a (since (Redis.eff sys) (Redis.eff sys'))
                    /\ failed a = true) as HF.
  { exists (CallDelete "abc" (Some Search.unavailable)).
    split; [right; left; reflexivity | reflexivity]. }
  destruct (redis_failed_event_lost Search.Store _ Sim.noTime sys
              Examples.deletedAbc [] HS eq_refl eq_refl HF)
    as (_ & H2 & _ & H4).
  split; [reflexivity|]. split; [exact H2|].
  exact (proj1 (H4 [Redis.ActLoop; Redis.ActShutdown; Redis.ActLoop;
                    Redis.ActSelect Go.Second])).
Defined.

(** C10. On a server reached from its initial state, a call of
    [Shutdown] made when [Shutdown] has been called before panics, since
    [closeC] is closed again; the first call does not. *)
Theorem second_shutdown_panics :
  forall (W : Type) (search : SearchTask W) (consumer : Kafka.Consumer W)
         (parseRFC3339 : string -> option Z) (w : W)
         (sched : list Kafka.Action),
  let s := Kafka.run parseRFC3339 sched (Kafka.init w) in
  (Kafka.shutdown s = Kafka.NotCalled ->
   Kafka.shutdown (Kafka.step parseRFC3339 Kafka.ActShutdown s)
   = Kafka.Waiting)
  /\ (Kafka.shutdown s <> Kafka.NotCalled ->
      Kafka.shutdown (Kafka.step parseRFC3339 Kafka.ActShutdown s)
      = Kafka.Panicked).
Proof.
  intros W search consumer parseRFC3339 w sched s.
  destruct (KafkaFacts.run_coherent parseRFC3339 sched (Kafka.init w)
              (KafkaFacts.init_coherent w)) as (_ & HC).
  fold s in HC.
  unfold Kafka.step, Kafka.panicked, Kafka.Shutdown. split.
  - intros HN. rewrite HN.
    destruct (Kafka.closeC s) eqn:E; [reflexivity|].
    exfalso. apply (proj1 HC); [reflexivity | exact HN].
  - intros HN.
    destruct (Kafka.shutdown s) eqn:ES; try congruence; try reflexivity;
      rewrite (proj2 HC) by congruence; reflexivity.
Qed.

Lemma second_shutdown_panics_witness :
  let w := Examples.world true [] in
  Kafka.shutdown (Kafka.step Sim.noTime Kafka.ActShutdown
                    (Kafka.run Sim.noTime [Kafka.ActListenAndServe]
                       (Kafka.init w)))
  = Kafka.Waiting
  /\ Kafka.shutdown (Kafka.step Sim.noTime Kafka.ActShutdown
                       (Kafka.run Sim.noTime
                          [Kafka.ActListenAndServe; Kafka.ActShutdown;
                           Kafka.ActLoop 0; Kafka.ActSelect Go.Second]
                          (Kafka.init w)))
     = Kafka.Panicked.
Proof.
  intros w. split.
  - apply (proj1 (second_shutdown_panics Sim.World _ _ Sim.noTime w
                    [Kafka.ActListenAndServe])).
    reflexivity.
  - apply (proj2 (second_shutdown_panics Sim.World _ _ Sim.noTime w
                    [Kafka.ActListenAndServe; Kafka.ActShutdown;
                     Kafka.ActLoop 0; Kafka.ActSelect Go.Second])).
    discriminate.
Defined.

(** * Further properties of the code *)

(** ** Configuration from the environment *)

Module EnvvarFacts.
Import Envvar.

Lemma append_length (a b : string) :
  String.length (a ++ b) = (String.length a + String.length b)%nat.
Proof.
  induction a as [|c a IH]; simpl; [reflexivity|].
  rewrite IH. reflexivity.
Qed.

(** A key is never its own [_SECURE] companion. *)
Lemma secure_key_differs (key : string) : key <> key ++ "_SECURE".
Proof.
  intros H. apply (f_equal String.length) in H.
  rewrite append_length in H. simpl in H. lia.
Qed.

End EnvvarFacts.

(** X1. [Get] fails in one case only: the secure companion
    [<key>_SECURE] is set to a non-empty name and the provider fails for
    that name; the error then wraps the provider's, with code
    [ErrorCodeInvalidArgument].  A companion that is not set, or set to
    the empty string, counts as absent: the answer is the value of
    [<key>] itself, the empty string when that is not set either,
    whatever the provider is. *)
Theorem get_fails_only_by_provider :
  forall (provider : string -> Go.error + string)
         (env : gmap string string) (key : string),
  (forall err : Internal.Error Go.error,
     snd (Envvar.Get provider env key) = Some err
     <-> exists (name : string) (e : Go.error),
           env !! (key ++ "_SECURE") = Some name
           /\ name <> EmptyString
           /\ provider name = inl e
           /\ err = Internal.WrapErrorf e Internal.ErrorCodeInvalidArgument
                      "provider.Get")
  /\ (env !! (key ++ "_SECURE") = None
      \/ env !! (key ++ "_SECURE") = Some EmptyString ->
      Envvar.Get provider env key = (default EmptyString (env !! key), None)).
Proof.
  intros provider env key. unfold Envvar.Get, Envvar.Getenv. split.
  - intros err.
    destruct (env !! (key ++ "_SECURE")) as [name|] eqn:ES; simpl.
    + destruct (String.eqb_spec name EmptyString) as [->|HN]; simpl.
      * split; [discriminate|].
        intros (name & e & [= <-] & HN & _). congruence.
      * destruct (provider name) as [e|v] eqn:EP; simpl.
        -- split.
           ++ intros [= <-]. exists name, e. auto.
           ++ intros (name' & e' & [= <-] & _ & HP & ->). congruence.
        -- split; [discriminate|].
           intros (name' & e' & [= <-] & _ & HP & _). congruence.
    + split; [discriminate|]. intros (name & e & [=] & _).
  - intros [-> | ->]; reflexivity.
Qed.

Lemma get_fails_only_by_provider_witness :
  Envvar.Get (fun _ => inl "vault down")
    ({["DATABASE_HOST" := "localhost"]} : gmap string string) "DATABASE_HOST"
  = ("localhost", None)
  /\ Envvar.Get (fun _ => inl "vault down")
       ({["DATABASE_HOST_SECURE" := EmptyString]} : gmap string string)
       "DATABASE_HOST"
     = (EmptyString, None).
Proof.
  split.
  - rewrite (proj2 (get_fails_only_by_provider (fun _ => inl "vault down")
                      ({["DATABASE_HOST" := "localhost"]}
                       : gmap string string) "DATABASE_HOST"))
      by (left; reflexivity).
    reflexivity.
  - rewrite (proj2 (get_fails_only_by_provider (fun _ => inl "vault down")
                      ({["DATABASE_HOST_SECURE" := EmptyString]}
                       : gmap string string) "DATABASE_HOST"))
      by (right; reflexivity).
    reflexivity.
Defined.

(** X2. With a secure companion set to a non-empty name, the provider
    decides alone: the answer is the provider's value for that name, or
    the empty string with an [ErrorCodeInvalidArgument] error when the
    provider fails.  In neither case does it depend on what [<key>]
    itself is set to: there is no falling back to the plain value. *)
Theorem get_with_secure :
  forall (provider : string -> Go.error + string)
         (env : gmap string string) (key name : string),
  env !! (key ++ "_SECURE") = Some name ->
  name <> EmptyString ->
  Envvar.Get provider env key
  = match provider name with
    | inl err =>
        (EmptyString,
         Some (Internal.WrapErrorf err Internal.ErrorCodeInvalidArgument
                 "provider.Get"))
    | inr v => (v, None)
    end
  /\ (forall plain : string,
        Envvar.Get provider (<[key := plain]> env) key
        = Envvar.Get provider env key)
  /\ Envvar.Get provider (delete key env) key = Envvar.Get provider env key.
Proof.
  intros provider env key name HS HN.
  assert (forall env' : gmap string string,
            env' !! (key ++ "_SECURE") = Some name ->
            Envvar.Get provider env' key
            = match provider name with
              | inl err =>
                  (EmptyString,
                   Some (Internal.WrapErrorf err
                           Internal.ErrorCodeInvalidArgument "provider.Get"))
              | inr v => (v, None)
              end) as H.
  { intros env' HS'. unfold Envvar.Get, Envvar.Getenv. rewrite HS'. simpl.
    apply String.eqb_neq in HN. rewrite HN. reflexivity. }
  split; [apply H; exact HS|]. split.
  - intros plain. rewrite (H env HS). apply H.
    rewrite lookup_insert_ne by apply EnvvarFacts.secure_key_differs.
    exact HS.
  - rewrite (H env HS). apply H.
    rewrite lookup_delete_ne by apply EnvvarFacts.secure_key_differs.
    exact HS.
Qed.

Lemma get_with_secure_witness :
  let env : gmap string string :=
    {["DATABASE_PASSWORD" := "plain";
      "DATABASE_PASSWORD_SECURE" := "/secret/db"]} in
  Envvar.Get (fun name => inr (name ++ "!")) env "DATABASE_PASSWORD"
  = ("/secret/db!", None)
  /\ Envvar.Get (fun _ => inl "vault down") env "DATABASE_PASSWORD"
     = (EmptyString,
        Some (Internal.WrapErrorf "vault down"
                Internal.ErrorCodeInvalidArgument "provider.Get")).
Proof.
  intros env.
  assert (env !! ("DATABASE_PASSWORD" ++ "_SECURE") = Some "/secret/db")
    as HS by reflexivity.
  assert ("/secret/db" <> EmptyString) as HN by discriminate.
  split.
  - exact (proj1 (get_with_secure (fun name => inr (name ++ "!")) env
                    "DATABASE_PASSWORD" "/secret/db" HS HN)).
  - exact (proj1 (get_with_secure (fun _ => inl "vault down") env
                    "DATABASE_PASSWORD" "/secret/db" HS HN)).
Defined.

(** ** The generated HTTP client *)

Module Openapi3Facts.
Import Openapi3.

Lemma substring_all (t : string) :
  String.substring 0 (String.length t) t = t.
Proof.
  induction t as [|c t IH]; simpl; [reflexivity|].
  rewrite IH. reflexivity.
Qed.

Lemma substring_app_tail (s t : string) :
  String.substring (String.length s) (String.length t) (s ++ t) = t.
Proof.
  induction s as [|c s IH]; simpl; [apply substring_all | exact IH].
Qed.

Lemma HasSuffix_app (s t : string) : GoStrings.HasSuffix (s ++ t) t = true.
Proof.
  unfold GoStrings.HasSuffix. rewrite EnvvarFacts.append_length.
  replace (String.length s + String.length t - String.length t)%nat
    with (String.length s) by lia.
  rewrite substring_app_tail, String.eqb_refl.
  rewrite andb_true_r. apply Nat.leb_le. lia.
Qed.

Section Client.
Context {Request URL : Type}.
Variable urlParse : string -> Go.error + URL.
Variable urlString : URL -> string.
Variable defaultHTTPClient : HttpRequestDoer Request.

(** Two loops, one after the other, are one loop over both lists. *)
Lemma editLoop_app (l1 l2 : list (RequestEditorFn Request)) (req : Request) :
  editLoop Request (l1 ++ l2) req
  = match editLoop Request l1 req with
    | (req', Some err) => (req', Some err)
    | (req', None) => editLoop Request l2 req'
    end.
Proof.
  revert req. induction l1 as [|r l1 IH]; intros req; simpl.
  - reflexivity.
  - destruct (r req) as [req' [err|]]; [reflexivity | apply IH].
Qed.

Lemma applyOptions_editors (fns : list (RequestEditorFn Request))
    (c : Client Request) :
  applyOptions Request (map (WithRequestEditorFn Request) fns) c
  = inr (mkClient Request (Server Request c) (HTTPClient Request c)
           (RequestEditors Request c ++ fns)).
Proof.
  revert c. induction fns as [|f fns IH]; intros c; simpl.
  - rewrite app_nil_r. destruct c; reflexivity.
  - rewrite IH. simpl. rewrite <- app_assoc. reflexivity.
Qed.

(** The loop hands each editor the request left by the one before; it
    ends at the first editor that fails. *)
Lemma editLoop_all (es : list (RequestEditorFn Request)) (req : Request) :
  (forall i e, es !! i = Some e ->
     snd (e (fold_left (fun r f => fst (f r)) (take i es) req)) = None) ->
  editLoop Request es req = (fold_left (fun r f => fst (f r)) es req, None).
Proof.
  revert req. induction es as [|e0 es IH]; intros req H; simpl.
  - reflexivity.
  - pose proof (H 0%nat e0 eq_refl) as H0. simpl in H0.
    destruct (e0 req) as [req' [err|]] eqn:E; simpl in H0; [discriminate|].
    simpl. apply IH. intros i e Hi.
    specialize (H (S i) e Hi). simpl in H. rewrite E in H. exact H.
Qed.

Lemma editLoop_first (es : list (RequestEditorFn Request)) (req : Request)
    (i : nat) (e : RequestEditorFn Request) (err : Go.error) :
  es !! i = Some e ->
  (forall j e', (j < i)%nat -> es !! j = Some e' ->
     snd (e' (fold_left (fun r f => fst (f r)) (take j es) req)) = None) ->
  snd (e (fold_left (fun r f => fst (f r)) (take i es) req)) = Some err ->
  editLoop Request es req
  = (fst (e (fold_left (fun r f => fst (f r)) (take i es) req)), Some err).
Proof.
  revert req i. induction es as [|e0 es IH]; intros req i Hi Hj He.
  - discriminate.
  - destruct i as [|i]; simpl in *.
    + injection Hi as <-. destruct (e0 req) as [req' [err'|]]; simpl in *;
        congruence.
    + pose proof (Hj 0%nat e0 (Nat.lt_0_succ i) eq_refl) as H0. simpl in H0.
      destruct (e0 req) as [req' [err'|]] eqn:E; simpl in H0; [discriminate|].
      simpl in *. apply IH; [exact Hi | | exact He].
      intros j e' Hlt Hj'.
      specialize (Hj (S j) e' (proj1 (Nat.succ_lt_mono j i) Hlt) Hj').
      simpl in Hj. rewrite E in Hj. exact Hj.
Qed.

(** [NewClient] leaves no client without a doer. *)
Lemma NewClient_doer (server : string) (opts : list (ClientOption Request))
    (c : Client Request) :
  NewClient Request defaultHTTPClient server opts = inr c ->
  HTTPClient Request c <> None.
Proof.
  unfold NewClient.
  destruct (applyOptions Request opts _) as [err|client]; [discriminate|].
  intros [= <-]. cbn [HTTPClient].
  destruct (HTTPClient Request client); discriminate.
Qed.

End Client.
End Openapi3Facts.

(** X3. Every client [NewClient] returns has a server that ends in a
    slash and has a doer; the server is the one left by the options,
    with a slash added only when it did not end in one, so making a
    client again from that server gives the same server. *)
Theorem new_client_server_slash :
  forall (Request : Type) (defaultHTTPClient : Openapi3.HttpRequestDoer Request)
         (server : string) (opts : list (Openapi3.ClientOption Request))
         (c : Openapi3.Client Request),
  Openapi3.NewClient Request defaultHTTPClient server opts = inr c ->
  GoStrings.HasSuffix (Openapi3.Server Request c) "/" = true
  /\ Openapi3.HTTPClient Request c <> None
  /\ (exists c' : Openapi3.Client Request,
        Openapi3.NewClient Request defaultHTTPClient
          (Openapi3.Server Request c) [] = inr c'
        /\ Openapi3.Server Request c' = Openapi3.Server Request c).
Proof.
  intros Request defaultHTTPClient server opts c H.
  unfold Openapi3.NewClient in H.
  destruct (Openapi3.applyOptions Request opts _) as [err|client];
    [discriminate|].
  injection H as <-. cbn [Openapi3.Server Openapi3.HTTPClient].
  assert (GoStrings.HasSuffix
            (if negb (GoStrings.HasSuffix (Openapi3.Server Request client) "/")
             then Openapi3.Server Request client ++ "/"
             else Openapi3.Server Request client) "/" = true) as HS.
  { destruct (GoStrings.HasSuffix (Openapi3.Server Request client) "/")
      eqn:E; simpl; [exact E | apply Openapi3Facts.HasSuffix_app]. }
  split; [exact HS|]. split.
  - destruct (Openapi3.HTTPClient Request client); discriminate.
  - unfold Openapi3.NewClient. cbn [Openapi3.applyOptions Openapi3.Server].
    rewrite HS. cbn [negb]. eexists. split; reflexivity.
Qed.

Lemma new_client_server_slash_witness :
  exists c : Openapi3.Client unit,
    Openapi3.NewClient unit (fun _ => inl "offline") "http://localhost:9234" []
    = inr c
    /\ Openapi3.Server unit c = "http://localhost:9234/"
    /\ GoStrings.HasSuffix (Openapi3.Server unit c) "/" = true.
Proof.
  eexists. split; [reflexivity|]. split; [reflexivity|].
  refine (proj1 (new_client_server_slash unit (fun _ => inl "offline")
                   "http://localhost:9234" [] _ eq_refl)).
Defined.

(** X4. The editors of a call run as one pass over the client's own
    editors followed by the call's.  The request an editor gets is the
    one the editors before it left, starting from the request of the
    call.  If none fails, the pass ends with the request the last one
    left and no error.  Otherwise it ends at the first editor that
    fails, with that editor's error, and no later editor is run.  The
    client's own editors are those registered with
    [WithRequestEditorFn], in the order of their registration. *)
Theorem editors_run_in_order :
  forall (Request : Type)
         (defaultHTTPClient : Openapi3.HttpRequestDoer Request),
  (forall (c : Openapi3.Client Request) (req : Request)
          (extra : list (Openapi3.RequestEditorFn Request)),
     let editors := (Openapi3.RequestEditors Request c ++ extra)%list in
     let before i := fold_left (fun r f => fst (f r)) (take i editors) req in
     ((forall i e, editors !! i = Some e -> snd (e (before i)) = None) ->
      Openapi3.applyEditors Request c req extra
      = (before (length editors), None))
     /\ (forall i e err,
           editors !! i = Some e ->
           (forall j e', (j < i)%nat -> editors !! j = Some e' ->
              snd (e' (before j)) = None) ->
           snd (e (before i)) = Some err ->
           Openapi3.applyEditors Request c req extra
           = (fst (e (before i)), Some err)))
  /\ (forall (server : string) (fns : list (Openapi3.RequestEditorFn Request)),
        exists c : Openapi3.Client Request,
          Openapi3.NewClient Request defaultHTTPClient server
            (map (Openapi3.WithRequestEditorFn Request) fns) = inr c
          /\ Openapi3.RequestEditors Request c = fns).
Proof.
  intros Request defaultHTTPClient. split.
  - intros c req extra editors before.
    assert (Openapi3.applyEditors Request c req extra
            = Openapi3.editLoop Request editors req) as ->.
    { unfold Openapi3.applyEditors, editors.
      rewrite Openapi3Facts.editLoop_app. reflexivity. }
    split.
    + intros H. rewrite (Openapi3Facts.editLoop_all editors req H).
      unfold before. rewrite firstn_all. reflexivity.
    + intros i e err Hi Hj He.
      exact (Openapi3Facts.editLoop_first editors req i e err Hi Hj He).
  - intros server fns. unfold Openapi3.NewClient.
    rewrite Openapi3Facts.applyOptions_editors.
    eexists. split; reflexivity.
Qed.

Lemma editors_run_in_order_witness :
  let mark (tag : string) : Openapi3.RequestEditorFn string :=
    fun req => ((req ++ tag)%string, None) in
  let refuse : Openapi3.RequestEditorFn string :=
    fun req => ((req ++ "!")%string, Some "refused") in
  let c := Openapi3.mkClient string "http://localhost:9234/" None
             [mark "a"; mark "b"] in
  Openapi3.applyEditors string c "GET" [mark "c"] = ("GETabc", None)
  /\ Openapi3.applyEditors string c "GET" [refuse; mark "c"]
     = ("GETab!", Some "refused").
Proof.
  intros mark refuse c.
  destruct (editors_run_in_order string (fun _ => inl "offline"))
    as (H & _).
  split.
  - apply (proj1 (H c "GET" [mark "c"])).
    intros [|[|[|i]]] e Hi; vm_compute in Hi; try discriminate Hi;
      injection Hi as <-; reflexivity.
  - apply (proj2 (H c "GET" [refuse; mark "c"]) 2%nat refuse "refused").
    + reflexivity.
    + intros [|[|j]] e' Hlt Hj; [| |lia]; vm_compute in Hj;
        injection Hj as <-; reflexivity.
    + reflexivity.
Defined.

(** X5. [ParseUpdateTaskResponse] fails only when the body cannot be
    read, or when the response announces JSON with status 400 or 500
    and the body is not a JSON object of the error shape.  When it
    succeeds it keeps the bytes and the response, sets [JSON400] only
    for status 400 and [JSON500] only for status 500, never both, and
    for any other status or content type sets neither. *)
Theorem parse_update_response :
  forall (rsp : Openapi3.HTTPResponse),
  (forall r : Openapi3.UpdateTaskResponse,
     Openapi3.ParseUpdateTaskResponse rsp = inr r ->
     Openapi3.ReadAll rsp = inr (Openapi3.UpdateBody r)
     /\ Openapi3.UpdateHTTPResponse r = rsp
     /\ (Openapi3.UpdateJSON400 r <> None ->
         Openapi3.StatusCode rsp = 400 /\ Openapi3.UpdateJSON500 r = None)
     /\ (Openapi3.UpdateJSON500 r <> None ->
         Openapi3.StatusCode rsp = 500 /\ Openapi3.UpdateJSON400 r = None))
  /\ (forall b : Openapi3.bytes,
        Openapi3.ReadAll rsp = inr b ->
        GoStrings.Contains (Openapi3.ContentType rsp) "json" = false
        \/ (Openapi3.StatusCode rsp <> 400 /\ Openapi3.StatusCode rsp <> 500) ->
        Openapi3.ParseUpdateTaskResponse rsp
        = inr (Openapi3.mkUpdateTaskResponse b rsp None None)).
Proof.
  intros rsp. split.
  - intros r H. unfold Openapi3.ParseUpdateTaskResponse in H.
    destruct (Openapi3.ReadAll rsp) as [err|b]; [discriminate|].
    unfold Openapi3.jsonWithStatus in H.
    destruct (GoStrings.Contains (Openapi3.ContentType rsp) "json");
      cbn [andb] in H.
    + destruct (Z.eqb_spec (Openapi3.StatusCode rsp) 400) as [E4|N4].
      * destruct (Openapi3.unmarshalErrorBody b); [discriminate|].
        injection H as <-. cbn. repeat split; try congruence.
      * destruct (Z.eqb_spec (Openapi3.StatusCode rsp) 500) as [E5|N5].
        -- destruct (Openapi3.unmarshalErrorBody b); [discriminate|].
           injection H as <-. cbn. repeat split; try congruence.
        -- injection H as <-. cbn. repeat split; try congruence.
    + injection H as <-. cbn. repeat split; try congruence.
  - intros b HB HC. unfold Openapi3.ParseUpdateTaskResponse.
    rewrite HB. unfold Openapi3.jsonWithStatus.
    destruct HC as [-> | (N4 & N5)]; [reflexivity|].
    apply Z.eqb_neq in N4, N5. rewrite N4, N5, !andb_false_r. reflexivity.
Qed.

Lemma parse_update_response_witness :
  let notFound :=
    Openapi3.mkHTTPResponse 404 "application/json" (inr Openapi3.Garbage) in
  let badRequest :=
    Openapi3.mkHTTPResponse 400 "application/json; charset=utf-8"
      (inr (Openapi3.Whole
              (Json.JObject [("error", Json.JString "invalid request")]))) in
  Openapi3.ParseUpdateTaskResponse notFound
  = inr (Openapi3.mkUpdateTaskResponse Openapi3.Garbage notFound None None)
  /\ (exists r,
        Openapi3.ParseUpdateTaskResponse badRequest = inr r
        /\ Openapi3.UpdateJSON400 r
           = Some {| Openapi3.Error := Some "invalid request" |}
        /\ Openapi3.UpdateJSON500 r = None).
Proof.
  intros notFound badRequest. split.
  - apply (proj2 (parse_update_response notFound) Openapi3.Garbage eq_refl).
    right. split; discriminate.
  - eexists. split; [reflexivity|]. split; [reflexivity|].
    refine (proj2 (proj1 (proj2 (proj2 (proj1
              (parse_update_response badRequest) _ eq_refl))) _)).
    discriminate.
Defined.

(** X6. On a client made by [NewClient], [DeleteTaskWithResponse] never
    dereferences a nil doer and hands the doer at most one request.  If
    it handed over none, the call failed (building the request or an
    editor failed).  If the call succeeded, exactly one request was
    handed over, the doer answered it with the response returned, and
    [JSON500] is set only for status 500.  A response that can be read
    and whose status is not 500 is never an error, whatever its body. *)
Theorem delete_with_response :
  forall (Request URL UUID : Type)
         (StyleParamWithLocation : UUID -> Go.error + string)
         (urlParse : string -> Go.error + URL)
         (urlResolve : URL -> string -> Go.error + URL)
         (urlString : URL -> string)
         (NewRequest : string -> string -> Go.error + Request)
         (defaultHTTPClient : Openapi3.HttpRequestDoer Request)
         (server : string) (opts : list (Openapi3.ClientOption Request))
         (c : Openapi3.Client Request) (taskId : UUID)
         (reqEditors : list (Openapi3.RequestEditorFn Request)),
  Openapi3.NewClient Request defaultHTTPClient server opts = inr c ->
  exists (res : Go.error + Openapi3.DeleteTaskResponse) (sent : list Request),
    Openapi3.DeleteTaskWithResponse Request URL UUID StyleParamWithLocation
      urlParse urlResolve urlString NewRequest c taskId reqEditors
    = Some (res, sent)
    /\ (length sent <= 1)%nat
    /\ (sent = [] -> exists err, res = inl err)
    /\ (forall r : Openapi3.DeleteTaskResponse,
          res = inr r ->
          (Openapi3.DeleteJSON500 r <> None ->
           Openapi3.StatusCode (Openapi3.DeleteHTTPResponse r) = 500)
          /\ exists (req : Request) (doer : Openapi3.HttpRequestDoer Request),
               sent = [req]
               /\ Openapi3.HTTPClient Request c = Some doer
               /\ doer req = inr (Openapi3.DeleteHTTPResponse r)
               /\ Openapi3.ReadAll (Openapi3.DeleteHTTPResponse r)
                  = inr (Openapi3.DeleteBody r))
    /\ (forall (req : Request) (doer : Openapi3.HttpRequestDoer Request)
               (rsp : Openapi3.HTTPResponse) (b : Openapi3.bytes),
          sent = [req] ->
          Openapi3.HTTPClient Request c = Some doer ->
          doer req = inr rsp ->
          Openapi3.ReadAll rsp = inr b ->
          Openapi3.StatusCode rsp <> 500 ->
          res = inr (Openapi3.mkDeleteTaskResponse b rsp None)).
Proof.
  intros Request URL UUID StyleParamWithLocation urlParse urlResolve urlString
    NewRequest defaultHTTPClient server opts c taskId reqEditors HN.
  pose proof (Openapi3Facts.NewClient_doer defaultHTTPClient server opts c HN)
    as HD.
  destruct (Openapi3.HTTPClient Request c) as [doer|] eqn:ED; [|congruence].
  unfold Openapi3.DeleteTaskWithResponse, Openapi3.DeleteTask.
  destruct (Openapi3.NewDeleteTaskRequest _ _ _ _ _ _ _ _ _ _) as [err|req].
  { eexists _, _. split; [reflexivity|]. split; [simpl; lia|].
    split; [eauto|]. split; [discriminate|]. discriminate. }
  destruct (Openapi3.applyEditors Request c req reqEditors) as [req' [err|]].
  { eexists _, _. split; [reflexivity|]. split; [simpl; lia|].
    split; [eauto|]. split; [discriminate|]. discriminate. }
  unfold Openapi3.doRequest. rewrite ED.
  destruct (doer req') as [err|rsp] eqn:EDo.
  { eexists _, _. split; [reflexivity|]. split; [simpl; lia|].
    split; [discriminate|]. split; [discriminate|].
    intros req0 doer0 rsp0 b [= <-] [= <-] H. congruence. }
  eexists _, _. split; [reflexivity|]. split; [simpl; lia|].
  split; [discriminate|].
  unfold Openapi3.ParseDeleteTaskResponse, Openapi3.jsonWithStatus. split.
  - intros r Hr.
    destruct (Openapi3.ReadAll rsp) as [err|b] eqn:ER; [discriminate|].
    destruct (GoStrings.Contains (Openapi3.ContentType rsp) "json");
      cbn [andb] in Hr.
    + destruct (Z.eqb_spec (Openapi3.StatusCode rsp) 500) as [E5|N5].
      * destruct (Openapi3.unmarshalErrorBody b); [discriminate|].
        injection Hr as <-. cbn. split; [intros _; exact E5|].
        exists req', doer. repeat split; assumption.
      * injection Hr as <-. cbn. split; [congruence|].
        exists req', doer. repeat split; assumption.
    + injection Hr as <-. cbn. split; [congruence|].
      exists req', doer. repeat split; assumption.
  - intros req0 doer0 rsp0 b [= <-] [= <-] H HR N5.
    rewrite EDo in H. injection H as <-. rewrite HR.
    apply Z.eqb_neq in N5. rewrite N5, andb_false_r. reflexivity.
Qed.

Lemma delete_with_response_witness :
  let doer : Openapi3.HttpRequestDoer string :=
    fun _ => inr (Openapi3.mkHTTPResponse 200 "application/json"
                    (inr (Openapi3.Whole (Json.JObject [])))) in
  exists res sent,
    Openapi3.DeleteTaskWithResponse string string string
      (fun id => inr id) (fun s => inr s) (fun base p => inr (base ++ p))
      (fun u => u) (fun method url => inr (method ++ " " ++ url))
      (Openapi3.mkClient string "http://localhost:9234/" (Some doer) [])
      "abc" []
    = Some (res, sent)
    /\ (length sent <= 1)%nat.
Proof.
  intros doer.
  destruct (delete_with_response string string string
              (fun id => inr id) (fun s => inr s)
              (fun base p => inr (base ++ p)) (fun u => u)
              (fun method url => inr (method ++ " " ++ url))
              (fun _ => inl "offline")
              "http://localhost:9234"
              [Openapi3.WithHTTPClient string doer]
              (Openapi3.mkClient string "http://localhost:9234/" (Some doer) [])
              "abc" [] eq_refl) as (res & sent & H & HL & _).
  exists res, sent. split; [exact H | exact HL].
Defined.

(** ** The task repository *)

Module MemFacts.
Import Postgresql.Mem.

Lemma keyParse_keyString (n : nat) : keyParse (keyString n) = inr n.
Proof.
  induction n as [|n IH]; simpl; [reflexivity|].
  rewrite IH. reflexivity.
Qed.

End MemFacts.

Section RepositoryFacts.

Variables UUID DBPriority DBTimestamp : Type.
Variable uuidParse : string -> Go.error + UUID.
Variable uuidString : UUID -> string.
Variable newPriority : Z -> DBPriority.
Variable convertPriority : DBPriority -> Go.error + Z.
Variable newTimestamp : Z -> DBTimestamp.
Variable timestampTime : DBTimestamp -> Z.
Variable W : Type.
Variable InsertTask :
  Postgresql.InsertTaskParams DBPriority DBTimestamp ->
  W -> (Postgresql.QueryError + UUID) * W.
Variable DeleteTask : UUID -> W -> option Postgresql.QueryError * W.
Variable SelectTask :
  UUID -> W ->
  (Postgresql.QueryError
   + Postgresql.SelectTaskRow UUID DBPriority DBTimestamp) * W.
Variable UpdateTask :
  Postgresql.UpdateTaskParams UUID DBPriority DBTimestamp ->
  W -> option Postgresql.QueryError * W.

(** X7. The error code of [Delete] tells what happened.  It is
    [ErrorCodeInvalidArgument] exactly when the ID is not a UUID, and
    then no query was issued and the database is untouched.  For a UUID
    exactly one query is issued, for that UUID, and the call returns nil
    exactly when the query succeeded, [ErrorCodeNotFound] exactly when
    it reported no rows, and [ErrorCodeUnknown] exactly for any other
    failure. *)
Theorem delete_error_codes :
  forall (id : string) (w : W),
  let r := Postgresql.Delete UUID DBPriority DBTimestamp uuidParse W
             DeleteTask id w in
  let code := Postgresql.codeOf (fst (fst r)) in
  (code = Some Internal.ErrorCodeInvalidArgument
   <-> exists err, uuidParse id = inl err)
  /\ (code = Some Internal.ErrorCodeInvalidArgument ->
      snd r = [] /\ snd (fst r) = w)
  /\ (forall val : UUID,
        uuidParse id = inr val ->
        snd r = [Postgresql.QDelete UUID DBPriority DBTimestamp val]
        /\ snd (fst r) = snd (DeleteTask val w)
        /\ (code = None <-> fst (DeleteTask val w) = None)
        /\ (code = Some Internal.ErrorCodeNotFound
            <-> fst (DeleteTask val w) = Some Postgresql.ErrNoRows)
        /\ (code = Some Internal.ErrorCodeUnknown
            <-> exists text,
                  fst (DeleteTask val w)
                  = Some (Postgresql.QueryFailed text))).
Proof.
  intros id w r code. subst code r. unfold Postgresql.Delete.
  destruct (uuidParse id) as [e|val] eqn:EU.
  - cbn. split; [split; eauto|]. split; [auto|]. intros val' [=].
  - destruct (DeleteTask val w) as [[[|text]|] w1] eqn:ED; cbn.
    + split; [split; [discriminate | intros (e & [=])]|].
      split; [discriminate|].
      intros val' [= <-]. rewrite ED. cbn.
      repeat split; try discriminate; try reflexivity.
      intros (t & [=]).
    + split; [split; [discriminate | intros (e & [=])]|].
      split; [discriminate|].
      intros val' [= <-]. rewrite ED. cbn.
      repeat split; try discriminate; try reflexivity.
      eauto.
    + split; [split; [discriminate | intros (e & [=])]|].
      split; [discriminate|].
      intros val' [= <-]. rewrite ED. cbn.
      repeat split; try discriminate; try reflexivity.
      intros (t & [=]).
Qed.

(** X8. The error code of [Update] tells what happened, as for
    [Delete]: [ErrorCodeInvalidArgument] exactly when the ID is not a
    UUID, with no query issued; for a UUID one update is issued, carrying
    that UUID and the given description and done flag, and the call
    returns nil, [ErrorCodeNotFound] or [ErrorCodeUnknown] exactly as
    the update succeeded, reported no rows, or failed otherwise. *)
Theorem update_error_codes :
  forall (id description : string) (priority : Z) (dates : Dates)
         (isDone : bool) (w : W),
  let r := Postgresql.Update UUID DBPriority DBTimestamp uuidParse
             newPriority newTimestamp W UpdateTask
             id description priority dates isDone w in
  let code := Postgresql.codeOf (fst (fst r)) in
  (code = Some Internal.ErrorCodeInvalidArgument
   <-> exists err, uuidParse id = inl err)
  /\ (code = Some Internal.ErrorCodeInvalidArgument ->
      snd r = [] /\ snd (fst r) = w)
  /\ (forall val : UUID,
        uuidParse id = inr val ->
        exists p : Postgresql.UpdateTaskParams UUID DBPriority DBTimestamp,
          snd r = [Postgresql.QUpdate UUID DBPriority DBTimestamp p]
          /\ Postgresql.UpdateID UUID DBPriority DBTimestamp p = val
          /\ Postgresql.UpdateDescription UUID DBPriority DBTimestamp p
             = description
          /\ Postgresql.UpdateDone UUID DBPriority DBTimestamp p = isDone
          /\ snd (fst r) = snd (UpdateTask p w)
          /\ (code = None <-> fst (UpdateTask p w) = None)
          /\ (code = Some Internal.ErrorCodeNotFound
              <-> fst (UpdateTask p w) = Some Postgresql.ErrNoRows)
          /\ (code = Some Internal.ErrorCodeUnknown
              <-> exists text,
                    fst (UpdateTask p w)
                    = Some (Postgresql.QueryFailed text))).
Proof.
  intros id description priority dates isDone w r code. subst code r.
  unfold Postgresql.Update.
  destruct (uuidParse id) as [e|val] eqn:EU.
  - cbn. split; [split; eauto|]. split; [auto|]. intros val' [=].
  - match goal with
    | |- context [UpdateTask ?q w] => set (p := q)
    end.
    destruct (UpdateTask p w) as [[[|text]|] w1] eqn:ED; cbn.
    + split; [split; [discriminate | intros (e & [=])]|].
      split; [discriminate|].
      intros val' [= <-]. exists p. rewrite ED. cbn.
      repeat split; try discriminate; try reflexivity.
      intros (t & [=]).
    + split; [split; [discriminate | intros (e & [=])]|].
      split; [discriminate|].
      intros val' [= <-]. exists p. rewrite ED. cbn.
      repeat split; try discriminate; try reflexivity.
      eauto.
    + split; [split; [discriminate | intros (e & [=])]|].
      split; [discriminate|].
      intros val' [= <-]. exists p. rewrite ED. cbn.
      repeat split; try discriminate; try reflexivity.
      intros (t & [=]).
Qed.

(** X9. [Find] returns the zero task whenever it returns an error, and
    its error code tells what happened.  [ErrorCodeInvalidArgument] has
    two sources: an ID that is not a UUID (then no query is issued), or
    a row that was found but whose stored priority does not convert.
    [ErrorCodeNotFound] is exactly a query that reported no rows, and
    [ErrorCodeUnknown] exactly any other query failure. *)
Theorem find_error_codes :
  forall (id : string) (w : W),
  let r := Postgresql.Find UUID DBPriority DBTimestamp uuidParse uuidString
             convertPriority timestampTime W SelectTask id w in
  let err := snd (fst (fst r)) in
  let code := Postgresql.codeOf err in
  (err <> None -> fst (fst (fst r)) = zeroTask)
  /\ ((exists e, uuidParse id = inl e) ->
      code = Some Internal.ErrorCodeInvalidArgument
      /\ snd r = [] /\ snd (fst r) = w)
  /\ (forall val : UUID,
        uuidParse id = inr val ->
        snd r = [Postgresql.QSelect UUID DBPriority DBTimestamp val]
        /\ (code = Some Internal.ErrorCodeNotFound
            <-> fst (SelectTask val w) = inl Postgresql.ErrNoRows)
        /\ (code = Some Internal.ErrorCodeUnknown
            <-> exists text,
                  fst (SelectTask val w) = inl (Postgresql.QueryFailed text))
        /\ (code = Some Internal.ErrorCodeInvalidArgument
            <-> exists row e,
                  fst (SelectTask val w) = inr row
                  /\ convertPriority
                       (Postgresql.RowPriority UUID DBPriority DBTimestamp row)
                     = inl e)
        /\ (code = None
            <-> exists row p,
                  fst (SelectTask val w) = inr row
                  /\ convertPriority
                       (Postgresql.RowPriority UUID DBPriority DBTimestamp row)
                     = inr p)).
Proof.
  intros id w r err code. subst code err r. unfold Postgresql.Find.
  destruct (uuidParse id) as [e|val] eqn:EU.
  - cbn. split; [reflexivity|]. split; [auto|]. intros val' [=].
  - destruct (SelectTask val w) as [[[|text]|row] w1] eqn:ES; cbn.
    + split; [reflexivity|]. split; [intros (e & [=])|].
      intros val' [= <-]. rewrite ES. cbn.
      repeat split; try discriminate; try reflexivity;
        try (intros (a & b & [=] & _)); try (intros (a & [=])).
    + split; [reflexivity|]. split; [intros (e & [=])|].
      intros val' [= <-]. rewrite ES. cbn.
      repeat split; try discriminate; try reflexivity;
        try (intros (a & b & [=] & _)); try (intros (a & [=])); eauto.
    + destruct (convertPriority _) as [e|p] eqn:EC; cbn.
      * split; [reflexivity|]. split; [intros (e' & [=])|].
        intros val' [= <-]. rewrite ES. cbn.
        repeat split; try discriminate; try reflexivity;
          try (intros (a & [=])); eauto.
        intros (row' & p & [= <-] & H). congruence.
      * split; [congruence|]. split; [intros (e' & [=])|].
        intros val' [= <-]. rewrite ES. cbn.
        repeat split; try discriminate; try reflexivity;
          try (intros (a & [=])); eauto.
        intros (row' & e & [= <-] & H). congruence.
Qed.

(** X10. What [Create] returns, [Find] gives back.  Provided that a UUID
    parses back from its string, that the priority and the two dates of
    the request survive their conversion to the database's types and
    back, and that the database selects the row it has just inserted
    (not done), a [Find] of the ID of a created task, right after its
    [Create], returns that very task with no error. *)
Theorem create_find_round_trip :
  forall (params : Postgresql.CreateParams) (w w1 : W) (t : Task)
         (qs : list (Postgresql.Query UUID DBPriority DBTimestamp)),
  (forall u : UUID, uuidParse (uuidString u) = inr u) ->
  convertPriority (newPriority (Postgresql.ParamsPriority params))
  = inr (Postgresql.ParamsPriority params) ->
  timestampTime (newTimestamp (Start (Postgresql.ParamsDates params)))
  = Start (Postgresql.ParamsDates params) ->
  timestampTime (newTimestamp (Due (Postgresql.ParamsDates params)))
  = Due (Postgresql.ParamsDates params) ->
  (forall u : UUID,
     InsertTask
       {| Postgresql.InsertDescription := Postgresql.ParamsDescription params;
          Postgresql.InsertPriority :=
            newPriority (Postgresql.ParamsPriority params);
          Postgresql.InsertStartDate :=
            newTimestamp (Start (Postgresql.ParamsDates params));
          Postgresql.InsertDueDate :=
            newTimestamp (Due (Postgresql.ParamsDates params)) |} w
     = (inr u, w1) ->
     fst (SelectTask u w1)
     = inr {| Postgresql.RowID := u;
              Postgresql.RowDescription := Postgresql.ParamsDescription params;
              Postgresql.RowPriority :=
                newPriority (Postgresql.ParamsPriority params);
              Postgresql.RowStartDate :=
                newTimestamp (Start (Postgresql.ParamsDates params));
              Postgresql.RowDueDate :=
                newTimestamp (Due (Postgresql.ParamsDates params));
              Postgresql.RowDone := false |}) ->
  Postgresql.Create UUID DBPriority DBTimestamp uuidString newPriority
    newTimestamp W InsertTask params w = ((t, None), w1, qs) ->
  fst (fst (Postgresql.Find UUID DBPriority DBTimestamp uuidParse uuidString
              convertPriority timestampTime W SelectTask (ID t) w1))
  = (t, None).
Proof.
  intros params w w1 t qs HU HP HS HD HDB HC.
  unfold Postgresql.Create in HC.
  match type of HC with
  | context [InsertTask ?q w] => set (p := q) in *
  end.
  destruct (InsertTask p w) as [[err|u] w'] eqn:EI; [discriminate|].
  injection HC as <- <- <-.
  unfold Postgresql.Find. cbn [ID]. rewrite HU.
  specialize (HDB u eq_refl).
  destruct (SelectTask u w') as [res w2]. cbn in HDB. subst res.
  cbn. rewrite HP, HS, HD. cbn. destruct (Postgresql.ParamsDates params).
  reflexivity.
Qed.

End RepositoryFacts.

Lemma delete_error_codes_witness :
  Postgresql.codeOf (fst (fst (Postgresql.Mem.Delete "x" Postgresql.Mem.empty)))
  = Some Internal.ErrorCodeInvalidArgument
  /\ snd (Postgresql.Mem.Delete "x" Postgresql.Mem.empty) = []
  /\ Postgresql.codeOf
       (fst (fst (Postgresql.Mem.Delete "11" Postgresql.Mem.empty)))
     = Some Internal.ErrorCodeNotFound.
Proof.
  pose proof (delete_error_codes nat Z Z Postgresql.Mem.keyParse
                Postgresql.Mem.DB Postgresql.Mem.DeleteTask
                "x" Postgresql.Mem.empty) as (H1 & H2 & _).
  assert (Postgresql.codeOf
            (fst (fst (Postgresql.Mem.Delete "x" Postgresql.Mem.empty)))
          = Some Internal.ErrorCodeInvalidArgument) as HC.
  { apply H1. exists "invalid UUID". reflexivity. }
  split; [exact HC|]. split; [exact (proj1 (H2 HC))|].
  pose proof (delete_error_codes nat Z Z Postgresql.Mem.keyParse
                Postgresql.Mem.DB Postgresql.Mem.DeleteTask
                "11" Postgresql.Mem.empty) as (_ & _ & H3).
  destruct (H3 2%nat eq_refl) as (_ & _ & _ & H4 & _).
  apply H4. reflexivity.
Defined.

Lemma update_error_codes_witness :
  let created :=
    snd (fst (Postgresql.Mem.Create
                {| Postgresql.ParamsDescription := "test";
                   Postgresql.ParamsPriority := 0;
                   Postgresql.ParamsDates := zeroDates |}
                Postgresql.Mem.empty)) in
  Postgresql.codeOf
    (fst (fst (Postgresql.Mem.Update "x" EmptyString 0 zeroDates false
                 created)))
  = Some Internal.ErrorCodeInvalidArgument
  /\ Postgresql.codeOf
       (fst (fst (Postgresql.Mem.Update "1" "changed" (-1) zeroDates
                    false created)))
     = Some Internal.ErrorCodeUnknown
  /\ Postgresql.codeOf
       (fst (fst (Postgresql.Mem.Update "11" EmptyString 0 zeroDates false
                    created)))
     = Some Internal.ErrorCodeNotFound.
Proof.
  intros created. split; [|split].
  - apply (proj1 (update_error_codes nat Z Z Postgresql.Mem.keyParse id id
                    Postgresql.Mem.DB Postgresql.Mem.UpdateTask
                    "x" EmptyString 0 zeroDates false created)).
    exists "invalid UUID". reflexivity.
  - destruct (proj2 (proj2 (update_error_codes nat Z Z Postgresql.Mem.keyParse
                              id id Postgresql.Mem.DB Postgresql.Mem.UpdateTask
                              "1" "changed" (-1) zeroDates false
                              created)) 1%nat eq_refl)
      as (p & Hq & _ & _ & _ & _ & _ & _ & HU).
    apply HU. injection Hq as <-.
    exists "invalid input value for enum". reflexivity.
  - destruct (proj2 (proj2 (update_error_codes nat Z Z Postgresql.Mem.keyParse
                              id id Postgresql.Mem.DB Postgresql.Mem.UpdateTask
                              "11" EmptyString 0 zeroDates false
                              created)) 2%nat eq_refl)
      as (p & Hq & _ & _ & _ & _ & _ & HN & _).
    apply HN. injection Hq as <-. reflexivity.
Defined.

Lemma find_error_codes_witness :
  Postgresql.codeOf
    (snd (fst (fst (Postgresql.Mem.Find "x" Postgresql.Mem.empty))))
  = Some Internal.ErrorCodeInvalidArgument
  /\ Postgresql.codeOf
       (snd (fst (fst (Postgresql.Mem.Find "1" Postgresql.Mem.empty))))
     = Some Internal.ErrorCodeNotFound
  /\ fst (fst (fst (Postgresql.Mem.Find "1" Postgresql.Mem.empty))) = zeroTask.
Proof.
  split; [|split].
  - apply (proj1 (proj2 (find_error_codes nat Z Z Postgresql.Mem.keyParse
                           Postgresql.Mem.keyString
                           Postgresql.Mem.convertPriority id
                           Postgresql.Mem.DB Postgresql.Mem.SelectTask
                           "x" Postgresql.Mem.empty))).
    exists "invalid UUID". reflexivity.
  - destruct (proj2 (proj2 (find_error_codes nat Z Z Postgresql.Mem.keyParse
                              Postgresql.Mem.keyString
                              Postgresql.Mem.convertPriority id
                              Postgresql.Mem.DB Postgresql.Mem.SelectTask
                              "1" Postgresql.Mem.empty)) 1%nat eq_refl)
      as (_ & HN & _).
    apply HN. reflexivity.
  - apply (proj1 (find_error_codes nat Z Z Postgresql.Mem.keyParse
                    Postgresql.Mem.keyString
                    Postgresql.Mem.convertPriority id
                    Postgresql.Mem.DB Postgresql.Mem.SelectTask
                    "1" Postgresql.Mem.empty)).
    discriminate.
Defined.

Lemma create_find_round_trip_witness :
  let params := {| Postgresql.ParamsDescription := "test";
                   Postgresql.ParamsPriority := 2;
                   Postgresql.ParamsDates := {| Start := 5; Due := 9 |} |} in
  let created := Postgresql.Mem.Create params Postgresql.Mem.empty in
  fst (fst (Postgresql.Mem.Find (ID (fst (fst (fst created))))
              (snd (fst created))))
  = ({| ID := "1"; Description := "test"; Priority := 2;
        TaskDates := {| Start := 5; Due := 9 |}; IsDone := false |}, None).
Proof.
  intros params created.
  refine (create_find_round_trip nat Z Z Postgresql.Mem.keyParse
            Postgresql.Mem.keyString id Postgresql.Mem.convertPriority id id
            Postgresql.Mem.DB Postgresql.Mem.InsertTask
            Postgresql.Mem.SelectTask
            params Postgresql.Mem.empty (snd (fst created)) _ (snd created)
            MemFacts.keyParse_keyString eq_refl eq_refl eq_refl _ eq_refl).
  intros u H. injection H as <-. reflexivity.
Defined.

(** ** The processes: case analysis on their states *)

Ltac unpack :=
  cbn beta iota in *;
  repeat (match goal with
          | H : _ /\ _ |- _ => destruct H
          | H : _ <-> _ |- _ => destruct H
          | H : exists _, _ |- _ => destruct H
          | H : _ \/ _ |- _ => destruct H
          | H : ?a <> ?a |- _ => destruct (H eq_refl)
          | H : ?a = ?a -> _ |- _ => specialize (H eq_refl)
          | H : Kafka.Returned _ = Kafka.Returned _ |- _ =>
              injection H as H
          | H : Redis.Returned _ = Redis.Returned _ |- _ =>
              injection H as H
          | H : ?x = _ |- _ => is_var x; subst x
          | H : _ = ?x |- _ => is_var x; subst x
          end; cbn beta iota in *);
  try discriminate.

Ltac close_cases :=
  repeat split; try discriminate; try tauto; try congruence;
  try (eexists; reflexivity);
  try (eexists; split; [reflexivity|]; cbn beta iota;
       first [tauto | split; [reflexivity|]; discriminate]);
  try (intros ? H'; injection H' as <-; reflexivity).

(** ** The process of the poll-based worker *)

Module KafkaProcessFacts.
Import Eff Calls KafkaProcess.

Section Process.
Context {W : Type} {search : SearchTask W} {consumer : Kafka.Consumer W}.
Variable parseRFC3339 : string -> option Z.

Lemma started_sound (w : W) : sound (started w).
Proof.
  unfold sound, started; simpl.
  repeat split; try congruence; try discriminate.
Qed.

Local Opaque Eff.exec.

Lemma step_sound (a : Action) (p : @Process W) :
  sound p -> sound (step parseRFC3339 a p).
Proof.
  destruct p as [[gs sh c x e] sg sl sv ec cl m d].
  intros HS. unfold sound in HS.
  cbn [srv signalled signaller server errC errClosed main deferred
       Kafka.goroutines Kafka.shutdown Kafka.closeC Kafka.ctxDone Kafka.eff]
    in HS.
  destruct sv; unpack;
    (destruct sh as [| |[?|]|]; unpack);
    try (destruct sl; unpack);
    try match goal with g : Kafka.LoopPC |- _ => destruct g; unpack end;
    try destruct m;
    destruct a as [| | | | |[|]|];
    try destruct sg; destruct c, x;
    cbv -[Eff.exec Calls.logInfo Kafka.consume];
    close_cases.
Qed.

Local Transparent Eff.exec.

Lemma exec_sound (sched : list Action) (p : @Process W) :
  sound p -> sound (exec parseRFC3339 sched p).
Proof.
  revert p. induction sched as [|a rest IH]; intros p H; simpl.
  - exact H.
  - apply IH, step_sound, H.
Qed.

Lemma exec_app (sched sched' : list Action) (p : @Process W) :
  exec parseRFC3339 (sched ++ sched') p
  = exec parseRFC3339 sched' (exec parseRFC3339 sched p).
Proof.
  revert p. induction sched as [|a rest IH]; intros p; simpl.
  - reflexivity.
  - apply IH.
Qed.

Lemma sound_exit (p : @Process W) :
  sound p ->
  (main p = MainReturned ->
   signalled p = true
   /\ Kafka.shutdown (srv p) = Kafka.Returned None
   /\ Kafka.goroutines (srv p) = [Kafka.Exited]
   /\ deferred p = [LoggerSync; Unsubscribe; Stop; Cancel; CloseErrC])
  /\ (forall err, main p = MainFatal err ->
      signalled p = true
      /\ err = Kafka.contextDone
      /\ Kafka.shutdown (srv p) = Kafka.Returned (Some Kafka.contextDone)).
Proof.
  unfold sound.
  intros (HC & HR & HV & HP & HE & HS).
  destruct (signaller p).
  - destruct HS as (_ & _ & _ & HM & _).
    split; [|intros err]; rewrite HM; discriminate.
  - destruct HS as (_ & _ & _ & _ & HM & _).
    split; [|intros err]; rewrite HM; discriminate.
  - destruct HS as (HG & _ & _ & HM & r & Hr & HX).
    split; [intros H; congruence|]. intros err Herr.
    destruct r as [err'|].
    + destruct HX as [[_ H]|[_ H]]; [congruence|].
      assert (err' = err) as -> by congruence.
      pose proof (HE err Hr) as ->. repeat split; assumption.
    + destruct HX as [_ H]. congruence.
  - destruct HS as (HG & _ & HD & r & Hr & HX).
    destruct r as [err'|].
    + split.
      * destruct HX as [[_ H]|[_ H]]; congruence.
      * intros err Herr.
        destruct HX as [[_ H]|[_ H]]; [congruence|].
        assert (err' = err) as -> by congruence.
        pose proof (HE err Hr) as ->. repeat split; assumption.
    + destruct HX as [_ HX]. split.
      * intros _. auto.
      * intros err Herr. destruct (HX err Herr).
Qed.

Lemma sound_ends (p : @Process W) :
  sound p ->
  ended
    (exec parseRFC3339
       [Signal; Signaller; Deadline; Select Go.First; Signaller; Signaller;
        Main] p) = true.
Proof.
  destruct p as [[gs sh c x e] sg sl sv ec cl m d].
  intros HS. unfold sound in HS.
  cbn [srv signalled signaller server errC errClosed main deferred
       Kafka.goroutines Kafka.shutdown Kafka.closeC Kafka.ctxDone Kafka.eff]
    in HS.
  destruct sv; unpack;
    (destruct sh as [| |[?|]|]; unpack);
    try (destruct sl; unpack);
    try match goal with g : Kafka.LoopPC |- _ => destruct g; unpack end;
    try destruct m;
    try destruct sg; destruct c, x; unpack;
    try reflexivity;
    try match goal with H : forall err, MainFatal _ <> MainFatal err |- _ =>
          destruct (H _ eq_refl) end.
Qed.

End Process.

Lemma setup_first_failure (failure : Setup -> option Go.error)
    (steps : list Setup) :
  match setup failure steps with
  | (done, Some err) =>
      exists pre s e,
        done = (pre ++ [s])%list
        /\ done `prefix_of` steps
        /\ (forall s', In s' pre -> failure s' = None)
        /\ failure s = Some e
        /\ err = Internal.WrapErrorf e Internal.ErrorCodeUnknown (label s)
  | (done, None) =>
      done = steps /\ forall s, In s steps -> failure s = None
  end.
Proof.
  induction steps as [|s rest IH]; simpl.
  - split; [reflexivity|]. intros s H. destruct H.
  - destruct (failure s) as [e|] eqn:E.
    + exists [], s, e. repeat split; auto.
      * exists rest. reflexivity.
      * intros s' H. destruct H.
    + destruct (setup failure rest) as [done [err|]].
      * destruct IH as (pre & s0 & e & -> & HP & HN & HF & ->).
        exists (s :: pre), s0, e. repeat split; auto.
        -- apply prefix_cons, HP.
        -- intros s' [<-|H]; auto.
      * destruct IH as (-> & HN). split; [reflexivity|].
        intros s' [<-|H]; auto.
Qed.

End KafkaProcessFacts.

(** X11. [run] of the poll-based worker sets up six things in a fixed
    order and stops at the first that fails: nothing after it is
    attempted, no goroutine is started, and the error returned wraps that
    failure, with code Unknown, under the name of the step.  Only when
    all six succeed does [run] return the channel, with the server not
    yet listening and not shut down. *)
Theorem run_first_failure :
  forall (W : Type) (failure : KafkaProcess.Setup -> option Go.error) (w : W),
    match KafkaProcess.run failure w with
    | (done, inl err) =>
        exists pre s e,
          done = (pre ++ [s])%list
          /\ done `prefix_of` KafkaProcess.order
          /\ (forall s', In s' pre -> failure s' = None)
          /\ failure s = Some e
          /\ err = Internal.WrapErrorf e Internal.ErrorCodeUnknown
                     (KafkaProcess.label s)
    | (done, inr p) =>
        done = KafkaProcess.order
        /\ (forall s, failure s = None)
        /\ p = KafkaProcess.started w
    end.
Proof.
  intros W failure w. unfold KafkaProcess.run.
  pose proof (KafkaProcessFacts.setup_first_failure failure
                KafkaProcess.order) as H.
  destruct (KafkaProcess.setup failure KafkaProcess.order) as [done [err|]].
  - exact H.
  - destruct H as (-> & HN). repeat split.
    intros s. apply HN. destruct s; simpl; tauto.
Qed.

(** X12. In the process [run] wires up, whatever the interleaving of the
    signal, the three goroutines, the deadline and [main], [Shutdown] of
    the server is entered at most once: the close of an already closed
    [closeC] never happens. *)
Theorem process_shutdown_once :
  forall (W : Type) (search : SearchTask W) (consumer : Kafka.Consumer W)
         (parseRFC3339 : string -> option Z) (w : W)
         (sched : list KafkaProcess.Action),
    let p := KafkaProcess.exec parseRFC3339 sched (KafkaProcess.started w) in
    Kafka.shutdown (KafkaProcess.srv p) <> Kafka.Panicked
    /\ (KafkaProcess.signaller p = KafkaProcess.SigWaiting <->
        Kafka.closeC (KafkaProcess.srv p) = Go.ChanOpen).
Proof.
  intros W search consumer parseRFC3339 w sched p.
  pose proof (KafkaProcessFacts.exec_sound parseRFC3339 sched
                (KafkaProcess.started w)
                (KafkaProcessFacts.started_sound w)) as H.
  fold p in H. unfold KafkaProcess.sound in H.
  destruct H as (HC & _ & _ & HP & _ & HS).
  split; [exact HP|].
  assert (forall r, Kafka.shutdown (KafkaProcess.srv p) = Kafka.Returned r ->
          Kafka.shutdown (KafkaProcess.srv p) <> Kafka.NotCalled) as HR.
  { intros r ->. discriminate. }
  destruct (KafkaProcess.signaller p) eqn:ES.
  - destruct HS as (HN & _). split; [intros _|reflexivity].
    destruct (Kafka.closeC (KafkaProcess.srv p)) eqn:EC; [reflexivity|].
    destruct (proj1 HC eq_refl HN).
  - destruct HS as (_ & HN & _). split; [discriminate|]. intros EO.
    pose proof (proj2 HC HN). congruence.
  - destruct HS as (_ & _ & _ & _ & r & Hr & _). split; [discriminate|].
    intros EO. pose proof (proj2 HC (HR r Hr)). congruence.
  - destruct HS as (_ & _ & _ & r & Hr & _). split; [discriminate|].
    intros EO. pose proof (proj2 HC (HR r Hr)). congruence.
Qed.

(** X13. How [main] of the poll-based worker ends.  It ends in
    [log.Fatalf("Couldn't run")] exactly when one of the steps of [run]
    fails, with the wrapped error of the first that does; no signal is
    needed for that and nothing was started.  Otherwise [run] gave the
    channel, and [main] returns normally only after a signal, when
    [Shutdown] returned nil: the one consuming goroutine has then ended
    and the deferred calls, the consumer's [Unsubscribe] among them,
    have run.  It ends in [log.Fatalf("Error while running")] only after
    a signal and only with the error of the shutdown deadline.  As long
    as neither happened, [main] is waiting on [errC]. *)
Theorem main_exit_status :
  forall (W : Type) (search : SearchTask W) (consumer : Kafka.Consumer W)
         (parseRFC3339 : string -> option Z)
         (failure : KafkaProcess.Setup -> option Go.error) (w : W)
         (sched : list KafkaProcess.Action),
    let p := KafkaProcess.exec parseRFC3339 sched (KafkaProcess.started w) in
    match KafkaProcess.mainEnding parseRFC3339 failure w sched with
    | Some (KafkaProcess.CouldntRun err) =>
        exists pre s e,
          fst (KafkaProcess.run failure w) = (pre ++ [s])%list
          /\ (pre ++ [s])%list `prefix_of` KafkaProcess.order
          /\ (forall s', In s' pre -> failure s' = None)
          /\ failure s = Some e
          /\ err = Internal.WrapErrorf e Internal.ErrorCodeUnknown
                     (KafkaProcess.label s)
    | Some KafkaProcess.Return =>
        (forall s, failure s = None)
        /\ KafkaProcess.signalled p = true
        /\ Kafka.shutdown (KafkaProcess.srv p) = Kafka.Returned None
        /\ Kafka.goroutines (KafkaProcess.srv p) = [Kafka.Exited]
        /\ KafkaProcess.deferred p
           = [KafkaProcess.LoggerSync; KafkaProcess.Unsubscribe;
              KafkaProcess.Stop; KafkaProcess.Cancel; KafkaProcess.CloseErrC]
    | Some (KafkaProcess.ErrorWhileRunning err) =>
        (forall s, failure s = None)
        /\ KafkaProcess.signalled p = true
        /\ err = Kafka.contextDone
        /\ Kafka.shutdown (KafkaProcess.srv p)
           = Kafka.Returned (Some Kafka.contextDone)
    | None =>
        (forall s, failure s = None)
        /\ KafkaProcess.main p = KafkaProcess.MainWaiting
    end.
Proof.
  intros W search consumer parseRFC3339 failure w sched p.
  unfold KafkaProcess.mainEnding, KafkaProcess.run.
  pose proof (KafkaProcessFacts.setup_first_failure failure
                KafkaProcess.order) as HF.
  destruct (KafkaProcess.setup failure KafkaProcess.order) as [done [err|]].
  - cbn [fst snd]. destruct HF as (pre & s & e & -> & H).
    exists pre, s, e. split; [reflexivity | exact H].
  - cbn [fst snd]. fold p. destruct HF as (-> & HN).
    assert (forall s, failure s = None) as HA.
    { intros s. apply HN. destruct s; simpl; tauto. }
    pose proof (KafkaProcessFacts.sound_exit p
                  (KafkaProcessFacts.exec_sound parseRFC3339 sched _
                     (KafkaProcessFacts.started_sound w))) as (HR & HE).
    destruct (KafkaProcess.main p) as [| |err] eqn:EM.
    + split; [exact HA | reflexivity].
    + split; [exact HA | exact (HR eq_refl)].
    + split; [exact HA | exact (HE err eq_refl)].
Qed.

Lemma main_exit_status_witness :
  let w := Examples.world true [Examples.message 1 Examples.createdTask] in
  let sched :=
    [KafkaProcess.Serve; KafkaProcess.Loop; KafkaProcess.Signal;
     KafkaProcess.Signaller; KafkaProcess.Loop; KafkaProcess.Loop;
     KafkaProcess.Select Go.Second; KafkaProcess.Signaller;
     KafkaProcess.Signaller; KafkaProcess.Main] in
  let p := KafkaProcess.exec Sim.noTime sched (KafkaProcess.started w) in
  let vaultDown (s : KafkaProcess.Setup) : option Go.error :=
    match s with
    | KafkaProcess.NewVaultProvider => Some "vault down"
    | KafkaProcess.NewOTExporter => Some "no exporter"
    | _ => None
    end in
  (KafkaProcess.mainEnding Sim.noTime (fun _ => None) w sched
   = Some KafkaProcess.Return
   /\ Kafka.goroutines (KafkaProcess.srv p) = [Kafka.Exited]
   /\ applier_calls (trace (Kafka.eff (KafkaProcess.srv p)))
      = [CallIndex Examples.buyMilk None])
  /\ KafkaProcess.mainEnding Sim.noTime vaultDown w []
     = Some (KafkaProcess.CouldntRun
               (Internal.WrapErrorf "vault down" Internal.ErrorCodeUnknown
                  "internal.NewVaultProvider")).
Proof.
  intros w sched p vaultDown. split.
  - pose proof (main_exit_status Sim.World _ _ Sim.noTime (fun _ => None)
                  w sched) as H.
    cbv zeta in H.
    assert (KafkaProcess.mainEnding Sim.noTime (fun _ => None) w sched
            = Some KafkaProcess.Return) as E by reflexivity.
    rewrite E in H. destruct H as (_ & _ & _ & HG & _).
    split; [exact E|]. split; [exact HG | reflexivity].
  - reflexivity.
Defined.

(** X14. When [Shutdown] has timed out, [main] can take the error from
    [errC] and end the process before the deferred calls of the signal
    goroutine have run: the consumer is then not unsubscribed. *)
Theorem fatal_exit_skips_deferred :
  forall (W : Type) (search : SearchTask W) (consumer : Kafka.Consumer W)
         (parseRFC3339 : string -> option Z) (w : W)
         (sched : list KafkaProcess.Action) (err : Go.error),
    let p := KafkaProcess.exec parseRFC3339 sched (KafkaProcess.started w) in
    KafkaProcess.signaller p = KafkaProcess.SigInShutdown ->
    Kafka.shutdown (KafkaProcess.srv p) = Kafka.Returned (Some err) ->
    let q := KafkaProcess.exec parseRFC3339
               [KafkaProcess.Signaller; KafkaProcess.Main] p in
    KafkaProcess.main q = KafkaProcess.MainFatal err
    /\ KafkaProcess.deferred q = []
    /\ forall sched',
         KafkaProcess.exec parseRFC3339 sched' q = q.
Proof.
  intros W search consumer parseRFC3339 w sched err p HS HR.
  pose proof (KafkaProcessFacts.exec_sound parseRFC3339 sched
                (KafkaProcess.started w)
                (KafkaProcessFacts.started_sound w)) as H.
  fold p in H. unfold KafkaProcess.sound in H.
  destruct H as (_ & _ & _ & _ & _ & H). rewrite HS in H.
  destruct H as (_ & _ & HE & HC & HM & HD).
  cbv zeta.
  assert (KafkaProcess.exec parseRFC3339
            [KafkaProcess.Signaller; KafkaProcess.Main] p
          = KafkaProcess.mkProcess
              (KafkaProcess.logged "Shutdown completed" (KafkaProcess.srv p))
              (KafkaProcess.signalled p) KafkaProcess.SigDeferring
              (KafkaProcess.server p) [] false (KafkaProcess.MainFatal err)
              []) as ->.
  { unfold KafkaProcess.exec, KafkaProcess.step at 2, KafkaProcess.ended,
      Kafka.panicked.
    rewrite HM, HR. simpl.
    unfold KafkaProcess.signallerStep. rewrite HS, HR, HE. simpl.
    unfold KafkaProcess.step, KafkaProcess.ended, Kafka.panicked,
      KafkaProcess.mainStep. simpl. rewrite HM, HR, HC, HD. reflexivity. }
  repeat split.
  induction sched' as [|a rest IH]; [reflexivity|exact IH].
Qed.

Lemma fatal_exit_skips_deferred_witness :
  let w := Examples.world true [Examples.message 1 Examples.createdTask] in
  let sched :=
    [KafkaProcess.Serve; KafkaProcess.Loop; KafkaProcess.Signal;
     KafkaProcess.Signaller; KafkaProcess.Deadline;
     KafkaProcess.Select Go.First] in
  let p := KafkaProcess.exec Sim.noTime sched (KafkaProcess.started w) in
  let q := KafkaProcess.exec Sim.noTime
             [KafkaProcess.Signaller; KafkaProcess.Main] p in
  KafkaProcess.main q = KafkaProcess.MainFatal Kafka.contextDone
  /\ KafkaProcess.deferred q = []
  /\ forall sched', KafkaProcess.exec Sim.noTime sched' q = q.
Proof.
  intros w sched.
  apply (fatal_exit_skips_deferred Sim.World _ _ Sim.noTime w sched
           Kafka.contextDone); reflexivity.
Defined.

(** X15. A signal followed by the deadline always lets the process end,
    whatever happened before and whatever the consuming goroutine is
    doing: once the signal goroutine, the select of [Shutdown] and [main]
    have each taken their turn, [main] has returned or has ended in
    [log.Fatalf]. *)
Theorem signal_then_deadline_ends :
  forall (W : Type) (search : SearchTask W) (consumer : Kafka.Consumer W)
         (parseRFC3339 : string -> option Z) (w : W)
         (sched : list KafkaProcess.Action),
    KafkaProcess.ended
      (KafkaProcess.exec parseRFC3339
         (sched ++ [KafkaProcess.Signal; KafkaProcess.Signaller;
                    KafkaProcess.Deadline; KafkaProcess.Select Go.First;
                    KafkaProcess.Signaller; KafkaProcess.Signaller;
                    KafkaProcess.Main])
         (KafkaProcess.started w)) = true.
Proof.
  intros W search consumer parseRFC3339 w sched.
  rewrite KafkaProcessFacts.exec_app.
  apply KafkaProcessFacts.sound_ends.
  apply KafkaProcessFacts.exec_sound, KafkaProcessFacts.started_sound.
Qed.

(** ** The process of the subscribe-based worker *)

Module RedisProcessFacts.
Import Eff Calls RedisProcess.

Ltac fields :=
  cbn [srv signalled signaller server errC errClosed main deferred
       Redis.goroutine Redis.shutdown Redis.ch Redis.chClosed Redis.ctxDone
       Redis.eff] in *.

Ltac states g sh sl sv m :=
  destruct sh as [| |[?|]|]; unpack;
  try (destruct sl; unpack);
  try (destruct sv; unpack);
  try (destruct g; unpack);
  try destruct m; unpack.

Section Process.
Context {W : Type} {search : SearchTask W}.
Variable parseRFC3339 : string -> option Z.

Lemma started_safe (w : W) : safe (started w).
Proof.
  unfold safe, serving, clean, started; simpl.
  repeat split; try congruence; try discriminate. left. reflexivity.
Qed.

Local Opaque Eff.exec.

Lemma step_safe (a : Action) (p : @Process W) :
  safe p -> safe (step parseRFC3339 a p).
Proof.
  destruct p as [[g sh c k x e] sg sl sv ec cl m d].
  intros HS. unfold safe, serving, clean, sent in HS. fields.
  states g sh sl sv m;
    destruct a as [| |[rcv|]|msg| | |[|]|];
    try destruct sg; try destruct k; try destruct c; try destruct x;
    cbv -[Eff.exec Calls.logInfo Redis.handle];
    close_cases; try (intuition congruence).
Qed.

Local Transparent Eff.exec.

Lemma exec_safe (sched : list Action) (p : @Process W) :
  safe p -> safe (exec parseRFC3339 sched p).
Proof.
  revert p. induction sched as [|a rest IH]; intros p H; simpl.
  - exact H.
  - apply IH, step_safe, H.
Qed.

Lemma safe_exit (p : @Process W) :
  safe p ->
  (main p = MainReturned ->
   signalled p = true
   /\ deferred p = [LoggerSync; RdbClose; Stop; Cancel; CloseErrC]
   /\ ((Redis.shutdown (srv p) = Redis.Returned None
        /\ Redis.goroutine (srv p) = Redis.Exited)
       \/ Redis.shutdown (srv p) = Redis.Panicked))
  /\ (forall err, main p = MainFatal err ->
      (err = Redis.pubsubReceive
       /\ server p = ServeDone
       /\ Redis.goroutine (srv p) = Redis.NotStarted)
      \/ (err = Redis.contextDone
          /\ signalled p = true
          /\ Redis.shutdown (srv p)
             = Redis.Returned (Some Redis.contextDone))).
Proof.
  destruct p as [[g sh c k x e] sg sl sv ec cl m d].
  intros HS. unfold safe, serving, clean, sent in HS. fields.
  states g sh sl sv m; try contradiction;
    (split; [intros HM|intros err' HM]); try discriminate;
    try (injection HM as <-);
    repeat split; try reflexivity;
    try (left; repeat split; reflexivity);
    try (right; repeat split; reflexivity).
Qed.

Lemma safe_panics (p : @Process W) :
  safe p ->
  Redis.goroutine (srv p) = Redis.NotStarted ->
  signaller p = SigWaiting ->
  ended p = false ->
  let q := exec parseRFC3339 [Signal; Signaller] p in
  let q' := step parseRFC3339 Signaller q in
  (Redis.shutdown (srv q) = Redis.Panicked
   /\ signaller q = SigDeferring
   /\ deferred q = [] /\ errClosed q = false)
  /\ (signaller q' = SigDone
      /\ deferred q' = [LoggerSync; RdbClose; Stop; Cancel; CloseErrC]
      /\ errClosed q' = true /\ ended q' = false)
  /\ (signaller (step parseRFC3339 Signaller q') = SigCrashed
      /\ main (step parseRFC3339 Signaller q') = MainWaiting
      /\ forall sched,
           exec parseRFC3339 sched (step parseRFC3339 Signaller q')
           = step parseRFC3339 Signaller q')
  /\ main (step parseRFC3339 Main q')
     = match errC p with
       | [] => MainReturned
       | err :: _ => MainFatal err
       end.
Proof.
  destruct p as [[g sh c k x e] sg sl sv ec cl m d].
  intros HS. unfold safe, serving, clean, sent in HS. fields.
  intros HG HL HE. cbn in HG, HL. subst g sl.
  destruct sh as [| |[?|]|]; unpack; try contradiction;
    destruct sv; unpack; try destruct m; try discriminate HE; unpack;
    cbv zeta; (split; [|split; [|split]]);
    try (repeat split; reflexivity);
    (split; [reflexivity|]; split; [reflexivity|]);
    (induction sched as [|a rest IH]; [reflexivity|exact IH]).
Qed.

End Process.

Lemma setup_stops_at_failure (failure : Setup -> option Go.error)
    (steps : list Setup) :
  match setup failure steps with
  | (done, Some err) =>
      exists pre s e,
        done = (pre ++ [s])%list
        /\ done `prefix_of` steps
        /\ (forall s', In s' pre -> failure s' = None)
        /\ failure s = Some e
        /\ err = Internal.WrapErrorf e Internal.ErrorCodeUnknown (label s)
  | (done, None) =>
      done = steps /\ forall s, In s steps -> failure s = None
  end.
Proof.
  induction steps as [|s rest IH]; simpl.
  - split; [reflexivity|]. intros s H. destruct H.
  - destruct (failure s) as [e|] eqn:E.
    + exists [], s, e. repeat split; auto.
      * exists rest. reflexivity.
      * intros s' H. destruct H.
    + destruct (setup failure rest) as [done [err|]].
      * destruct IH as (pre & s0 & e & -> & HP & HN & HF & ->).
        exists (s :: pre), s0, e. repeat split; auto.
        -- apply prefix_cons, HP.
        -- intros s' [<-|H]; auto.
      * destruct IH as (-> & HN). split; [reflexivity|].
        intros s' [<-|H]; auto.
Qed.

End RedisProcessFacts.

(** X16. How [main] of the subscribe-based worker ends.  It ends in
    [log.Fatalf("Couldn't run")] exactly when one of the steps of [run]
    fails, with the wrapped error of the first that does.  Otherwise
    [run] gave the channel.  [main] then returns normally only after a
    signal and after the deferred calls of the signal goroutine, the
    close of the Redis client among them, have run: either [Shutdown]
    returned nil, and the ranging goroutine has ended, or [Shutdown]
    panicked on the missing subscription, and [main] found [errC]
    closed by the deferred calls before the panic ended the process.
    It ends in [log.Fatalf("Error while running")] in two cases only:
    the subscription was not confirmed, and then no ranging goroutine
    was started; or, after a signal, the shutdown deadline passed. *)
Theorem subscriber_exit_status :
  forall (W : Type) (search : SearchTask W)
         (parseRFC3339 : string -> option Z)
         (failure : RedisProcess.Setup -> option Go.error) (w : W)
         (sched : list RedisProcess.Action),
    let p := RedisProcess.exec parseRFC3339 sched (RedisProcess.started w) in
    match RedisProcess.mainEnding parseRFC3339 failure w sched with
    | Some (RedisProcess.CouldntRun err) =>
        exists pre s e,
          fst (RedisProcess.run failure w) = (pre ++ [s])%list
          /\ (pre ++ [s])%list `prefix_of` RedisProcess.order
          /\ (forall s', In s' pre -> failure s' = None)
          /\ failure s = Some e
          /\ err = Internal.WrapErrorf e Internal.ErrorCodeUnknown
                     (RedisProcess.label s)
    | Some RedisProcess.Return =>
        (forall s, failure s = None)
        /\ RedisProcess.signalled p = true
        /\ RedisProcess.deferred p
           = [RedisProcess.LoggerSync; RedisProcess.RdbClose;
              RedisProcess.Stop; RedisProcess.Cancel; RedisProcess.CloseErrC]
        /\ ((Redis.shutdown (RedisProcess.srv p) = Redis.Returned None
             /\ Redis.goroutine (RedisProcess.srv p) = Redis.Exited)
            \/ Redis.shutdown (RedisProcess.srv p) = Redis.Panicked)
    | Some (RedisProcess.ErrorWhileRunning err) =>
        (forall s, failure s = None)
        /\ ((err = Redis.pubsubReceive
             /\ RedisProcess.server p = RedisProcess.ServeDone
             /\ Redis.goroutine (RedisProcess.srv p) = Redis.NotStarted)
            \/ (err = Redis.contextDone
                /\ RedisProcess.signalled p = true
                /\ Redis.shutdown (RedisProcess.srv p)
                   = Redis.Returned (Some Redis.contextDone)))
    | None =>
        (forall s, failure s = None)
        /\ RedisProcess.main p = RedisProcess.MainWaiting
    end.
Proof.
  intros W search parseRFC3339 failure w sched p.
  unfold RedisProcess.mainEnding, RedisProcess.run.
  pose proof (RedisProcessFacts.setup_stops_at_failure failure
                RedisProcess.order) as HF.
  destruct (RedisProcess.setup failure RedisProcess.order) as [done [err|]].
  - cbn [fst snd]. destruct HF as (pre & s & e & -> & H).
    exists pre, s, e. split; [reflexivity | exact H].
  - cbn [fst snd]. fold p. destruct HF as (-> & HN).
    assert (forall s, failure s = None) as HA.
    { intros s. apply HN. destruct s; simpl; tauto. }
    pose proof (RedisProcessFacts.safe_exit p
                  (RedisProcessFacts.exec_safe parseRFC3339 sched _
                     (RedisProcessFacts.started_safe w))) as (HR & HE).
    destruct (RedisProcess.main p) as [| |err] eqn:EM.
    + split; [exact HA | reflexivity].
    + split; [exact HA | exact (HR eq_refl)].
    + split; [exact HA | exact (HE err eq_refl)].
Qed.

Lemma subscriber_exit_status_witness :
  let w := Search.mkStore ∅ true in
  let refused :=
    [RedisProcess.Serve (Some "connection refused");
     RedisProcess.Serve None; RedisProcess.Main] in
  let early :=
    [RedisProcess.Signal; RedisProcess.Signaller; RedisProcess.Signaller;
     RedisProcess.Main] in
  let noRedis (s : RedisProcess.Setup) : option Go.error :=
    match s with
    | RedisProcess.NewRedis => Some "no such host"
    | _ => None
    end in
  (RedisProcess.mainEnding Sim.noTime (fun _ => None) w refused
   = Some (RedisProcess.ErrorWhileRunning Redis.pubsubReceive)
   /\ Redis.goroutine
        (RedisProcess.srv
           (RedisProcess.exec Sim.noTime refused (RedisProcess.started w)))
      = Redis.NotStarted)
  /\ (RedisProcess.mainEnding Sim.noTime (fun _ => None) w early
      = Some RedisProcess.Return
      /\ Redis.shutdown
           (RedisProcess.srv
              (RedisProcess.exec Sim.noTime early (RedisProcess.started w)))
         = Redis.Panicked)
  /\ RedisProcess.mainEnding Sim.noTime noRedis w []
     = Some (RedisProcess.CouldntRun
               (Internal.WrapErrorf "no such host" Internal.ErrorCodeUnknown
                  "newRedis")).
Proof.
  intros w refused early noRedis. split; [|split].
  - pose proof (subscriber_exit_status Search.Store _ Sim.noTime
                  (fun _ => None) w refused) as H.
    cbv zeta in H.
    assert (RedisProcess.mainEnding Sim.noTime (fun _ => None) w refused
            = Some (RedisProcess.ErrorWhileRunning Redis.pubsubReceive))
      as E by reflexivity.
    rewrite E in H. destruct H as (_ & [(_ & _ & HG) | (HC & _)]).
    + split; [exact E | exact HG].
    + discriminate HC.
  - split; reflexivity.
  - reflexivity.
Defined.

(** X17. As long as the subscription is not confirmed, be it not yet or
    because it failed, a signal makes [Shutdown] panic: it closes the nil
    [s.pubsub].  The deferred function of the signal goroutine still
    runs, up to its [close(errC)].  After that the panic ends the
    process with [main] still waiting, unless [main] gets its turn
    first: it then finds [errC] closed and returns normally, or, when
    the failed subscription had put its error there, ends in
    [log.Fatalf] with that error. *)
Theorem signal_before_subscription_panics :
  forall (W : Type) (search : SearchTask W)
         (parseRFC3339 : string -> option Z) (w : W)
         (sched : list RedisProcess.Action),
    let p := RedisProcess.exec parseRFC3339 sched (RedisProcess.started w) in
    Redis.goroutine (RedisProcess.srv p) = Redis.NotStarted ->
    RedisProcess.signaller p = RedisProcess.SigWaiting ->
    RedisProcess.ended p = false ->
    let q := RedisProcess.exec parseRFC3339
               [RedisProcess.Signal; RedisProcess.Signaller] p in
    let q' := RedisProcess.step parseRFC3339 RedisProcess.Signaller q in
    let crashed := RedisProcess.step parseRFC3339 RedisProcess.Signaller q' in
    (Redis.shutdown (RedisProcess.srv q) = Redis.Panicked
     /\ RedisProcess.signaller q = RedisProcess.SigDeferring
     /\ RedisProcess.deferred q = []
     /\ RedisProcess.errClosed q = false)
    /\ (RedisProcess.signaller q' = RedisProcess.SigDone
        /\ RedisProcess.deferred q'
           = [RedisProcess.LoggerSync; RedisProcess.RdbClose;
              RedisProcess.Stop; RedisProcess.Cancel; RedisProcess.CloseErrC]
        /\ RedisProcess.errClosed q' = true
        /\ RedisProcess.ended q' = false)
    /\ (RedisProcess.signaller crashed = RedisProcess.SigCrashed
        /\ RedisProcess.main crashed = RedisProcess.MainWaiting
        /\ forall sched',
             RedisProcess.exec parseRFC3339 sched' crashed = crashed)
    /\ RedisProcess.main
         (RedisProcess.step parseRFC3339 RedisProcess.Main q')
       = match RedisProcess.errC p with
         | [] => RedisProcess.MainReturned
         | err :: _ => RedisProcess.MainFatal err
         end.
Proof.
  intros W search parseRFC3339 w sched p.
  apply RedisProcessFacts.safe_panics.
  apply RedisProcessFacts.exec_safe, RedisProcessFacts.started_safe.
Qed.

Lemma signal_before_subscription_panics_witness :
  let w := Search.mkStore ∅ true in
  let p := RedisProcess.started w in
  let q' := RedisProcess.exec Sim.noTime
              [RedisProcess.Signal; RedisProcess.Signaller;
               RedisProcess.Signaller] p in
  Redis.shutdown (RedisProcess.srv q') = Redis.Panicked
  /\ RedisProcess.errClosed q' = true
  /\ RedisProcess.signaller
       (RedisProcess.step Sim.noTime RedisProcess.Signaller q')
     = RedisProcess.SigCrashed
  /\ RedisProcess.main (RedisProcess.step Sim.noTime RedisProcess.Main q')
     = RedisProcess.MainReturned.
Proof.
  intros w p q'.
  destruct (signal_before_subscription_panics Search.Store _ Sim.noTime w []
              eq_refl eq_refl eq_refl)
    as (_ & (_ & _ & HC & _) & (HX & _) & HM).
  split; [reflexivity|]. split; [exact HC|]. split; [exact HX | exact HM].
Defined.

(** X18. Closing the subscription does not drop what it had already
    handed over: with [n] messages waiting in the channel when
    [s.pubsub.Close()] closes it, the ranging goroutine handles all [n],
    in order, and only then logs that nothing is left and offers its
    completion to [Shutdown]. *)
Theorem close_drains_channel :
  forall (W : Type) (search : SearchTask W)
         (parseRFC3339 : string -> option Z) (s : @Redis.System W),
    Redis.shutdown s <> Redis.Panicked ->
    Redis.goroutine s = Redis.Ranging ->
    Redis.chClosed s = true ->
    let s' := Redis.run parseRFC3339
                (repeat Redis.ActLoop (S (length (Redis.ch s)))) s in
    Redis.goroutine s' = Redis.SendingDone
    /\ Redis.ch s' = []
    /\ Redis.shutdown s' = Redis.shutdown s
    /\ Redis.eff s'
       = exec (Calls.logInfo "No more messages to consume. Exiting.")
           (fold_left (fun e msg => exec (Redis.handle parseRFC3339 msg) e)
              (Redis.ch s) (Redis.eff s)).
Proof.
  intros W search parseRFC3339 [g sh c k x e]. simpl.
  intros HP -> ->. revert e.
  induction c as [|msg rest IH]; intros e.
  - unfold Redis.step, Redis.panicked, Redis.loopStep; simpl.
    destruct sh; try (destruct (HP eq_refl)); repeat split.
  - specialize (IH (exec (Redis.handle parseRFC3339 msg) e)).
    replace (Redis.step parseRFC3339 Redis.ActLoop
               (Redis.mkSystem Redis.Ranging sh (msg :: rest) true x e))
      with (Redis.mkSystem Redis.Ranging sh rest true x
              (exec (Redis.handle parseRFC3339 msg) e)).
    + exact IH.
    + unfold Redis.step, Redis.panicked, Redis.loopStep; simpl.
      destruct sh; try (destruct (HP eq_refl)); reflexivity.
Qed.

Lemma close_drains_channel_witness :
  let s := Redis.run Sim.noTime
             [Redis.ActListenAndServe None;
              Redis.ActDeliver
                (Redis.Build_Message "tasks.event.created" Json.Malformed);
              Redis.ActDeliver Examples.deletedAbc;
              Redis.ActShutdown]
             (Redis.init (Search.mkStore ∅ true)) in
  let s' := Redis.run Sim.noTime (repeat Redis.ActLoop 3) s in
  Redis.goroutine s' = Redis.SendingDone
  /\ Redis.ch s' = []
  /\ Redis.shutdown s' = Redis.shutdown s
  /\ Redis.eff s'
     = exec (Calls.logInfo "No more messages to consume. Exiting.")
         (fold_left (fun e msg => exec (Redis.handle Sim.noTime msg) e)
            (Redis.ch s) (Redis.eff s)).
Proof.
  intros s.
  apply (close_drains_channel Search.Store _ Sim.noTime s);
    [discriminate|reflexivity|reflexivity].
Defined.
